(** * file-cleaner: quarantine and restore of empty files

    A shallow embedding of [file_cleaner_quarantine.py] and the properties
    its specification states about it.

    The program is a sequence of filesystem calls.  The embedding keeps the
    filesystem as an explicit value, a finite map from absolute paths to
    nodes, and threads it through an exception-and-state monad [io], so that
    every function below has the shape of the Python function it embeds.

    Scope of the filesystem model: one device, no symbolic links, every
    operation permitted.  A call fails only for the structural reasons the
    operating system reports (a missing source, a missing or non-directory
    parent, a directory where a file is expected, ...).  Paths are absolute
    and carry no [.] or [..] component, which is what [Path.resolve()]
    returns; under these assumptions [resolve] is the identity.  A
    character of a Python [str] is a code point below 256.

    Embedded: [find_empty_files], [make_quarantine_dir],
    [_unique_path_if_exists], [safe_move], [write_metadata],
    [find_latest_quarantine], [restore_from_quarantine],
    [list_quarantines] and the two branches of [main]. *)

From Stdlib Require Import ZArith String Ascii List Lia Bool.
From stdpp Require Import base option list gmap fin_maps strings pretty.

Local Open Scope string_scope.
Local Open Scope list_scope.

(** ** Python strings *)

(** [s.rfind(c)]: the index of the last [c] in [s]; [None] stands for -1. *)
Fixpoint rfind (c : ascii) (s : string) : option nat :=
  match s with
  | EmptyString => None
  | String a s' =>
      match rfind c s' with
      | Some i => Some (S i)
      | None => if Ascii.eqb a c then Some 0 else None
      end
  end.

(** [s[:i]] and [s[i:]]. *)
Fixpoint str_take (i : nat) (s : string) : string :=
  match i, s with
  | S i', String a s' => String a (str_take i' s')
  | _, _ => EmptyString
  end.

Fixpoint str_drop (i : nat) (s : string) : string :=
  match i, s with
  | S i', String _ s' => str_drop i' s'
  | _, _ => s
  end.

(** [s.startswith(p)]. *)
Definition startswith (s p : string) : bool := String.prefix p s.

(** [sep.join(l)]. *)
Fixpoint join (sep : string) (l : list string) : string :=
  match l with
  | [] => ""
  | [x] => x
  | x :: l' => x +:+ sep +:+ join sep l'
  end.

(** [s.split(c)] for a one-character separator. *)
Fixpoint split_on (c : ascii) (s : string) : list string :=
  match s with
  | EmptyString => [""]
  | String a s' =>
      match split_on c s' with
      | [] => [String a ""]
      | w :: ws => if Ascii.eqb a c then "" :: w :: ws else String a w :: ws
      end
  end.

(** [p in s]: [p] occurs in [s] as a substring. *)
Fixpoint occurs_in (p s : string) : bool :=
  String.prefix p s ||
  match s with
  | EmptyString => false
  | String _ s' => occurs_in p s'
  end.

(** ** Paths (pathlib) *)

(** A path is the list of its components, innermost first: [/t/sub/a.txt]
    is [["a.txt"; "sub"; "t"]] and the root [/] is [[]].  With this
    orientation [parent] is the tail and [joinpath] with one name is a
    cons. *)
Abbreviation Path := (list string).

(** [Path(s)] for an absolute string: empty and [.] segments are dropped. *)
Definition Path_of_string (s : string) : Path :=
  rev (List.filter (fun c => negb (String.eqb c "" || String.eqb c "."))
         (split_on "/" s)).

(** [str(path)]. *)
Definition str (p : Path) : string := "/" +:+ join "/" (rev p).

(** [path.name]: the final component, empty for the root. *)
Definition path_name (p : Path) : string :=
  match p with
  | [] => ""
  | n :: _ => n
  end.

(** [path.parent]; the root is its own parent. *)
Definition path_parent (p : Path) : Path :=
  match p with
  | [] => []
  | _ :: d => d
  end.

(** [path.suffix] and [path.stem], as pathlib computes them with [rfind]:
    the name is cut at its last dot when that dot is neither the first nor
    the last character. *)
Definition suffix_index (n : string) : option nat :=
  match rfind "." n with
  | Some i => if Nat.ltb 0 i && Nat.ltb i (String.length n - 1) then Some i else None
  | None => None
  end.

Definition path_suffix (p : Path) : string :=
  match suffix_index (path_name p) with
  | Some i => str_drop i (path_name p)
  | None => ""
  end.

Definition path_stem (p : Path) : string :=
  match suffix_index (path_name p) with
  | Some i => str_take i (path_name p)
  | None => path_name p
  end.

(** [d.joinpath(rel)] for a relative [rel]; [d.joinpath(name)] is
    [joinpath d (Path_of_string name)]. *)
Definition joinpath (d rel : Path) : Path := rel ++ d.

(** [Path(name)] for a single name; [Path("")] is the empty relative path. *)
Definition rel_of_name (n : string) : Path :=
  if String.eqb n "" then [] else [n].

(** [p.relative_to(root)]: [None] stands for the [ValueError] raised when
    [p] does not lie under [root]. *)
Definition relative_to (p root : Path) : option Path :=
  if bool_decide (root `suffix_of` p)
  then Some (take (length p - length root) p)
  else None.

(** [p.parts] contains a component that starts with a dot. *)
Definition has_hidden_part (p : Path) : bool :=
  existsb (fun part => startswith part ".") p.

(** ** The filesystem *)

(** A regular file carries its content and its modification time; a
    directory carries nothing, its entries are the paths below it. *)
Inductive Node : Type :=
  | File (data : string) (mtime : nat)
  | Dir.

Abbreviation FileSystem := (gmap (list string) Node).

(** [os.stat]: the root always exists and is a directory. *)
Definition stat (fs : FileSystem) (p : Path) : option Node :=
  match p with
  | [] => Some Dir
  | _ => fs !! p
  end.

Definition path_exists (fs : FileSystem) (p : Path) : bool :=
  match stat fs p with
  | Some _ => true
  | None => false
  end.

Definition is_dir (fs : FileSystem) (p : Path) : bool :=
  match stat fs p with
  | Some Dir => true
  | _ => false
  end.

Definition is_file (fs : FileSystem) (p : Path) : bool :=
  match stat fs p with
  | Some (File _ _) => true
  | _ => false
  end.

(** The size the operating system reports for a directory entry. *)
Definition dir_st_size : Z := 4096.

(** [st_size]. *)
Definition st_size (n : Node) : Z :=
  match n with
  | File data _ => Z.of_nat (String.length data)
  | Dir => dir_st_size
  end.

(** A filesystem is well formed when every entry sits in a directory; the
    root is not an entry, it is always there. *)
Definition wfb (fs : FileSystem) : bool :=
  forallb
    (fun p => negb (bool_decide (p = [])) && is_dir fs (path_parent p))
    (map_to_list fs).*1.

Definition wf (fs : FileSystem) : Prop := wfb fs = true.

(** ** Exceptions and state *)

Inductive exn : Type :=
  | OSError
  | ShutilError
  | ValueError
  | TypeError
  | AttributeError
  | JSONDecodeError.

Inductive result (A : Type) : Type :=
  | Ok (a : A)
  | Raise (e : exn).

Arguments Ok {A} a.
Arguments Raise {A} e.

(** A computation reads and changes the filesystem and either returns a
    value or raises; the filesystem it leaves behind is kept in both
    cases. *)
Definition io (A : Type) : Type := FileSystem -> result A * FileSystem.

Definition ret {A} (a : A) : io A := fun fs => (Ok a, fs).

Definition raise {A} (e : exn) : io A := fun fs => (Raise e, fs).

Definition bind {A B} (m : io A) (k : A -> io B) : io B :=
  fun fs =>
    match m fs with
    | (Ok a, fs') => k a fs'
    | (Raise e, fs') => (Raise e, fs')
    end.

(** [try: m  except Exception as e: h e]. *)
Definition try_except {A} (m : io A) (h : exn -> io A) : io A :=
  fun fs =>
    match m fs with
    | (Ok a, fs') => (Ok a, fs')
    | (Raise e, fs') => h e fs'
    end.

(** A read-only query of the filesystem. *)
Definition gets {A} (f : FileSystem -> A) : io A := fun fs => (Ok (f fs), fs).

Notation "'let*' x ':=' m 'in' k" := (bind m (fun x => k))
  (at level 10, x name, m at level 100, k at level 200).
Notation "'let*' ' p ':=' m 'in' k" := (bind m (fun p => k))
  (at level 10, p strict pattern, m at level 100, k at level 200).

(** ** Filesystem calls *)

(** [p.mkdir(parents=True, exist_ok=True)] on the filesystem value: the
    missing ancestors are created outermost first; a regular file on the
    way makes the call fail before anything is created. *)
Fixpoint mkdir_parents (fs : FileSystem) (p : Path) : option FileSystem :=
  match p with
  | [] => Some fs
  | n :: d =>
      match fs !! (n :: d) with
      | Some Dir => Some fs
      | Some (File _ _) => None
      | None =>
          match mkdir_parents fs d with
          | Some fs' => Some (<[n :: d := Dir]> fs')
          | None => None
          end
      end
  end.

Definition mkdir (p : Path) : io unit :=
  fun fs =>
    match mkdir_parents fs p with
    | Some fs' => (Ok tt, fs')
    | None => (Raise OSError, fs)
    end.

(** [p.unlink()]: removes a regular file; fails on a directory and on a
    missing path. *)
Definition unlink (p : Path) : io unit :=
  fun fs =>
    match stat fs p with
    | Some (File _ _) => (Ok tt, delete p fs)
    | _ => (Raise OSError, fs)
    end.

(** [p.read_text()]. *)
Definition read_text (p : Path) : io string :=
  fun fs =>
    match stat fs p with
    | Some (File data _) => (Ok data, fs)
    | _ => (Raise OSError, fs)
    end.

(** [p.write_text(data)] at time [now]: creates or truncates the regular
    file [p]; its directory must exist. *)
Definition write_text (p : Path) (data : string) (now : nat) : io unit :=
  fun fs =>
    match stat fs p with
    | Some Dir => (Raise OSError, fs)
    | _ =>
        if is_dir fs (path_parent p)
        then (Ok tt, <[p := File data now]> fs)
        else (Raise OSError, fs)
    end.

(** [os.rename] of a directory: the entries at and below [src] are
    re-rooted at [dst]. *)
Definition reroot (src dst p : Path) : Path :=
  take (length p - length src) p ++ dst.

Definition rename_tree (fs : FileSystem) (src dst : Path) : FileSystem :=
  list_to_map
    (prod_map (reroot src dst) id
       <$> map_to_list (filter (fun kv => src `suffix_of` kv.1) fs))
  ∪ filter (fun kv => ~ src `suffix_of` kv.1) fs.

(** [shutil.move(src, dst)].  A destination that is a directory receives
    the source under its own name.  A regular file is renamed, replacing a
    regular file at the destination.  A directory is renamed to a free
    destination outside itself; when the destination's parent is missing
    the copy-and-delete fallback of [shutil.move] creates it. *)
Definition shutil_move (src dst : Path) : io unit :=
  fun fs =>
    if is_dir fs dst && bool_decide (src = dst) then (Ok tt, fs)
    else
      let real_dst :=
        if is_dir fs dst then joinpath dst (rel_of_name (path_name src))
        else dst in
      if is_dir fs dst && path_exists fs real_dst then (Raise ShutilError, fs)
      else
        match stat fs src with
        | None => (Raise OSError, fs)
        | Some (File data mtime) =>
            if is_dir fs (path_parent real_dst)
            then (Ok tt, <[real_dst := File data mtime]> (delete src fs))
            else (Raise OSError, fs)
        | Some Dir =>
            if bool_decide (src `suffix_of` dst) then (Raise ShutilError, fs)
            else
              match stat fs real_dst with
              | Some _ => (Raise OSError, fs)
              | None =>
                  match mkdir_parents fs (path_parent real_dst) with
                  | Some fs' => (Ok tt, rename_tree fs' src real_dst)
                  | None => (Raise OSError, fs)
                  end
              end
        end.

(** ** PathNamer: [_unique_path_if_exists] *)

(** The candidate [parent / f"{stem}_{counter}{suffix}"]. *)
Definition candidate (path : Path) (counter : nat) : Path :=
  joinpath (path_parent path)
    [path_stem path +:+ "_" +:+ pretty counter +:+ path_suffix path].

(** The [while True] loop, run for at most [fuel] iterations starting at
    [counter]; [None] when the fuel runs out. *)
Fixpoint unique_loop (fs : FileSystem) (path : Path) (fuel counter : nat)
  : option Path :=
  match fuel with
  | O => None
  | S fuel' =>
      if negb (path_exists fs (candidate path counter))
      then Some (candidate path counter)
      else unique_loop fs path fuel' (S counter)
  end.

(** The loop is given one iteration more than the filesystem has entries;
    [unique_loop_terminates] shows that it returns within that bound, so
    the last branch below is never taken. *)
Definition _unique_path_if_exists (fs : FileSystem) (path : Path) : Path :=
  if negb (path_exists fs path) then path
  else
    match unique_loop fs path (S (size fs)) 1 with
    | Some c => c
    | None => path
    end.

(** What the specification asks of [unique]: the path itself when it is
    free, otherwise the candidate with the least counter from 1 that is
    free. *)
Definition unique_spec (fs : FileSystem) (path result : Path) : Prop :=
  (path_exists fs path = false /\ result = path) \/
  (path_exists fs path = true /\
   exists n, 1 <= n /\ result = candidate path n /\
     path_exists fs result = false /\
     forall m, 1 <= m < n -> path_exists fs (candidate path m) = true).

(** ** JSON values and [json.dumps(..., indent=2)] *)

(** A decoded JSON document as Python holds it: a [dict] keeps its items
    in insertion order.  A float is carried by its [repr]; floating-point
    arithmetic is not modelled. *)
Inductive JSON : Type :=
  | JNull
  | JBool (b : bool)
  | JInt (z : Z)
  | JFloat (repr : string)
  | JString (s : string)
  | JArray (items : list JSON)
  | JObject (items : list (string * JSON)).

(** [d.get(key)]: [None] when the key is absent. *)
Fixpoint dict_get (key : string) (d : list (string * JSON)) : option JSON :=
  match d with
  | [] => None
  | (k, v) :: d' => if String.eqb k key then Some v else dict_get key d'
  end.

(** [d[key] = v]: the value is replaced in place when the key is present,
    and the item is added last otherwise. *)
Fixpoint dict_set (key : string) (v : JSON) (d : list (string * JSON))
  : list (string * JSON) :=
  match d with
  | [] => [(key, v)]
  | (k, w) :: d' =>
      if String.eqb k key then (k, v) :: d' else (k, w) :: dict_set key v d'
  end.

Definition quote : string := String (ascii_of_nat 34) "".
Definition newline : string := String (ascii_of_nat 10) "".

Definition hex_digit (n : nat) : string :=
  String.substring n 1 "0123456789abcdef".

(** One character under [ensure_ascii]: the two-character escapes, and
    [\u00XX] for every other character outside the printable ASCII
    range. *)
Definition escape_char (c : ascii) : string :=
  let n := nat_of_ascii c in
  if Nat.eqb n 34 then "\" +:+ quote
  else if Nat.eqb n 92 then "\\"
  else if Nat.eqb n 10 then "\n"
  else if Nat.eqb n 13 then "\r"
  else if Nat.eqb n 9 then "\t"
  else if Nat.eqb n 8 then "\b"
  else if Nat.eqb n 12 then "\f"
  else if Nat.ltb n 32 || Nat.ltb 126 n
       then "\u00" +:+ hex_digit (n / 16) +:+ hex_digit (n mod 16)
  else String c "".

Fixpoint escape (s : string) : string :=
  match s with
  | EmptyString => ""
  | String c s' => escape_char c +:+ escape s'
  end.

Definition encode_string (s : string) : string := quote +:+ escape s +:+ quote.

(** A line break followed by [level] indentation steps of two spaces. *)
Fixpoint indentation (level : nat) : string :=
  match level with
  | O => ""
  | S l => "  " +:+ indentation l
  end.

Definition newline_indent (level : nat) : string :=
  newline +:+ indentation level.

(** The encoder of [json.dumps(obj, indent=2)] at nesting depth [level]:
    an empty container is written closed; otherwise every item starts a
    line one step deeper, items are separated by a comma, a key and its
    value by a colon and a space, and the closing bracket returns to the
    container's own depth. *)
Fixpoint encode (level : nat) (v : JSON) : string :=
  match v with
  | JNull => "null"
  | JBool true => "true"
  | JBool false => "false"
  | JInt z => pretty z
  | JFloat repr => repr
  | JString s => encode_string s
  | JArray [] => "[]"
  | JArray items =>
      "[" +:+ newline_indent (S level)
      +:+ join ("," +:+ newline_indent (S level))
            (List.map (encode (S level)) items)
      +:+ newline_indent level +:+ "]"
  | JObject [] => "{}"
  | JObject items =>
      "{" +:+ newline_indent (S level)
      +:+ join ("," +:+ newline_indent (S level))
            (List.map
               (fun kv => encode_string (fst kv) +:+ ": "
                          +:+ encode (S level) (snd kv))
               items)
      +:+ newline_indent level +:+ "}"
  end.

Definition json_dumps (v : JSON) : string := encode 0 v.

(** [for entry in records]: a list yields its items, a [dict] its keys, a
    [str] its characters; any other value is not iterable. *)
Definition iterate (v : JSON) : io (list JSON) :=
  match v with
  | JArray items => ret items
  | JObject items => ret (List.map (fun kv => JString (fst kv)) items)
  | JString s =>
      ret (List.map (fun c => JString (String c "")) (list_ascii_of_string s))
  | _ => raise TypeError
  end.

(** [Path(entry.get(key))]: [get] needs a [dict] and [Path] needs a
    [str]. *)
Definition entry_path (entry : JSON) (key : string) : io Path :=
  match entry with
  | JObject items =>
      match dict_get key items with
      | Some (JString s) => ret (Path_of_string s)
      | _ => raise TypeError
      end
  | _ => raise AttributeError
  end.

(** ** The program *)

(** [path.rglob] with the pattern that matches every name: every entry
    strictly below [path].  [path.iterdir()]: the entries directly in
    [path].  The order is that of the directory listing, which the
    operating system leaves unspecified; the map's own order stands for
    it. *)
Definition rglob (fs : FileSystem) (path : Path) : list Path :=
  List.filter
    (fun p => bool_decide (path `suffix_of` p) && negb (bool_decide (p = path)))
    (map_to_list fs).*1.

Definition iterdir (fs : FileSystem) (path : Path) : list Path :=
  List.filter
    (fun p => negb (bool_decide (p = [])) && bool_decide (path_parent p = path))
    (map_to_list fs).*1.

(** [path.iterdir()] as a call: it needs a directory. *)
Definition iterdir_io (path : Path) : io (list Path) :=
  fun fs =>
    if is_dir fs path then (Ok (iterdir fs path), fs) else (Raise OSError, fs).

(** The loop of [find_empty_files] over what the iterator yields. *)
Definition empty_among (fs : FileSystem) (ignore_hidden : bool)
    (iterator : list Path) : list Path :=
  List.filter
    (fun p =>
       if is_file fs p then
         if ignore_hidden && has_hidden_part p then false
         else
           match stat fs p with
           | Some n => Z.eqb (st_size n) 0
           | None => false
           end
       else false)
    iterator.

(** [find_empty_files].  The iterator of a recursive scan is [rglob],
    which yields nothing where there is no directory; that of a flat scan
    is [iterdir], which raises there, and nothing in the function catches
    it. *)
Definition find_empty_files (path : Path) (recursive ignore_hidden : bool)
  : io (list Path) :=
  let* iterator :=
    if recursive then gets (fun fs => rglob fs path) else iterdir_io path in
  gets (fun fs => empty_among fs ignore_hidden iterator).

(** [t] is the value of [time.strftime] for the directory name; [base] is
    the base directory when one is given and [cwd] the current
    directory. *)
Definition make_quarantine_dir (base : option Path) (cwd : Path) (t : string)
  : io Path :=
  let base := match base with Some b => b | None => cwd end in
  let q := joinpath base ["quarantine-" +:+ t] in
  let* _ := mkdir q in
  ret q.

(** [src.stat().st_size if src.exists() else None]. *)
Definition size_or_none (fs : FileSystem) (p : Path) : JSON :=
  match stat fs p with
  | Some n => JInt (st_size n)
  | None => JNull
  end.

(** [time] is the value of [time.strftime] when the record is built. *)
Definition safe_move (src dst_dir : Path) (preserve_structure : bool)
    (target_root : Path) (dry_run : bool) (time : string)
  : io (Path * JSON) :=
  let* dest_path :=
    if preserve_structure then
      let rel :=
        match relative_to src target_root with
        | Some rel => rel
        | None => rel_of_name (path_name src)
        end in
      let dest_path := joinpath dst_dir rel in
      let* _ := mkdir (path_parent dest_path) in
      ret dest_path
    else
      let dest_path := joinpath dst_dir (rel_of_name (path_name src)) in
      let* _ := mkdir (path_parent dest_path) in
      ret dest_path in
  let* final_dest := gets (fun fs => _unique_path_if_exists fs dest_path) in
  if dry_run then
    let* size := gets (fun fs => size_or_none fs src) in
    ret (final_dest,
         JObject [("original", JString (str src));
                  ("moved_to", JString (str final_dest));
                  ("size", size);
                  ("time", JString time);
                  ("action", JString "dry-run")])
  else
    let* _ := shutil_move src final_dest in
    let* size := gets (fun fs => size_or_none fs final_dest) in
    ret (final_dest,
         JObject [("original", JString (str src));
                  ("moved_to", JString (str final_dest));
                  ("size", size);
                  ("time", JString time);
                  ("action", JString "moved")]).

(** [json.loads(meta_file.read_text())]; [json_loads] returns [None] where
    the library raises. *)
Definition load_json (json_loads : string -> option JSON) (meta_file : Path)
  : io JSON :=
  let* text := read_text meta_file in
  match json_loads text with
  | Some v => ret v
  | None => raise JSONDecodeError
  end.

(** [existing.extend(records)]: only a list has [extend]. *)
Definition extend (existing : JSON) (records : list JSON) : io JSON :=
  match existing with
  | JArray items => ret (JArray (items ++ records))
  | _ => raise AttributeError
  end.

(** [now] is the clock at the time of the write. *)
Definition write_metadata (json_loads : string -> option JSON)
    (quarantine_dir : Path) (records : list JSON) (now : nat) : io unit :=
  let meta_file := joinpath quarantine_dir ["metadata.json"] in
  let* present := gets (fun fs => path_exists fs meta_file) in
  let* existing :=
    if present
    then try_except (load_json json_loads meta_file)
           (fun _ => ret (JArray []))
    else ret (JArray []) in
  let* existing := extend existing records in
  write_text meta_file (json_dumps existing) now.

(** The restore report.  An error entry keeps the fixed part of the
    message; the text of the exception is not modelled. *)
Inductive ErrorKind : Type :=
  | FailedToCreateParent
  | OverwriteFallbackFailed
  | CollisionHandlingError
  | MoveError.

Record Report : Type := mkReport {
  restored : list (Path * Path);
  skipped : list (Path * Path * string);
  errors : list (Path * Path * ErrorKind)
}.

Definition empty_report : Report := mkReport [] [] [].

Definition add_restored (r : Report) (x : Path * Path) : Report :=
  mkReport (restored r ++ [x]) (skipped r) (errors r).

Definition add_skipped (r : Report) (x : Path * Path * string) : Report :=
  mkReport (restored r) (skipped r ++ [x]) (errors r).

Definition add_error (r : Report) (x : Path * Path * ErrorKind) : Report :=
  mkReport (restored r) (skipped r) (errors r ++ [x]).

(** The body of the loop over the journal for an entry whose two paths
    have been read. *)
Definition restore_record (dry_run yes : bool) (r : Report)
    (original moved_to : Path) : io Report :=
  let* moved_exists := gets (fun fs => path_exists fs moved_to) in
  if negb moved_exists
  then ret (add_skipped r (original, moved_to, "moved file missing"))
  else
    let target_parent := path_parent original in
    let* parent_exists := gets (fun fs => path_exists fs target_parent) in
    let* parent_ok :=
      if negb parent_exists
      then try_except
             (let* _ := if negb dry_run then mkdir target_parent else ret tt in
              ret true)
             (fun _ => ret false)
      else ret true in
    if negb parent_ok
    then ret (add_error r (original, moved_to, FailedToCreateParent))
    else
      let* original_exists := gets (fun fs => path_exists fs original) in
      if original_exists then
        if yes then
          try_except
            (if negb dry_run then
               let* tmp := gets (fun fs => _unique_path_if_exists fs original) in
               let* _ := unlink original in
               let* _ := shutil_move moved_to original in
               ret (add_restored r (original, moved_to))
             else ret (add_restored r (original, moved_to)))
            (fun e =>
               try_except
                 (let* candidate :=
                    gets (fun fs => _unique_path_if_exists fs original) in
                  let* _ :=
                    if negb dry_run then shutil_move moved_to candidate
                    else ret tt in
                  ret (add_restored r (candidate, moved_to)))
                 (fun ee =>
                    ret (add_error r
                           (original, moved_to, OverwriteFallbackFailed))))
        else
          let* candidate :=
            gets (fun fs => _unique_path_if_exists fs original) in
          try_except
            (let* _ :=
               if negb dry_run then shutil_move moved_to candidate
               else ret tt in
             ret (add_restored r (candidate, moved_to)))
            (fun e =>
               ret (add_error r (original, moved_to, CollisionHandlingError)))
      else
        try_except
          (let* _ :=
             if negb dry_run then shutil_move moved_to original else ret tt in
           ret (add_restored r (original, moved_to)))
          (fun e => ret (add_error r (original, moved_to, MoveError))).

(** One iteration of [for entry in records]. *)
Definition restore_entry (dry_run yes : bool) (r : Report) (entry : JSON)
  : io Report :=
  let* original := entry_path entry "original" in
  let* moved_to := entry_path entry "moved_to" in
  restore_record dry_run yes r original moved_to.

Fixpoint restore_loop (dry_run yes : bool) (r : Report) (entries : list JSON)
  : io Report :=
  match entries with
  | [] => ret r
  | entry :: entries' =>
      let* r' := restore_entry dry_run yes r entry in
      restore_loop dry_run yes r' entries'
  end.

(** The two paths of a journal entry that [restore_entry] can read: a
    [dict] whose [original] and [moved_to] are strings. *)
Definition record_paths (entry : JSON) : option (Path * Path) :=
  match entry with
  | JObject items =>
      match dict_get "original" items, dict_get "moved_to" items with
      | Some (JString o), Some (JString m) =>
          Some (Path_of_string o, Path_of_string m)
      | _, _ => None
      end
  | _ => None
  end.

(** What [restore_from_quarantine] reports: one of its two early returns,
    or the summary it prints after the loop. *)
Inductive Outcome : Type :=
  | NoMetadata
  | MetadataUnreadable
  | Summary (r : Report).

Definition restore_from_quarantine (json_loads : string -> option JSON)
    (quarantine_dir : Path) (dry_run yes : bool) : io Outcome :=
  let meta_file := joinpath quarantine_dir ["metadata.json"] in
  let* present := gets (fun fs => path_exists fs meta_file) in
  if negb present then ret NoMetadata
  else
    let* records :=
      try_except
        (let* v := load_json json_loads meta_file in ret (Some v))
        (fun _ => ret None) in
    match records with
    | None => ret MetadataUnreadable
    | Some records =>
        let* entries := iterate records in
        let* r := restore_loop dry_run yes empty_report entries in
        ret (Summary r)
    end.

(** [s.strip()] and [s.lower()] on code points below 256. *)
Definition is_space (c : ascii) : bool :=
  let n := nat_of_ascii c in
  (Nat.leb 9 n && Nat.leb n 13) || (Nat.leb 28 n && Nat.leb n 32)
  || Nat.eqb n 133 || Nat.eqb n 160.

Fixpoint lstrip (s : string) : string :=
  match s with
  | String c s' => if is_space c then lstrip s' else s
  | EmptyString => EmptyString
  end.

Fixpoint rstrip (s : string) : string :=
  match s with
  | String c s' =>
      match rstrip s' with
      | EmptyString => if is_space c then EmptyString else String c EmptyString
      | r => String c r
      end
  | EmptyString => EmptyString
  end.

Definition strip (s : string) : string := rstrip (lstrip s).

Definition lower_char (c : ascii) : ascii :=
  let n := nat_of_ascii c in
  if (Nat.leb 65 n && Nat.leb n 90)
     || (Nat.leb 192 n && Nat.leb n 222 && negb (Nat.eqb n 215))
  then ascii_of_nat (n + 32)
  else c.

Fixpoint lower (s : string) : string :=
  match s with
  | String c s' => String (lower_char c) (lower s')
  | EmptyString => EmptyString
  end.

(** The command line of the scan-and-quarantine mode. *)
Record Args : Type := mkArgs {
  args_target : Path;
  args_recursive : bool;
  args_dry_run : bool;
  args_yes : bool;
  args_quarantine : option Path;
  args_preserve_structure : bool;
  args_ignore_hidden : bool
}.

(** What the run reads from its environment: the current directory, the
    two clock formats ([stamp] names the quarantine directory, [time_at i]
    is the time read when the [i]-th file is moved), the line typed at the
    prompt, and the clock at the journal write. *)
Record Env : Type := mkEnv {
  env_cwd : Path;
  env_stamp : string;
  env_time_at : nat -> string;
  env_input : string;
  env_now : nat
}.

Inductive Exit : Type :=
  | Returned
  | SysExit (code : nat).

(** The loop of [main] over the empty files; [i] counts the files seen.
    The line printed for a failed move is kept without the text of the
    exception. *)
Fixpoint move_all (args : Args) (env : Env) (quarantine_dir : Path) (i : nat)
    (empty_files : list Path) (moved_meta : list JSON) (out : list string)
  : io (list JSON * list string) :=
  match empty_files with
  | [] => ret (moved_meta, out)
  | src :: rest =>
      let* '(moved_meta', out') :=
        try_except
          (let* '(dest, meta) :=
             safe_move src quarantine_dir (args_preserve_structure args)
               (args_target args) false (env_time_at env i) in
           ret (moved_meta ++ [meta],
                out ++ ["[MOVED] " +:+ str src +:+ " -> " +:+ str dest]))
          (fun e =>
             ret (moved_meta,
                  out ++ ["[ERROR] Could not move " +:+ str src])) in
      move_all args env quarantine_dir (S i) rest moved_meta' out'
  end.

(** [main] with [args.restore] false: what it prints, and how it ends. *)
Definition main (json_loads : string -> option JSON) (args : Args) (env : Env)
  : io (list string * Exit) :=
  let target := args_target args in
  let* target_ok := gets (fun fs => path_exists fs target && is_dir fs target) in
  if negb target_ok
  then ret (["Target directory does not exist or is not a directory: "
             +:+ str target], SysExit 1)
  else
    let* empty_files :=
      find_empty_files target (args_recursive args)
        (args_ignore_hidden args) in
    match empty_files with
    | [] => ret (["No empty files found."], Returned)
    | _ =>
        let out :=
          "Empty files found:"
          :: List.map (fun f => " - " +:+ str f) empty_files in
        if args_dry_run args
        then ret (out ++ [newline +:+ "Dry-run: no files were moved."],
                  Returned)
        else
          let* quarantine_dir :=
            make_quarantine_dir (args_quarantine args) (env_cwd env)
              (env_stamp env) in
          let out :=
            out ++ [newline +:+ "Quarantine folder (will be used): "
                    +:+ str quarantine_dir] in
          let prompt :=
            newline +:+ "Move these files to quarantine? Type 'yes' to confirm: " in
          if negb (args_yes args)
             && negb (String.eqb (lower (strip (env_input env))) "yes")
          then ret (out ++ [prompt; "Aborted by user."], Returned)
          else
            let out := if args_yes args then out else out ++ [prompt] in
            let* '(moved_meta, out) :=
              move_all args env quarantine_dir 0 empty_files [] out in
            let* out :=
              match moved_meta with
              | [] => ret out
              | _ =>
                  try_except
                    (let* _ :=
                       write_metadata json_loads quarantine_dir moved_meta
                         (env_now env) in
                     ret out)
                    (fun e =>
                       ret (out ++ ["Warning: failed to write metadata.json"]))
              end in
            let out :=
              out ++ [newline +:+ "Summary:";
                      "Files moved: " +:+ pretty (length moved_meta)] in
            match moved_meta with
            | [] => ret (out ++ ["No files were moved."], Returned)
            | _ => ret (out ++ ["Quarantine location: "
                                +:+ str quarantine_dir], Returned)
            end
    end.

(** ** A reference decoder

    The program functions above take the decoder of the [json] library as
    a parameter, and what is proved about them holds for every decoder.
    The examples need one that runs: [json_loads] below reads the JSON
    grammar as [json.loads] does (white space, the three literals and the
    three non-finite constants, numbers, strings with their escapes,
    arrays, objects with the last of two equal keys winning) and answers
    [None] where the library raises.  Two approximations: a float is
    decoded to its lexeme, and an escape for a code point from 256 up is
    refused. *)

Definition is_json_space (c : ascii) : bool :=
  let n := nat_of_ascii c in
  Nat.eqb n 32 || Nat.eqb n 9 || Nat.eqb n 10 || Nat.eqb n 13.

Fixpoint skip_ws (s : string) : string :=
  match s with
  | String c s' => if is_json_space c then skip_ws s' else s
  | EmptyString => EmptyString
  end.

(** [s] without the prefix [p], when it starts with it. *)
Fixpoint strip_prefix (p s : string) : option string :=
  match p, s with
  | EmptyString, _ => Some s
  | String a p', String b s' =>
      if Ascii.eqb a b then strip_prefix p' s' else None
  | _, EmptyString => None
  end.

Definition is_digit (c : ascii) : bool :=
  let n := nat_of_ascii c in Nat.leb 48 n && Nat.leb n 57.

(** The longest prefix of digits, and the rest. *)
Fixpoint span_digits (s : string) : string * string :=
  match s with
  | String c s' =>
      if is_digit c
      then let '(d, r) := span_digits s' in (String c d, r)
      else (EmptyString, s)
  | EmptyString => (EmptyString, EmptyString)
  end.

Fixpoint digits_value (acc : Z) (d : string) : Z :=
  match d with
  | String c d' =>
      digits_value (10 * acc + Z.of_nat (nat_of_ascii c - 48)) d'
  | EmptyString => acc
  end.

Definition hex_value (c : ascii) : option nat :=
  let n := nat_of_ascii c in
  if Nat.leb 48 n && Nat.leb n 57 then Some (n - 48)
  else if Nat.leb 97 n && Nat.leb n 102 then Some (n - 87)
  else if Nat.leb 65 n && Nat.leb n 70 then Some (n - 55)
  else None.

(** The body of a string literal after its opening quote: the decoded
    text and what follows the closing quote. *)
Fixpoint parse_chars (s : string) : option (string * string) :=
  match s with
  | EmptyString => None
  | String c s' =>
      let n := nat_of_ascii c in
      if Nat.eqb n 34 then Some (EmptyString, s')
      else if Nat.ltb n 32 then None
      else if Nat.eqb n 92 then
        match s' with
        | String e s'' =>
            let simple (x : nat) :=
              match parse_chars s'' with
              | Some (t, r) => Some (String (ascii_of_nat x) t, r)
              | None => None
              end in
            match nat_of_ascii e with
            | 34 => simple 34
            | 92 => simple 92
            | 47 => simple 47
            | 98 => simple 8
            | 102 => simple 12
            | 110 => simple 10
            | 114 => simple 13
            | 116 => simple 9
            | 117 =>
                match s'' with
                | String h1 (String h2 (String h3 (String h4 s3))) =>
                    match hex_value h1, hex_value h2, hex_value h3,
                          hex_value h4, parse_chars s3 with
                    | Some 0, Some 0, Some a, Some b, Some (t, r) =>
                        Some (String (ascii_of_nat (16 * a + b)) t, r)
                    | _, _, _, _, _ => None
                    end
                | _ => None
                end
            | _ => None
            end
        | EmptyString => None
        end
      else
        match parse_chars s' with
        | Some (t, r) => Some (String c t, r)
        | None => None
        end
  end.

(** A number: an optional sign, an integer part without a leading zero,
    an optional fraction and an optional exponent. *)
Definition parse_number (s : string) : option (JSON * string) :=
  let '(sign, s1) :=
    match strip_prefix "-" s with
    | Some r => ("-", r)
    | None => ("", s)
    end in
  let digits := fst (span_digits s1) in
  let int_part :=
    match digits with
    | String c (String _ _) =>
        if Nat.eqb (nat_of_ascii c) 48 then "0" else digits
    | _ => digits
    end in
  let s2 := str_drop (String.length sign + String.length int_part) s in
  if Nat.eqb (String.length int_part) 0 then None
  else
    let '(frac, s3) :=
      match strip_prefix "." s2 with
      | Some r =>
          let '(d, r') := span_digits r in
          if Nat.eqb (String.length d) 0 then ("", s2) else ("." +:+ d, r')
      | None => ("", s2)
      end in
    let '(exp, s4) :=
      match s3 with
      | String e r =>
          if Nat.eqb (nat_of_ascii e) 101 || Nat.eqb (nat_of_ascii e) 69 then
            let '(sg, r1) :=
              match r with
              | String g r' =>
                  if Nat.eqb (nat_of_ascii g) 43 || Nat.eqb (nat_of_ascii g) 45
                  then (String g "", r') else ("", r)
              | EmptyString => ("", r)
              end in
            let '(d, r2) := span_digits r1 in
            if Nat.eqb (String.length d) 0 then ("", s3)
            else (String e "" +:+ sg +:+ d, r2)
          else ("", s3)
      | EmptyString => ("", s3)
      end in
    if Nat.eqb (String.length frac + String.length exp) 0
    then
      let z := digits_value 0 int_part in
      Some (JInt (if String.eqb sign "-" then (- z)%Z else z), s4)
    else Some (JFloat (sign +:+ int_part +:+ frac +:+ exp), s4).

Fixpoint parse_value (fuel : nat) (s : string) : option (JSON * string) :=
  match fuel with
  | O => None
  | S fuel' =>
      match s with
      | EmptyString => None
      | String c rest =>
          let n := nat_of_ascii c in
          if Nat.eqb n 34 then
            match parse_chars rest with
            | Some (t, r) => Some (JString t, r)
            | None => None
            end
          else if Nat.eqb n 91 then
            match strip_prefix "]" (skip_ws rest) with
            | Some r => Some (JArray [], r)
            | None => parse_items fuel' (skip_ws rest) []
            end
          else if Nat.eqb n 123 then
            match strip_prefix "}" (skip_ws rest) with
            | Some r => Some (JObject [], r)
            | None => parse_members fuel' (skip_ws rest) []
            end
          else
            match strip_prefix "null" s, strip_prefix "true" s,
                  strip_prefix "false" s, strip_prefix "NaN" s,
                  strip_prefix "Infinity" s, strip_prefix "-Infinity" s with
            | Some r, _, _, _, _, _ => Some (JNull, r)
            | _, Some r, _, _, _, _ => Some (JBool true, r)
            | _, _, Some r, _, _, _ => Some (JBool false, r)
            | _, _, _, Some r, _, _ => Some (JFloat "nan", r)
            | _, _, _, _, Some r, _ => Some (JFloat "inf", r)
            | _, _, _, _, _, Some r => Some (JFloat "-inf", r)
            | _, _, _, _, _, _ => parse_number s
            end
      end
  end
with parse_items (fuel : nat) (s : string) (acc : list JSON)
  : option (JSON * string) :=
  match fuel with
  | O => None
  | S fuel' =>
      match parse_value fuel' s with
      | Some (v, r) =>
          match strip_prefix "," (skip_ws r), strip_prefix "]" (skip_ws r) with
          | Some r', _ => parse_items fuel' (skip_ws r') (acc ++ [v])
          | _, Some r' => Some (JArray (acc ++ [v]), r')
          | _, _ => None
          end
      | None => None
      end
  end
with parse_members (fuel : nat) (s : string) (acc : list (string * JSON))
  : option (JSON * string) :=
  match fuel with
  | O => None
  | S fuel' =>
      match strip_prefix quote s with
      | Some r0 =>
          match parse_chars r0 with
          | Some (k, r1) =>
              match strip_prefix ":" (skip_ws r1) with
              | Some r2 =>
                  match parse_value fuel' (skip_ws r2) with
                  | Some (v, r) =>
                      match strip_prefix "," (skip_ws r),
                            strip_prefix "}" (skip_ws r) with
                      | Some r', _ =>
                          parse_members fuel' (skip_ws r') (dict_set k v acc)
                      | _, Some r' => Some (JObject (dict_set k v acc), r')
                      | _, _ => None
                      end
                  | None => None
                  end
              | None => None
              end
          | None => None
          end
      | None => None
      end
  end.

Definition json_loads (s : string) : option JSON :=
  match parse_value (2 * String.length s + 2) (skip_ws s) with
  | Some (v, r) =>
      match skip_ws r with
      | EmptyString => Some v
      | _ => None
      end
  | None => None
  end.

(** ** Journal records *)

(** The [dict] that [safe_move] returns as metadata. *)
Definition move_record (original moved_to : Path) (size : JSON)
    (time action : string) : JSON :=
  JObject [("original", JString (str original));
           ("moved_to", JString (str moved_to));
           ("size", size);
           ("time", JString time);
           ("action", JString action)].

(** The keys of a [dict], in order. *)
Definition keys (v : JSON) : list string :=
  match v with
  | JObject items => List.map fst items
  | _ => []
  end.

(** [entry.get(key)] for any value; [None] also when [entry] is not a
    [dict]. *)
Definition field (key : string) (entry : JSON) : option JSON :=
  match entry with
  | JObject items => dict_get key items
  | _ => None
  end.

(** [entry["action"] = a] on a [dict]; any other value is left alone. *)
Definition set_action (a : JSON) (entry : JSON) : JSON :=
  match entry with
  | JObject items => JObject (dict_set "action" a items)
  | _ => entry
  end.

(** The journal text in the words of the specification: a single array
    with one object per record, pretty-printed with two spaces for each
    level of nesting, so a record's braces stand at two spaces and its
    five fields at four. *)
Definition render_field (key value : string) : string :=
  "    " +:+ quote +:+ key +:+ quote +:+ ": " +:+ value.

Definition render_size (size : option Z) : string :=
  match size with
  | Some z => pretty z
  | None => "null"
  end.

Definition render_record (time_key : string)
    (rec : string * string * option Z * string * string) : string :=
  let '(original, moved_to, size, time, action) := rec in
  "  {" +:+ newline
  +:+ render_field "original" (encode_string original) +:+ "," +:+ newline
  +:+ render_field "moved_to" (encode_string moved_to) +:+ "," +:+ newline
  +:+ render_field "size" (render_size size) +:+ "," +:+ newline
  +:+ render_field time_key (encode_string time) +:+ "," +:+ newline
  +:+ render_field "action" (encode_string action) +:+ newline
  +:+ "  }".

Definition render_journal (time_key : string)
    (recs : list (string * string * option Z * string * string)) : string :=
  match recs with
  | [] => "[]"
  | _ =>
      "[" +:+ newline
      +:+ join ("," +:+ newline) (List.map (render_record time_key) recs)
      +:+ newline +:+ "]"
  end.

(** The [dict] of a record given by its five values, with the key the
    program uses for the time. *)
Definition record_json (rec : string * string * option Z * string * string)
  : JSON :=
  let '(original, moved_to, size, time, action) := rec in
  JObject [("original", JString original);
           ("moved_to", JString moved_to);
           ("size", match size with Some z => JInt z | None => JNull end);
           ("time", JString time);
           ("action", JString action)].

(** The destination base of [safe_move]: [dst_dir / relative(src, root)]
    when the structure is preserved (the bare name when [src] does not lie
    under the root), [dst_dir / name(src)] otherwise. *)
Definition destination_base (src dst_dir : Path) (preserve_structure : bool)
    (target_root : Path) : Path :=
  if preserve_structure then
    joinpath dst_dir
      match relative_to src target_root with
      | Some rel => rel
      | None => rel_of_name (path_name src)
      end
  else joinpath dst_dir (rel_of_name (path_name src)).

(** ** Sample filesystems and runs *)

(** A project directory [/t] with two empty files of the same name, one
    of them in a subdirectory, a file with content, and an empty
    directory [/q]. *)
Definition fs_project : FileSystem :=
  list_to_map
    [(Path_of_string "/t", Dir);
     (Path_of_string "/t/a.txt", File "" 1);
     (Path_of_string "/t/notes.txt", File "hello" 2);
     (Path_of_string "/t/sub", Dir);
     (Path_of_string "/t/sub/a.txt", File "" 3);
     (Path_of_string "/q", Dir)].

(** A directory whose only empty file has the name of the journal. *)
Definition fs_journal_name : FileSystem :=
  list_to_map
    [(Path_of_string "/t", Dir);
     (Path_of_string "/t/metadata.json", File "" 1)].

(** A quarantine [/q] holding one file whose original place [/t/a.txt] has
    been taken by a new file, and a directory [/t/d]. *)
Definition fs_collision : FileSystem :=
  list_to_map
    [(Path_of_string "/t", Dir);
     (Path_of_string "/t/a.txt", File "new" 5);
     (Path_of_string "/t/d", Dir);
     (Path_of_string "/q", Dir);
     (Path_of_string "/q/a.txt", File "" 1)].

Definition sample_time : string := "2024-01-01 00:00:00".

Definition sample_env : Env :=
  mkEnv (Path_of_string "/t") "20240101-000000" (fun _ => sample_time) "" 9.

(** [python file_cleaner_quarantine.py /t] with [--yes], and with
    [--dry-run]. *)
Definition args_yes_run : Args :=
  mkArgs (Path_of_string "/t") true false true None false true.

Definition args_dry : Args :=
  mkArgs (Path_of_string "/t") true true false None false true.

(** A journal entry with the two paths and an action. *)
Definition sample_entry (original moved_to action : string) : JSON :=
  JObject [("original", JString original);
           ("moved_to", JString moved_to);
           ("size", JInt 0);
           ("time", JString sample_time);
           ("action", JString action)].

(** A quarantine [/q] holding one file whose original place [/t/a.txt] is
    free. *)
Definition fs_quarantined : FileSystem :=
  list_to_map
    [(Path_of_string "/t", Dir);
     (Path_of_string "/q", Dir);
     (Path_of_string "/q/a.txt", File "" 1)].

(** A quarantine whose journal names a file that is no longer there. *)
Definition fs_gone : FileSystem :=
  list_to_map
    [(Path_of_string "/t", Dir);
     (Path_of_string "/t/a.txt", File "" 1);
     (Path_of_string "/q", Dir);
     (Path_of_string "/q/metadata.json",
      File (json_dumps
              (JArray [sample_entry "/t/a.txt" "/q/a.txt" "moved"])) 2)].

(** A quarantine whose journal file is empty, which is not JSON. *)
Definition fs_corrupt : FileSystem :=
  list_to_map
    [(Path_of_string "/q", Dir);
     (Path_of_string "/q/metadata.json", File "" 1)].

(** A quarantine whose journal file holds a JSON object. *)
Definition fs_object_journal : FileSystem :=
  list_to_map
    [(Path_of_string "/q", Dir);
     (Path_of_string "/q/metadata.json", File "{}" 1)].

(** ** Listing and choosing quarantines *)

(** [list.sort()]: a stable sort that compares with [<] only, written as
    an insertion sort; [lt x y] says that [x] goes before [y]. *)
Fixpoint insert_sorted {A : Type} (lt : A -> A -> bool) (x : A) (l : list A)
  : list A :=
  match l with
  | [] => [x]
  | y :: l' => if lt y x then y :: insert_sorted lt x l' else x :: y :: l'
  end.

Fixpoint py_sort {A : Type} (lt : A -> A -> bool) (l : list A) : list A :=
  match l with
  | [] => []
  | x :: l' => insert_sorted lt x (py_sort lt l')
  end.

(** The order of two paths: their parts are compared from the root, as
    sequences of strings. *)
Fixpoint parts_ltb (a b : list string) : bool :=
  match a, b with
  | [], [] => false
  | [], _ :: _ => true
  | _ :: _, [] => false
  | x :: a', y :: b' =>
      String.ltb x y || (String.eqb x y && parts_ltb a' b')
  end.

Definition path_ltb (p q : Path) : bool := parts_ltb (rev p) (rev q).

(** [p.is_dir() and p.name.startswith("quarantine-")]. *)
Definition is_quarantine (fs : FileSystem) (p : Path) : bool :=
  is_dir fs p && startswith (path_name p) "quarantine-".

Definition find_latest_quarantine (base : option Path) (cwd : Path)
  : io (option Path) :=
  let base := match base with Some b => b | None => cwd end in
  let* entries := iterdir_io base in
  let* candidates := gets (fun fs => List.filter (is_quarantine fs) entries) in
  match candidates with
  | [] => ret None
  | _ =>
      ret (List.hd_error
             (py_sort (fun p q => String.ltb (path_name q) (path_name p))
                candidates))
  end.

(** [len(arr)] for a decoded document: a list, a [dict] and a [str] have
    a length, the other values do not. *)
Definition json_len (v : JSON) : option nat :=
  match v with
  | JArray items => Some (length items)
  | JObject items => Some (length items)
  | JString s => Some (String.length s)
  | _ => None
  end.

(** The count [list_quarantines] shows for one quarantine directory. *)
Definition count_items (json_loads : string -> option JSON) (q : Path)
  : io string :=
  let meta := joinpath q ["metadata.json"] in
  let* present := gets (fun fs => path_exists fs meta) in
  if present then
    try_except
      (let* arr := load_json json_loads meta in
       match json_len arr with
       | Some n => ret (pretty n)
       | None => raise TypeError
       end)
      (fun _ => ret "?")
  else ret "?".

Fixpoint list_lines (json_loads : string -> option JSON) (qs : list Path)
  : io (list string) :=
  match qs with
  | [] => ret []
  | q :: qs' =>
      let* count := count_items json_loads q in
      let* rest := list_lines json_loads qs' in
      ret ((" - " +:+ str q +:+ "  (items recorded: " +:+ count +:+ ")")
           :: rest)
  end.

(** [list_quarantines]: what it prints. *)
Definition list_quarantines (json_loads : string -> option JSON)
    (base : option Path) (cwd : Path) : io (list string) :=
  let base := match base with Some b => b | None => cwd end in
  let* entries := iterdir_io base in
  let* quarantines :=
    gets (fun fs => py_sort path_ltb (List.filter (is_quarantine fs) entries)) in
  match quarantines with
  | [] => ret ["No quarantine directories found in " +:+ str base]
  | _ =>
      let* lines := list_lines json_loads quarantines in
      ret ("Quarantine directories:" :: lines)
  end.

(** The command line of the restore mode. *)
Record RestoreArgs : Type := mkRestoreArgs {
  rargs_target : Path;
  rargs_dry_run : bool;
  rargs_yes : bool;
  rargs_quarantine : option Path;
  rargs_list_quarantines : bool
}.

(** [main] with [args.restore] true: what [main] itself prints, and what
    [restore_from_quarantine] reports when it is called. *)
Definition main_restore (json_loads : string -> option JSON)
    (args : RestoreArgs) (env : Env) : io (list string * option Outcome) :=
  if rargs_list_quarantines args then
    let* lines :=
      list_quarantines json_loads (Some (rargs_target args)) (env_cwd env) in
    ret (lines, None)
  else
    let* found :=
      match rargs_quarantine args with
      | Some qdir =>
          let* ok := gets (fun fs => path_exists fs qdir && is_dir fs qdir) in
          if negb ok
          then ret (["Provided quarantine path does not exist or is not a directory: "
                     +:+ str qdir], None)
          else ret ([], Some qdir)
      | None =>
          let* latest :=
            find_latest_quarantine (Some (env_cwd env)) (env_cwd env) in
          match latest with
          | None =>
              ret (["No quarantine directories found in current directory."],
                   None)
          | Some qdir =>
              ret (["No --quarantine provided. Using latest quarantine: "
                    +:+ str qdir], Some qdir)
          end
      end in
    match found with
    | (out, None) => ret (out, None)
    | (out, Some qdir) =>
        let out :=
          if rargs_dry_run args
          then out ++ ["Dry-run: no files will be moved. Showing restore plan..."
                       +:+ newline]
          else out in
        let prompt :=
          newline +:+ "Restore files from " +:+ str qdir
          +:+ "? Type 'yes' to confirm: " in
        if negb (rargs_yes args)
           && negb (String.eqb (lower (strip (env_input env))) "yes")
           && negb (rargs_dry_run args)
        then ret (out ++ [prompt; "Aborted by user."], None)
        else
          let out := if rargs_yes args then out else out ++ [prompt] in
          let* outcome :=
            restore_from_quarantine json_loads qdir (rargs_dry_run args)
              (rargs_yes args) in
          ret (out, Some outcome)
    end.

(** ** Path strings *)

(** A name that [str] and [Path] carry unchanged: not empty, not the
    single dot, and without a slash. *)
Definition valid_name (n : string) : bool :=
  negb (String.eqb n "") && negb (String.eqb n ".") && negb (occurs_in "/" n).

Definition valid_path (p : Path) : bool := forallb valid_name p.

(** A list in ascending order: every element is [le] all later ones. *)
Fixpoint ascending {A : Type} (le : A -> A -> bool) (l : list A) : bool :=
  match l with
  | [] => true
  | x :: l' => forallb (le x) l' && ascending le l'
  end.

(** The line [list_quarantines] prints for one quarantine directory. *)
Definition listing_line (q : Path) (count : string) : string :=
  " - " +:+ str q +:+ "  (items recorded: " +:+ count +:+ ")".

(** What the count shown for a quarantine directory says about its
    journal. *)
Definition count_of (json_loads : string -> option JSON) (fs : FileSystem)
    (q : Path) (c : string) : Prop :=
  let meta := joinpath q ["metadata.json"] in
  (forall data m items,
      stat fs meta = Some (File data m) ->
      json_loads data = Some (JArray items) ->
      c = pretty (length items)) /\
  (stat fs meta = None -> c = "?") /\
  (stat fs meta = Some Dir -> c = "?") /\
  (forall data m,
      stat fs meta = Some (File data m) ->
      json_loads data = None \/ json_loads data = Some JNull \/
      (exists z, json_loads data = Some (JInt z)) \/
      (exists b, json_loads data = Some (JBool b)) \/
      (exists r, json_loads data = Some (JFloat r)) ->
      c = "?").

(** ** More sample inputs *)

(** A directory with a file whose name ends in a dot. *)
Definition fs_trailing_dot : FileSystem :=
  list_to_map
    [(Path_of_string "/t", Dir);
     (Path_of_string "/t/a.", File "" 1)].

(** A quarantine where a directory stands at the journal's place. *)
Definition fs_directory_journal : FileSystem :=
  list_to_map
    [(Path_of_string "/q", Dir);
     (Path_of_string "/q/metadata.json", Dir)].

(** A target directory with a hidden name, holding an empty file. *)
Definition fs_hidden : FileSystem :=
  list_to_map
    [(Path_of_string "/t", Dir);
     (Path_of_string "/t/.cache", Dir);
     (Path_of_string "/t/.cache/a.txt", File "" 1)].

(** A quarantine whose journal is an array holding a number. *)
Definition fs_bad_entry : FileSystem :=
  list_to_map
    [(Path_of_string "/q", Dir);
     (Path_of_string "/q/metadata.json", File "[1]" 1)].

(** A directory with two quarantines, the older one with a journal of one
    record, a regular file named like a quarantine, and another
    directory. *)
Definition fs_two_quarantines : FileSystem :=
  list_to_map
    [(Path_of_string "/t", Dir);
     (Path_of_string "/t/quarantine-20240101-000000", Dir);
     (Path_of_string "/t/quarantine-20240101-000000/metadata.json",
      File (json_dumps
              (JArray [sample_entry "/t/a.txt"
                         "/t/quarantine-20240101-000000/a.txt" "moved"])) 2);
     (Path_of_string "/t/quarantine-20240102-000000", Dir);
     (Path_of_string "/t/quarantine-notes", File "" 3);
     (Path_of_string "/t/other", Dir)].

(** [python file_cleaner_quarantine.py /nowhere], and a run on [/t] that
    asks for confirmation. *)
Definition args_nowhere : Args :=
  mkArgs (Path_of_string "/nowhere") true false true None false true.

Definition args_ask : Args :=
  mkArgs (Path_of_string "/t") true false false None false true.

(** [--restore --dry-run --quarantine /q]. *)
Definition rargs_dry : RestoreArgs :=
  mkRestoreArgs (Path_of_string "/t") true false
    (Some (Path_of_string "/q")) false.

(** * Properties *)

(** ** Strings and paths *)

Section StringFacts.

Lemma str_app_cons (c : ascii) (a b : string) :
  String c a +:+ b = String c (a +:+ b).
Proof. reflexivity. Qed.

Lemma str_app_nil_l (a : string) : "" +:+ a = a.
Proof. reflexivity. Qed.

Lemma str_app_nil_r (a : string) : a +:+ "" = a.
Proof.
  induction a as [|c a IH]; [reflexivity |].
  now rewrite str_app_cons, IH.
Qed.

Lemma str_app_assoc (a b c : string) : (a +:+ b) +:+ c = a +:+ b +:+ c.
Proof.
  induction a as [|x a IH]; [reflexivity |].
  now rewrite !str_app_cons, IH.
Qed.

Lemma str_length_app (a b : string) :
  String.length (a +:+ b) = String.length a + String.length b.
Proof.
  induction a as [|c a IH]; [reflexivity |].
  rewrite str_app_cons. simpl. now rewrite IH.
Qed.

Lemma str_app_inv_head (s a b : string) : s +:+ a = s +:+ b -> a = b.
Proof.
  induction s as [|c s IH]; intros H; [exact H |].
  rewrite !str_app_cons in H. injection H as H. auto.
Qed.

Lemma str_app_inv_tail (s a b : string) : a +:+ s = b +:+ s -> a = b.
Proof.
  revert b. induction a as [|c a IH]; intros [|d b] H.
  - reflexivity.
  - apply (f_equal String.length) in H.
    rewrite !str_length_app in H. simpl in H. lia.
  - apply (f_equal String.length) in H.
    rewrite !str_length_app in H. simpl in H. lia.
  - rewrite !str_app_cons in H. injection H as -> H. f_equal. now apply IH.
Qed.

Lemma str_take_drop (i : nat) (s : string) :
  str_take i s +:+ str_drop i s = s.
Proof.
  revert s. induction i as [|i IH]; intros [|c s]; simpl; try reflexivity.
  rewrite str_app_cons. f_equal. apply IH.
Qed.

(** The stem and the suffix cut the name in two. *)
Lemma stem_suffix_name (p : Path) :
  path_stem p +:+ path_suffix p = path_name p.
Proof.
  unfold path_stem, path_suffix.
  destruct (suffix_index (path_name p)) as [i|].
  - apply str_take_drop.
  - apply str_app_nil_r.
Qed.

End StringFacts.

(** ** PathNamer *)

Section PathNamer.

Variable fs : FileSystem.
Variable path : Path.

Lemma candidate_inj (n m : nat) :
  candidate path n = candidate path m -> n = m.
Proof.
  unfold candidate, joinpath. simpl. intros H.
  injection H as H.
  apply str_app_inv_head in H. apply str_app_inv_head in H.
  apply str_app_inv_tail in H.
  now apply (inj pretty) in H.
Qed.

Lemma candidate_not_root (n : nat) : candidate path n <> [].
Proof. unfold candidate, joinpath. discriminate. Qed.

(** An existing candidate is an entry of the map. *)
Lemma candidate_exists_dom (n : nat) :
  path_exists fs (candidate path n) = true -> candidate path n ∈ dom fs.
Proof.
  unfold path_exists, stat, candidate, joinpath. simpl.
  intros H. apply elem_of_dom.
  destruct (fs !! _); [eauto | discriminate].
Qed.

(** What the loop returns is the first free candidate from [counter]
    on. *)
Lemma unique_loop_some (fuel counter : nat) (c : Path) :
  unique_loop fs path fuel counter = Some c ->
  exists n, counter <= n /\ c = candidate path n /\
    path_exists fs c = false /\
    forall m, counter <= m < n -> path_exists fs (candidate path m) = true.
Proof.
  revert counter. induction fuel as [|fuel IH]; intros counter H; simpl in H.
  - discriminate.
  - destruct (path_exists fs (candidate path counter)) eqn:E; simpl in H.
    + destruct (IH _ H) as (n & Hle & -> & Hfree & Hbusy).
      exists n. repeat split; [lia | assumption |].
      intros m Hm. destruct (decide (m = counter)) as [->|Hne];
        [assumption | apply Hbusy; lia].
    + injection H as <-. exists counter. repeat split; [lia | assumption |].
      intros m Hm. lia.
Qed.

(** When the fuel runs out, every candidate tried exists. *)
Lemma unique_loop_none (fuel counter : nat) :
  unique_loop fs path fuel counter = None ->
  forall m, counter <= m < counter + fuel ->
    path_exists fs (candidate path m) = true.
Proof.
  revert counter. induction fuel as [|fuel IH]; intros counter H m Hm;
    simpl in H; [lia |].
  destruct (path_exists fs (candidate path counter)) eqn:E; simpl in H;
    [| discriminate].
  destruct (decide (m = counter)) as [->|Hne]; [assumption |].
  apply (IH _ H). lia.
Qed.

(** The candidates are pairwise distinct, so no more of them exist than
    the filesystem has entries: the loop returns within [S (size fs)]
    iterations. *)
Lemma unique_loop_terminates :
  exists c, unique_loop fs path (S (size fs)) 1 = Some c.
Proof.
  destruct (unique_loop fs path (S (size fs)) 1) as [c|] eqn:E; [eauto |].
  exfalso.
  pose proof (unique_loop_none _ _ E) as Hall.
  set (l := candidate path <$> seq 1 (S (size fs))).
  assert (Hnd : NoDup l).
  { apply NoDup_fmap_2; [| apply NoDup_seq].
    intros n m. apply candidate_inj. }
  assert (Hsub : (list_to_set l : gset Path) ⊆ dom fs).
  { intros x Hx. apply elem_of_list_to_set in Hx.
    apply list_elem_of_fmap in Hx as (n & -> & Hn).
    apply elem_of_seq in Hn. apply candidate_exists_dom, Hall. lia. }
  apply subseteq_size in Hsub.
  rewrite size_list_to_set in Hsub by assumption.
  rewrite size_dom in Hsub. unfold l in Hsub.
  rewrite length_fmap, length_seq in Hsub. lia.
Qed.

Lemma unique_path_meets_spec :
  unique_spec fs path (_unique_path_if_exists fs path).
Proof.
  unfold unique_spec, _unique_path_if_exists.
  destruct (path_exists fs path) eqn:E; cbn [negb]; [right | left; auto].
  split; [reflexivity |].
  destruct unique_loop_terminates as [c Hc]. rewrite Hc.
  destruct (unique_loop_some _ _ _ Hc) as (n & Hle & -> & Hfree & Hbusy).
  exists n. auto.
Qed.

(** The specification determines the result. *)
Lemma unique_spec_functional (r1 r2 : Path) :
  unique_spec fs path r1 -> unique_spec fs path r2 -> r1 = r2.
Proof.
  intros [[E1 ->]|[E1 (n1 & L1 & -> & F1 & B1)]]
         [[E2 ->]|[E2 (n2 & L2 & -> & F2 & B2)]];
    try reflexivity; try congruence.
  destruct (Nat.lt_trichotomy n1 n2) as [Hlt|[->|Hlt]]; [| reflexivity |].
  - rewrite (B2 n1) in F1 by lia. discriminate.
  - rewrite (B1 n2) in F2 by lia. discriminate.
Qed.

Lemma unique_path_free :
  path_exists fs (_unique_path_if_exists fs path) = false.
Proof.
  destruct unique_path_meets_spec as [[E ->]|[_ (n & _ & _ & F & _)]];
    assumption.
Qed.

End PathNamer.

Section Extensions.

Lemma rfind_app_none (c : ascii) (s t : string) :
  rfind c t = None -> rfind c (s +:+ t) = rfind c s.
Proof.
  intros Ht. induction s as [|a s IH]; [exact Ht |].
  rewrite str_app_cons. simpl. now rewrite IH.
Qed.

Lemma rfind_lt (c : ascii) (s : string) (i : nat) :
  rfind c s = Some i -> i < String.length s.
Proof.
  revert i. induction s as [|a s IH]; intros i; simpl; [discriminate |].
  destruct (rfind c s) as [j|].
  - intros [= <-]. specialize (IH j eq_refl). lia.
  - destruct (Ascii.eqb a c); [intros [= <-]; lia | discriminate].
Qed.

Lemma rfind_drop (c : ascii) (s : string) (i : nat) :
  rfind c s = Some i -> str_drop i s = String c (str_drop (S i) s).
Proof.
  revert i. induction s as [|a s IH]; intros i; simpl; [discriminate |].
  destruct (rfind c s) as [j|].
  - intros [= <-]. simpl. now apply IH.
  - destruct (Ascii.eqb a c) eqn:E; [| discriminate].
    intros [= <-]. apply Ascii.eqb_eq in E as ->. reflexivity.
Qed.

Lemma str_drop_all (s : string) : str_drop (String.length s) s = "".
Proof. induction s as [|a s IH]; [reflexivity | exact IH]. Qed.

Lemma str_drop_app (i : nat) (s t : string) :
  i <= String.length s -> str_drop i (s +:+ t) = str_drop i s +:+ t.
Proof.
  revert s. induction i as [|i IH]; intros s Hi.
  - now destruct s.
  - destruct s as [|a s]; simpl in Hi; [lia |].
    rewrite str_app_cons. simpl. apply IH. lia.
Qed.

Lemma pretty_N_go_no_dot (x : N) (s : string) :
  rfind "." s = None -> rfind "." (pretty_N_go x s) = None.
Proof.
  revert s. induction (N.lt_wf_0 x) as [x _ IH]; intros s Hs.
  destruct (decide (x = 0)%N) as [->|Hx]; [now rewrite pretty_N_go_0 |].
  rewrite pretty_N_go_step by lia. apply IH.
  - apply N.div_lt; lia.
  - simpl. rewrite Hs. unfold pretty_N_char. now repeat case_match.
Qed.

Lemma counter_no_dot (n : nat) : rfind "." ("_" +:+ pretty n) = None.
Proof.
  assert (H : rfind "." (pretty n) = None).
  { unfold pretty, pretty_nat, pretty, pretty_N.
    destruct (decide (N.of_nat n = 0%N)); [reflexivity |].
    now apply pretty_N_go_no_dot. }
  rewrite str_app_cons, str_app_nil_l. simpl. now rewrite H.
Qed.

(** The extension of a candidate of a path without extension: none when
    the name has no dot after its first character, and the counter
    behind a dot when the name ends in one. *)
Lemma candidate_suffix (P : Path) (n : nat) :
  path_suffix P = "" ->
  ((forall i, rfind "." (path_name P) = Some i -> i = 0) ->
   path_suffix (candidate P n) = "") /\
  (forall i, rfind "." (path_name P) = Some (S i) ->
             path_suffix (candidate P n) = "._" +:+ pretty n).
Proof.
  intros Hsuf.
  assert (Hname : path_name (candidate P n)
                  = path_name P +:+ "_" +:+ pretty n).
  { unfold candidate, joinpath. simpl.
    rewrite Hsuf. rewrite <- (stem_suffix_name P), Hsuf.
    now rewrite !str_app_nil_r. }
  unfold path_suffix. rewrite Hname. unfold suffix_index.
  rewrite (rfind_app_none "." (path_name P) _ (counter_no_dot n)).
  split.
  - intros H0. destruct (rfind "." (path_name P)) as [i|]; [| reflexivity].
    now rewrite (H0 i eq_refl).
  - intros i Hi. rewrite Hi.
    pose proof (rfind_lt _ _ _ Hi) as Hlt.
    pose proof (rfind_drop _ _ _ Hi) as Hdrop.
    assert (Hend : S i = String.length (path_name P) - 1).
    { destruct (Nat.ltb (S i) (String.length (path_name P) - 1)) eqn:E;
        [| apply Nat.ltb_ge in E; lia].
      exfalso. unfold path_suffix, suffix_index in Hsuf.
      rewrite Hi, E in Hsuf.
      change (Nat.ltb 0 (S i)) with true in Hsuf. cbn [andb] in Hsuf.
      rewrite Hdrop in Hsuf. discriminate. }
    rewrite str_length_app.
    assert (Hlen : 1 <= String.length ("_" +:+ pretty n)).
    { rewrite str_app_cons. simpl. lia. }
    assert (Hok : Nat.ltb 0 (S i)
                  && Nat.ltb (S i)
                       (String.length (path_name P)
                        + String.length ("_" +:+ pretty n) - 1) = true).
    { apply andb_true_iff. split; apply Nat.ltb_lt; lia. }
    rewrite Hok. rewrite str_drop_app by lia. rewrite Hdrop.
    replace (S (S i)) with (String.length (path_name P)) by lia.
    rewrite str_drop_all. reflexivity.
Qed.

End Extensions.

(** C3, as amended.  PathNamer: a free path is returned as it is; an
    existing path [P] yields the candidate [{stem}_{n}{ext}] with the
    least [n] from 1 that does not exist, which therefore differs from
    [P] and does not exist; the result is determined by the filesystem
    and the path, and computing it leaves the filesystem as it was.  When
    [P] has no extension, the candidate's name is the name of [P]
    followed by the counter; the candidate then has no extension if the
    name of [P] has no dot after its first character, and when the name
    of [P] ends in a dot the candidate has the extension made of that
    dot and the counter. *)
Theorem unique_path_contract (fs : FileSystem) (P : Path) :
  (path_exists fs P = false -> _unique_path_if_exists fs P = P) /\
  (path_exists fs P = true ->
     (exists n, 1 <= n /\
        _unique_path_if_exists fs P = candidate P n /\
        path_exists fs (candidate P n) = false /\
        forall m, 1 <= m < n -> path_exists fs (candidate P m) = true) /\
     _unique_path_if_exists fs P <> P /\
     path_exists fs (_unique_path_if_exists fs P) = false) /\
  (forall Q, unique_spec fs P Q -> Q = _unique_path_if_exists fs P) /\
  gets (fun fs' => _unique_path_if_exists fs' P) fs
    = (Ok (_unique_path_if_exists fs P), fs) /\
  (forall n, candidate P n
             = joinpath (path_parent P)
                 [path_stem P +:+ "_" +:+ pretty n +:+ path_suffix P]) /\
  (path_suffix P = "" ->
     forall n,
       path_name (candidate P n) = path_name P +:+ "_" +:+ pretty n /\
       ((forall i, rfind "." (path_name P) = Some i -> i = 0) ->
        path_suffix (candidate P n) = "") /\
       (forall i, rfind "." (path_name P) = Some (S i) ->
                  path_suffix (candidate P n) = "._" +:+ pretty n)).
Proof.
  pose proof (unique_path_meets_spec fs P) as Hspec.
  pose proof (unique_path_free fs P) as Hfree.
  split; [| split; [| split; [| split; [| split]]]];
    [| | | | | intros Hsuf n; split; [| exact (candidate_suffix P n Hsuf)]];
    repeat split.
  - intros E. destruct Hspec as [[_ ->]|[E' _]]; congruence.
  - destruct Hspec as [[E' _]|[_ (n & Hn & Heq & _ & Hb)]]; [congruence |].
    exists n. rewrite <- Heq. auto.
  - intros Heq. rewrite Heq in Hfree. congruence.
  - exact Hfree.
  - intros Q HQ. eapply unique_spec_functional; eassumption.
  - unfold candidate, joinpath. simpl.
    rewrite Hsuf. rewrite <- (stem_suffix_name P), Hsuf.
    now rewrite !str_app_nil_r.
Qed.

(** ** The filesystem *)

Section FileSystemFacts.

Variable fs : FileSystem.

Lemma wf_lookup (p : Path) (n : Node) :
  wf fs -> fs !! p = Some n ->
  p <> [] /\ is_dir fs (path_parent p) = true.
Proof.
  unfold wf, wfb. rewrite forallb_forall. intros Hwf Hp.
  assert (Hin : In p (map_to_list fs).*1).
  { apply list_elem_of_In, list_elem_of_fmap. exists (p, n).
    split; [reflexivity | now apply elem_of_map_to_list]. }
  apply Hwf in Hin. apply andb_true_iff in Hin as [H1 H2].
  split; [| exact H2].
  apply negb_true_iff, bool_decide_eq_false in H1. exact H1.
Qed.

Lemma is_dir_exists (p : Path) :
  is_dir fs p = true -> path_exists fs p = true.
Proof. unfold is_dir, path_exists. now destruct (stat fs p) as [[]|]. Qed.

Lemma not_exists_not_dir (p : Path) :
  path_exists fs p = false -> is_dir fs p = false.
Proof. unfold is_dir, path_exists. now destruct (stat fs p) as [[]|]. Qed.

Lemma not_exists_stat (p : Path) :
  path_exists fs p = false -> stat fs p = None.
Proof. unfold path_exists. now destruct (stat fs p). Qed.

Lemma stat_lookup (p : Path) : p <> [] -> stat fs p = fs !! p.
Proof. now destruct p. Qed.

(** In a well-formed filesystem whatever exists sits in a directory. *)
Lemma wf_parent_is_dir (p : Path) :
  wf fs -> path_exists fs p = true -> is_dir fs (path_parent p) = true.
Proof.
  intros Hwf. destruct p as [|n d]; [reflexivity |].
  unfold path_exists. simpl. destruct (fs !! (n :: d)) as [x|] eqn:E;
    [| discriminate].
  intros _. now apply (wf_lookup _ _ Hwf E).
Qed.

(** A regular file is not the root. *)
Lemma file_not_root (p : Path) (data : string) (mtime : nat) :
  stat fs p = Some (File data mtime) -> p <> [].
Proof. destruct p; [discriminate | discriminate]. Qed.

Lemma mkdir_parents_dir (p : Path) :
  is_dir fs p = true -> mkdir_parents fs p = Some fs.
Proof.
  destruct p as [|n d]; [reflexivity |].
  unfold is_dir. simpl. now destruct (fs !! (n :: d)) as [[]|].
Qed.

End FileSystemFacts.

(** ** RestoreEngine *)

Section Restore.

Variables (dry_run yes : bool) (r : Report).

(** An entry with two readable paths is handled by [restore_record]. *)
Lemma restore_entry_record (entry : JSON) (original moved_to : Path)
    (fs : FileSystem) :
  record_paths entry = Some (original, moved_to) ->
  restore_entry dry_run yes r entry fs
  = restore_record dry_run yes r original moved_to fs.
Proof.
  unfold record_paths, restore_entry, entry_path.
  destruct entry as [| | | | |items|items]; try discriminate.
  destruct (dict_get "original" items) as [[| | | |o| |]|]; try discriminate.
  destruct (dict_get "moved_to" items) as [[| | | |m| |]|]; try discriminate.
  intros [= <- <-]. reflexivity.
Qed.

Lemma restore_record_missing (original moved_to : Path) (fs : FileSystem) :
  path_exists fs moved_to = false ->
  restore_record dry_run yes r original moved_to fs
  = (Ok (add_skipped r (original, moved_to, "moved file missing")), fs).
Proof.
  intros H. unfold restore_record, bind, gets. now rewrite H.
Qed.

End Restore.

(** A journal all of whose targets are gone is skipped record by record,
    and the filesystem is not touched. *)
Lemma restore_loop_all_missing (dry_run yes : bool) (fs : FileSystem)
    (entries : list JSON) (paths : list (Path * Path)) (r : Report) :
  List.map record_paths entries = List.map Some paths ->
  Forall (fun om => path_exists fs (snd om) = false) paths ->
  restore_loop dry_run yes r entries fs
  = (Ok (mkReport (restored r)
           (skipped r
            ++ List.map (fun om => (fst om, snd om, "moved file missing")) paths)
           (errors r)),
     fs).
Proof.
  revert paths r. induction entries as [|e es IH]; intros [|[o m] paths] r Hmap Hall;
    try discriminate.
  - simpl. unfold ret. rewrite app_nil_r. now destruct r.
  - simpl in Hmap. injection Hmap as He Hes.
    apply Forall_cons in Hall as [Hm Hall]. simpl in Hm.
    cbn [restore_loop]. unfold bind at 1.
    rewrite (restore_entry_record _ _ _ _ _ _ _ He).
    rewrite restore_record_missing by assumption.
    rewrite (IH paths _ Hes Hall). simpl.
    now rewrite <- app_assoc.
Qed.

(** C7.  A record whose [moved_to] does not exist is classified skipped
    with the reason "moved file missing" and nothing else is done for it;
    so a restore over a journal all of whose targets are gone reports
    every record skipped, nothing restored and no error, and leaves the
    filesystem as it was, whatever the mode. *)
Theorem restore_skips_missing_targets :
  (forall (dry_run yes : bool) (r : Report) (entry : JSON)
          (original moved_to : Path) (fs : FileSystem),
      record_paths entry = Some (original, moved_to) ->
      path_exists fs moved_to = false ->
      restore_entry dry_run yes r entry fs
      = (Ok (add_skipped r (original, moved_to, "moved file missing")), fs)) /\
  (forall (json_loads : string -> option JSON) (quarantine_dir : Path)
          (dry_run yes : bool) (fs : FileSystem) (text : string) (mtime : nat)
          (entries : list JSON) (paths : list (Path * Path)),
      stat fs (joinpath quarantine_dir ["metadata.json"])
        = Some (File text mtime) ->
      json_loads text = Some (JArray entries) ->
      List.map record_paths entries = List.map Some paths ->
      Forall (fun om => path_exists fs (snd om) = false) paths ->
      restore_from_quarantine json_loads quarantine_dir dry_run yes fs
      = (Ok (Summary
               (mkReport []
                  (List.map
                     (fun om => (fst om, snd om, "moved file missing")) paths)
                  [])),
         fs)).
Proof.
  split.
  - intros dry_run yes r entry original moved_to fs Hp Hm.
    rewrite (restore_entry_record _ _ _ _ _ _ _ Hp).
    now apply restore_record_missing.
  - intros json_loads q dry_run yes fs text mtime entries paths Hst Hl Hmap Hall.
    unfold restore_from_quarantine, bind, gets, try_except, load_json,
      read_text, path_exists.
    rewrite Hst. cbn [negb]. unfold bind. rewrite Hst, Hl.
    unfold iterate, ret. cbv beta iota.
    rewrite (restore_loop_all_missing _ _ _ _ _ _ Hmap Hall). reflexivity.
Qed.

(** ** [shutil.move] *)

Section Move.

Variable fs : FileSystem.

(** Entries that lie neither below the source nor below the destination
    keep their place when a directory is renamed. *)
Lemma rename_tree_lookup_other (src dst p : Path) :
  ~ src `suffix_of` p -> ~ dst `suffix_of` p ->
  rename_tree fs src dst !! p = fs !! p.
Proof.
  intros Hsrc Hdst. unfold rename_tree.
  rewrite lookup_union_r.
  - destruct (fs !! p) as [x|] eqn:E.
    + now apply map_lookup_filter_Some_2.
    + apply map_lookup_filter_None_2. now left.
  - apply not_elem_of_list_to_map_1. intros Hin.
    apply list_elem_of_fmap in Hin as ([q n] & -> & Hq).
    apply list_elem_of_fmap in Hq as ([q' n'] & [= -> ->] & _).
    apply Hdst. unfold reroot. simpl. now apply suffix_app_r.
Qed.

(** Moving a regular file to a free path in an existing directory. *)
Lemma shutil_move_file (src dst : Path) (data : string) (mtime : nat) :
  stat fs src = Some (File data mtime) ->
  path_exists fs dst = false ->
  is_dir fs (path_parent dst) = true ->
  shutil_move src dst fs
  = (Ok tt, <[dst := File data mtime]> (delete src fs)).
Proof.
  intros Hsrc Hdst Hpar. unfold shutil_move.
  rewrite (not_exists_not_dir _ _ Hdst). cbn [andb].
  now rewrite Hsrc, Hpar.
Qed.

(** A move to a free sibling of a regular file [p] leaves [p] as it is,
    whether the move succeeds or not, unless [p] is the source. *)
Lemma shutil_move_sibling_frame (src p sibling : Path) (data : string)
    (mtime : nat) (res : result unit) (fs' : FileSystem) :
  wf fs ->
  stat fs p = Some (File data mtime) ->
  path_exists fs sibling = false ->
  length sibling = length p ->
  path_parent sibling = path_parent p ->
  src <> p ->
  shutil_move src sibling fs = (res, fs') ->
  stat fs' p = Some (File data mtime).
Proof.
  intros Hwf Hp Hfree Hlen Hpar Hne Hmove.
  pose proof (file_not_root _ _ _ _ Hp) as Hp0.
  assert (Hpd : is_dir fs (path_parent p) = true).
  { apply wf_parent_is_dir; [assumption |].
    unfold path_exists. now rewrite Hp. }
  assert (Hps : p <> sibling).
  { intros ->. unfold path_exists in Hfree. now rewrite Hp in Hfree. }
  unfold shutil_move in Hmove.
  rewrite (not_exists_not_dir _ _ Hfree) in Hmove. cbn [andb] in Hmove.
  destruct (stat fs src) as [[d t|]|] eqn:Hsrc.
  - rewrite Hpar, Hpd in Hmove. injection Hmove as <- <-.
    rewrite stat_lookup by assumption.
    rewrite lookup_insert_ne by congruence.
    rewrite lookup_delete_ne by congruence.
    now rewrite <- stat_lookup.
  - destruct (bool_decide (src `suffix_of` sibling)) eqn:Hin.
    + now injection Hmove as <- <-.
    + apply bool_decide_eq_false in Hin.
      rewrite (not_exists_stat _ _ Hfree) in Hmove.
      rewrite Hpar, (mkdir_parents_dir _ _ Hpd) in Hmove.
      injection Hmove as <- <-.
      rewrite stat_lookup by assumption.
      rewrite rename_tree_lookup_other; [now rewrite <- stat_lookup | |].
      * intros Hsuf. apply Hin.
        destruct p as [|n d]; [congruence |].
        destruct sibling as [|n' d']; [discriminate |].
        simpl in Hpar. subst d'.
        destruct src as [|s0 src]; [apply suffix_nil |].
        apply suffix_cons_inv in Hsuf as [Heq|Hsuf]; [congruence |].
        now apply suffix_cons_r.
      * intros Hsuf. apply Hps. symmetry.
        apply suffix_length_eq; [assumption | lia].
  - now injection Hmove as <- <-.
Qed.

End Move.

(** ** RestoreEngine: an existing original *)

Section RestoreCollision.

Variable fs : FileSystem.
Variables original moved_to : Path.
Hypothesis Hwf : wf fs.
Hypothesis Hmoved : path_exists fs moved_to = true.
Hypothesis Horiginal : path_exists fs original = true.

(** The uniquified path of an existing path is a free sibling of it. *)
Lemma unique_sibling :
  let sibling := _unique_path_if_exists fs original in
  sibling <> original /\
  path_exists fs sibling = false /\
  path_parent sibling = path_parent original /\
  exists n, 1 <= n /\ sibling = candidate original n.
Proof.
  destruct (unique_path_meets_spec fs original)
    as [[E _]|[_ (n & Hn & Heq & Hfree & _)]]; [congruence |].
  cbv zeta. repeat split.
  - intros Habs. rewrite Habs in Hfree. congruence.
  - exact Hfree.
  - now rewrite Heq.
  - eauto.
Qed.

Lemma original_parent_exists :
  path_exists fs (path_parent original) = true.
Proof. now apply is_dir_exists, wf_parent_is_dir. Qed.



(** Without [yes]: the record goes to the free sibling. *)
Lemma restore_record_keep (r : Report) :
  let sibling := _unique_path_if_exists fs original in
  match shutil_move moved_to sibling fs with
  | (Ok _, fs') =>
      restore_record false false r original moved_to fs
      = (Ok (add_restored r (sibling, moved_to)), fs')
  | (Raise _, fs') =>
      restore_record false false r original moved_to fs
      = (Ok (add_error r (original, moved_to, CollisionHandlingError)), fs')
  end.
Proof.
  unfold restore_record, bind, gets, try_except, ret.
  rewrite Hmoved; cbn [negb]. rewrite original_parent_exists; cbn [negb].
  rewrite Horiginal.
  cbv zeta. now destruct (shutil_move _ _ fs) as [[[]|e] fs'].
Qed.

Lemma restore_record_keep_dry (r : Report) :
  restore_record true false r original moved_to fs
  = (Ok (add_restored r (_unique_path_if_exists fs original, moved_to)), fs).
Proof.
  unfold restore_record, bind, gets, try_except, ret.
  rewrite Hmoved; cbn [negb]. rewrite original_parent_exists; cbn [negb].
  now rewrite Horiginal.
Qed.

End RestoreCollision.


(** C5, as amended.  A record whose [moved_to] and [original] both exist
    and are different paths, restored without overwrite: [moved_to] is
    moved to the uniquified path of the original, a free path beside it,
    and the record is reported restored to that path, or as an error when
    the move raises; either way a regular file at [original] keeps its
    content and its modification time.  A regular file at [moved_to]
    always arrives.  On a dry run nothing is moved and the record is
    reported restored to the same path. *)
Theorem restore_keep_policy (fs : FileSystem) (r : Report) (entry : JSON)
    (original moved_to : Path) :
  wf fs ->
  record_paths entry = Some (original, moved_to) ->
  path_exists fs moved_to = true ->
  path_exists fs original = true ->
  moved_to <> original ->
  let sibling := _unique_path_if_exists fs original in
  (sibling <> original /\
   path_parent sibling = path_parent original /\
   path_exists fs sibling = false) /\
  (exists fs',
      ((shutil_move moved_to sibling fs = (Ok tt, fs') /\
        restore_entry false false r entry fs
        = (Ok (add_restored r (sibling, moved_to)), fs')) \/
       ((exists e, shutil_move moved_to sibling fs = (Raise e, fs')) /\
        restore_entry false false r entry fs
        = (Ok (add_error r (original, moved_to, CollisionHandlingError)),
           fs'))) /\
      forall data mtime,
        stat fs original = Some (File data mtime) ->
        stat fs' original = Some (File data mtime)) /\
  (forall d t,
      stat fs moved_to = Some (File d t) ->
      restore_entry false false r entry fs
      = (Ok (add_restored r (sibling, moved_to)),
         <[sibling := File d t]> (delete moved_to fs))) /\
  restore_entry true false r entry fs
  = (Ok (add_restored r (sibling, moved_to)), fs).
Proof.
  intros Hwf Hp Hm Ho Hne sibling.
  rewrite !(restore_entry_record _ _ _ _ _ _ _ Hp).
  destruct (unique_sibling fs original Ho) as (Hs & Hfree & Hpar & n & Hn & Hc).
  fold sibling in Hs, Hfree, Hpar, Hc.
  pose proof (restore_record_keep fs original moved_to Hwf Hm Ho r) as H.
  cbv zeta in H. fold sibling in H.
  split; [auto |]. split; [| split].
  - destruct (shutil_move moved_to sibling fs) as [[[]|e] fs'] eqn:Hmove;
      exists fs'; (split; [eauto |]); intros data mtime Hst;
      (eapply shutil_move_sibling_frame;
       [exact Hwf | exact Hst | exact Hfree | | exact Hpar | exact Hne
       | exact Hmove]);
      pose proof (file_not_root _ _ _ _ Hst) as Ho0;
      rewrite Hc; destruct original; [congruence | reflexivity
                                     | congruence | reflexivity].
  - intros d t Hst.
    rewrite shutil_move_file with (data := d) (mtime := t) in H;
      [exact H | assumption | assumption |].
    rewrite Hpar. now apply wf_parent_is_dir.
  - now apply restore_record_keep_dry.
Qed.

(** ** Mover *)

Section Mkdir.

Lemma mkdir_parents_is_dir (fs fs' : FileSystem) (p : Path) :
  mkdir_parents fs p = Some fs' -> is_dir fs' p = true.
Proof.
  destruct p as [|n d]; [reflexivity |]. simpl. unfold is_dir. simpl.
  destruct (fs !! (n :: d)) as [[]|] eqn:E; try discriminate.
  - intros [= <-]. now rewrite E.
  - destruct (mkdir_parents fs d); [| discriminate].
    intros [= <-]. now rewrite lookup_insert_eq.
Qed.

(** [mkdir] keeps every entry. *)
Lemma mkdir_parents_subseteq (fs fs' : FileSystem) (p : Path) :
  mkdir_parents fs p = Some fs' -> fs ⊆ fs'.
Proof.
  revert fs'. induction p as [|n d IH]; intros fs'; simpl.
  - now intros [= <-].
  - destruct (fs !! (n :: d)) as [[]|] eqn:E; try discriminate.
    + now intros [= <-].
    + destruct (mkdir_parents fs d) as [fs1|]; [| discriminate].
      intros [= <-]. apply insert_subseteq_r; [assumption | now apply IH].
Qed.

(** What [mkdir] adds is a directory. *)
Lemma mkdir_parents_new (fs fs' : FileSystem) (p q : Path) (n : Node) :
  mkdir_parents fs p = Some fs' ->
  fs' !! q = Some n -> fs !! q = None -> n = Dir.
Proof.
  revert fs'. induction p as [|x d IH]; intros fs'; simpl.
  - intros [= <-]. congruence.
  - destruct (fs !! (x :: d)) as [[]|] eqn:E; try discriminate.
    + intros [= <-]. congruence.
    + destruct (mkdir_parents fs d) as [fs1|]; [| discriminate].
      intros [= <-] Hq Hnone.
      destruct (decide (x :: d = q)) as [<-|Hne].
      * rewrite lookup_insert_eq in Hq. congruence.
      * rewrite lookup_insert_ne in Hq by assumption. eauto.
Qed.

End Mkdir.

Section SafeMove.

Variables (src dst_dir : Path) (preserve_structure : bool).
Variables (target_root : Path) (time : string).

Let dest_path := destination_base src dst_dir preserve_structure target_root.

(** [safe_move] starts by creating the parent of the destination base,
    whatever the mode. *)
Lemma safe_move_unfold (dry_run : bool) (fs : FileSystem) :
  safe_move src dst_dir preserve_structure target_root dry_run time fs
  = match mkdir_parents fs (path_parent dest_path) with
    | None => (Raise OSError, fs)
    | Some fs1 =>
        let final_dest := _unique_path_if_exists fs1 dest_path in
        if dry_run
        then (Ok (final_dest,
                  move_record src final_dest (size_or_none fs1 src) time
                    "dry-run"),
              fs1)
        else
          match shutil_move src final_dest fs1 with
          | (Ok _, fs2) =>
              (Ok (final_dest,
                   move_record src final_dest (size_or_none fs2 final_dest)
                     time "moved"),
               fs2)
          | (Raise e, fs2) => (Raise e, fs2)
          end
    end.
Proof.
  unfold safe_move, dest_path, destination_base, bind, mkdir, gets, ret.
  destruct preserve_structure;
    (destruct (mkdir_parents fs _) as [fs1|]; [| reflexivity]);
    (destruct dry_run; [reflexivity |]);
    now destruct (shutil_move _ _ fs1) as [[[]|e] fs2].
Qed.

(** The record of a successful call. *)
Lemma safe_move_record (dry_run : bool) (fs fs' : FileSystem) (dest : Path)
    (meta : JSON) :
  safe_move src dst_dir preserve_structure target_root dry_run time fs
  = (Ok (dest, meta), fs') ->
  exists size,
    meta = move_record src dest size time
             (if dry_run then "dry-run" else "moved") /\
    (size = JNull \/ exists z, size = JInt z).
Proof.
  rewrite safe_move_unfold.
  destruct (mkdir_parents fs _) as [fs1|]; [| discriminate]. cbv zeta.
  assert (Hsize : forall g p, size_or_none g p = JNull
                              \/ exists z, size_or_none g p = JInt z).
  { intros g p. unfold size_or_none. destruct (stat g p); eauto. }
  destruct dry_run.
  - intros [= <- <- <-]. eauto.
  - destruct (shutil_move _ _ fs1) as [[[]|e] fs2]; [| discriminate].
    intros [= <- <- <-]. eauto.
Qed.

End SafeMove.

(** C10.  A dry-run call of [safe_move] still creates the missing parent
    directories of the destination base: the filesystem it leaves is the
    one [mkdir] produces, with that parent a directory, every former entry
    kept and only directories added (when [mkdir] fails the call raises
    and nothing changes); and there is a call in which this changes the
    filesystem while the source stays where it was. *)
Theorem dry_run_move_creates_parents :
  (forall (src dst_dir : Path) (preserve_structure : bool)
          (target_root : Path) (time : string) (fs fs' : FileSystem)
          (res : result (Path * JSON)),
      safe_move src dst_dir preserve_structure target_root true time fs
      = (res, fs') ->
      let parent :=
        path_parent
          (destination_base src dst_dir preserve_structure target_root) in
      match mkdir_parents fs parent with
      | Some fs1 =>
          fs' = fs1 /\
          is_dir fs' parent = true /\
          (exists dest meta,
              res = Ok (dest, meta) /\
              field "action" meta = Some (JString "dry-run")) /\
          fs ⊆ fs' /\
          (forall p n, fs' !! p = Some n -> fs !! p = None -> n = Dir)
      | None => fs' = fs /\ res = Raise OSError
      end) /\
  (exists (src dst_dir target_root : Path) (time : string)
          (fs fs' : FileSystem) (dest : Path) (meta : JSON),
      safe_move src dst_dir true target_root true time fs
      = (Ok (dest, meta), fs') /\
      fs' <> fs /\
      is_dir fs (path_parent dest) = false /\
      is_dir fs' (path_parent dest) = true /\
      stat fs' src = stat fs src /\
      path_exists fs' dest = false).
Proof.
  split.
  - intros src dst_dir ps root time fs fs' res H. cbv zeta.
    rewrite safe_move_unfold in H.
    destruct (mkdir_parents fs _) as [fs1|] eqn:E.
    + cbv zeta in H. injection H as <- <-.
      repeat split.
      * now apply mkdir_parents_is_dir in E.
      * eauto.
      * now apply mkdir_parents_subseteq in E.
      * intros p n. now apply (mkdir_parents_new _ _ _ _ _ E).
    + now injection H as <- <-.
  - exists ["a.txt"; "sub"; "t"], ["q"], ["t"], "2024-01-01 00:00:00",
           (list_to_map [(["t"], Dir); (["sub"; "t"], Dir);
                         (["a.txt"; "sub"; "t"], File "" 0); (["q"], Dir)]),
           (list_to_map [(["t"], Dir); (["sub"; "t"], Dir);
                         (["a.txt"; "sub"; "t"], File "" 0); (["q"], Dir);
                         (["sub"; "q"], Dir)]),
           ["a.txt"; "sub"; "q"].
    eexists. split; [vm_compute; reflexivity |].
    split; [| vm_compute; auto].
    intros Heq. apply (f_equal (fun m => m !! ["sub"; "q"])) in Heq.
    vm_compute in Heq. discriminate.
Qed.

(** ** The action field *)

Section Action.

Lemma dict_get_set_ne (key k : string) (v : JSON)
    (d : list (string * JSON)) :
  key <> k -> dict_get key (dict_set k v d) = dict_get key d.
Proof.
  intros Hne. induction d as [|[k' w] d IH]; simpl.
  - destruct (String.eqb k key) eqn:E; [| reflexivity].
    apply String.eqb_eq in E. congruence.
  - destruct (String.eqb k' k) eqn:E; simpl.
    + apply String.eqb_eq in E. subst k'.
      destruct (String.eqb k key) eqn:E'; [| reflexivity].
      apply String.eqb_eq in E'. congruence.
    + now rewrite IH.
Qed.

(** The two paths of an entry do not depend on its action. *)
Lemma entry_path_set_action (a entry : JSON) (key : string) :
  key <> "action" ->
  entry_path (set_action a entry) key = entry_path entry key.
Proof.
  intros Hne. destruct entry; try reflexivity. simpl.
  now rewrite dict_get_set_ne.
Qed.

Lemma restore_entry_set_action (dry_run yes : bool) (r : Report)
    (a entry : JSON) :
  restore_entry dry_run yes r (set_action a entry)
  = restore_entry dry_run yes r entry.
Proof.
  unfold restore_entry.
  now rewrite !entry_path_set_action by discriminate.
Qed.

Lemma restore_loop_set_action (dry_run yes : bool) (a : JSON)
    (entries : list JSON) (r : Report) (fs : FileSystem) :
  restore_loop dry_run yes r (List.map (set_action a) entries) fs
  = restore_loop dry_run yes r entries fs.
Proof.
  revert r fs. induction entries as [|e es IH]; intros r fs; [reflexivity |].
  simpl. unfold bind. rewrite restore_entry_set_action.
  destruct (restore_entry dry_run yes r e fs) as [[r'|x] fs'];
    [apply IH | reflexivity].
Qed.

(** Every record that the loop of [main] collects is tagged moved. *)
Lemma move_all_actions (args : Args) (env : Env) (quarantine_dir : Path)
    (empty_files : list Path) (i : nat) (moved_meta metas : list JSON)
    (out out' : list string) (fs fs' : FileSystem) :
  Forall (fun m => field "action" m = Some (JString "moved")) moved_meta ->
  move_all args env quarantine_dir i empty_files moved_meta out fs
  = (Ok (metas, out'), fs') ->
  Forall (fun m => field "action" m = Some (JString "moved")) metas.
Proof.
  revert i moved_meta out fs.
  induction empty_files as [|src rest IH]; intros i moved_meta out fs Hall;
    simpl.
  - unfold ret. now intros [= <- <- <-].
  - unfold bind at 1. unfold try_except.
    unfold bind at 1.
    destruct (safe_move src quarantine_dir _ _ false _ fs)
      as [[[dest meta]|e] fs1] eqn:Hmove; unfold ret.
    + apply IH. apply Forall_app. split; [assumption |].
      apply safe_move_record in Hmove as (size & -> & _).
      now repeat constructor.
    + now apply IH.
Qed.

End Action.

(** C2, as amended.  The restore loop does not consult the action field:
    tagging the entries of a journal with any action, dry-run included,
    changes neither the report nor the filesystem the loop leaves, so a
    record is replayed or not by its two paths alone.  Records tagged
    dry-run stay out of journals on the writing side: every record that
    the loop of [main] collects for the journal is tagged moved. *)
Theorem restore_ignores_action :
  (forall (dry_run yes : bool) (a : JSON) (entries : list JSON) (r : Report)
          (fs : FileSystem),
      restore_loop dry_run yes r (List.map (set_action a) entries) fs
      = restore_loop dry_run yes r entries fs) /\
  (forall (args : Args) (env : Env) (quarantine_dir : Path)
          (empty_files : list Path) (metas : list JSON)
          (out out' : list string) (fs fs' : FileSystem),
      move_all args env quarantine_dir 0 empty_files [] out fs
      = (Ok (metas, out'), fs') ->
      Forall (fun m => field "action" m = Some (JString "moved")) metas).
Proof.
  split.
  - intros. apply restore_loop_set_action.
  - intros args env q files metas out out' fs fs' H.
    eapply move_all_actions; [| exact H]. constructor.
Qed.

(** ** Journal *)

Section Journal.

Variable json_loads : string -> option JSON.
Variables (quarantine_dir : Path) (records : list JSON) (now : nat).

Let meta_file := joinpath quarantine_dir ["metadata.json"].

(** The records [write_metadata] starts from: none when the file is
    missing, cannot be read or cannot be decoded, the items of the
    decoded array otherwise; [None] when the file decodes to something
    that is not an array. *)
Let existing (fs : FileSystem) : option (list JSON) :=
  match stat fs meta_file with
  | Some (File text _) =>
      match json_loads text with
      | Some (JArray items) => Some items
      | Some _ => None
      | None => Some []
      end
  | _ => Some []
  end.

Lemma write_metadata_unfold (fs : FileSystem) :
  write_metadata json_loads quarantine_dir records now fs
  = match existing fs with
    | Some items =>
        write_text meta_file (json_dumps (JArray (items ++ records))) now fs
    | None => (Raise AttributeError, fs)
    end.
Proof.
  unfold write_metadata, existing, meta_file.
  generalize (joinpath quarantine_dir ["metadata.json"]). intros m.
  cbv [bind gets try_except load_json read_text path_exists ret raise
       extend].
  destruct (stat fs m) as [[text t|]|] eqn:E; rewrite ?E; try reflexivity.
  destruct (json_loads text) as [[]|]; reflexivity.
Qed.

(** Writing the journal file succeeds when its place is free or holds a
    regular file, and the quarantine directory is a directory. *)
Lemma write_text_meta (fs : FileSystem) (data : string) :
  stat fs meta_file <> Some Dir ->
  is_dir fs quarantine_dir = true ->
  write_text meta_file data now fs
  = (Ok tt, <[meta_file := File data now]> fs).
Proof.
  intros Hnd Hq. unfold write_text.
  replace (path_parent meta_file) with quarantine_dir by reflexivity.
  rewrite Hq. now destruct (stat fs meta_file) as [[]|].
Qed.

(** A journal file lies in its quarantine directory. *)
Lemma meta_file_in_dir (fs : FileSystem) :
  wf fs -> path_exists fs meta_file = true ->
  is_dir fs quarantine_dir = true.
Proof. intros Hwf He. now apply (wf_parent_is_dir _ _ Hwf He). Qed.

(** A journal that decodes to something other than an array makes the
    append raise, and nothing is written. *)
Lemma write_metadata_not_array (fs : FileSystem) (text : string)
    (mtime : nat) (v : JSON) :
  stat fs meta_file = Some (File text mtime) ->
  json_loads text = Some v ->
  (forall items, v <> JArray items) ->
  write_metadata json_loads quarantine_dir records now fs
  = (Raise AttributeError, fs).
Proof.
  intros Hst Hl Hv. rewrite write_metadata_unfold. unfold existing.
  rewrite Hst, Hl. destruct v; try reflexivity. now destruct (Hv items).
Qed.

End Journal.

(** C6, as amended.  Journal append on a well-formed filesystem.  When no
    journal file exists in the quarantine directory the new records are
    written alone; when the journal file cannot be decoded it counts as
    empty, the call does not raise and the new records replace the
    corrupt content; when it decodes to an array the file is rewritten
    with the former records followed by the new ones.  In these three
    cases the call returns and the journal holds the encoding of that
    list.  On two other bad journals the call raises and writes nothing:
    a journal that decodes to a value that is not an array, where
    [existing.extend] raises [AttributeError], and a directory at the
    journal's place, where [write_text] raises [OSError]. *)
Theorem journal_append (json_loads : string -> option JSON)
    (quarantine_dir : Path) (records : list JSON) (now : nat)
    (fs : FileSystem) :
  wf fs ->
  let meta_file := joinpath quarantine_dir ["metadata.json"] in
  (stat fs meta_file = None ->
   is_dir fs quarantine_dir = true ->
   write_metadata json_loads quarantine_dir records now fs
   = (Ok tt, <[meta_file := File (json_dumps (JArray records)) now]> fs)) /\
  (forall text mtime,
      stat fs meta_file = Some (File text mtime) ->
      json_loads text = None ->
      write_metadata json_loads quarantine_dir records now fs
      = (Ok tt, <[meta_file := File (json_dumps (JArray records)) now]> fs)) /\
  (forall text mtime items,
      stat fs meta_file = Some (File text mtime) ->
      json_loads text = Some (JArray items) ->
      write_metadata json_loads quarantine_dir records now fs
      = (Ok tt,
         <[meta_file := File (json_dumps (JArray (items ++ records))) now]>
           fs)) /\
  (forall text mtime v,
      stat fs meta_file = Some (File text mtime) ->
      json_loads text = Some v ->
      (forall items, v <> JArray items) ->
      write_metadata json_loads quarantine_dir records now fs
      = (Raise AttributeError, fs)) /\
  (stat fs meta_file = Some Dir ->
   write_metadata json_loads quarantine_dir records now fs
   = (Raise OSError, fs)).
Proof.
  intros Hwf meta_file. split; [| split; [| split; [| split]]].
  - intros Hst Hq. rewrite write_metadata_unfold. fold meta_file.
    rewrite Hst. simpl app. apply write_text_meta; [| assumption].
    fold meta_file. congruence.
  - intros text mtime Hst Hl. rewrite write_metadata_unfold. fold meta_file.
    rewrite Hst, Hl. simpl app. apply write_text_meta.
    + fold meta_file. congruence.
    + apply meta_file_in_dir; [assumption |]. fold meta_file.
      unfold path_exists. now rewrite Hst.
  - intros text mtime items Hst Hl. rewrite write_metadata_unfold.
    fold meta_file. rewrite Hst, Hl. apply write_text_meta.
    + fold meta_file. congruence.
    + apply meta_file_in_dir; [assumption |]. fold meta_file.
      unfold path_exists. now rewrite Hst.
  - intros text mtime v Hst Hl Hv.
    now apply write_metadata_not_array with (text := text) (mtime := mtime)
                                            (v := v).
  - intros Hst. rewrite write_metadata_unfold. fold meta_file. rewrite Hst.
    unfold write_text. fold meta_file. now rewrite Hst.
Qed.

(** ** The journal text *)

Section JournalText.

(** Indenting every line of a block is the same as indenting after every
    separator. *)
Lemma join_indent (sep ind x : string) (xs : list string) :
  ind +:+ join (sep +:+ ind) (x :: xs)
  = join sep (List.map (fun y => ind +:+ y) (x :: xs)).
Proof.
  revert x. induction xs as [|y ys IH]; intros x; [reflexivity |].
  change (join (sep +:+ ind) (x :: y :: ys))
    with (x +:+ (sep +:+ ind) +:+ join (sep +:+ ind) (y :: ys)).
  change (join sep (List.map (fun y => ind +:+ y) (x :: y :: ys)))
    with ((ind +:+ x) +:+ sep
          +:+ join sep (List.map (fun y => ind +:+ y) (y :: ys))).
  rewrite <- IH. now rewrite !str_app_assoc.
Qed.

Lemma encode_record (rec : string * string * option Z * string * string) :
  "  " +:+ encode 1 (record_json rec) = render_record "time" rec.
Proof.
  destruct rec as [[[[original moved_to] size] time] action].
  unfold render_record, render_field, render_size, record_json.
  cbn [encode List.map fst snd join newline_indent indentation].
  destruct size as [z|]; cbn [encode];
    rewrite ?str_app_assoc; reflexivity.
Qed.

(** The encoder writes a journal of move records as the format asks. *)
Lemma dumps_journal
    (recs : list (string * string * option Z * string * string)) :
  json_dumps (JArray (List.map record_json recs))
  = render_journal "time" recs.
Proof.
  destruct recs as [|rec recs]; [reflexivity |].
  unfold json_dumps, render_journal.
  cbn [List.map]. cbn [encode].
  change (record_json rec :: List.map record_json recs)
    with (List.map record_json (rec :: recs)).
  change (render_record "time" rec :: List.map (render_record "time") recs)
    with (List.map (render_record "time") (rec :: recs)).
  rewrite (List.map_ext _ _ (fun r => eq_sym (encode_record r))).
  rewrite <- (List.map_map (fun r => encode 1 (record_json r))
                (fun y => "  " +:+ y)).
  rewrite List.map_map.
  rewrite !(List.map_cons (fun r => encode 1 (record_json r))).
  rewrite <- join_indent.
  change (newline_indent 1) with (newline +:+ "  ").
  change (newline_indent 0) with newline.
  change ("," +:+ newline +:+ "  ") with (("," +:+ newline) +:+ "  ").
  now rewrite !str_app_assoc.
Qed.

End JournalText.

(** C9, as amended.  A record returned by [safe_move] carries exactly the
    fields original, moved_to, size, time and action, in this order: the
    two paths as strings, the size an integer or null, the time the
    clock's string, and the action moved or, on a dry run, dry-run.  A
    successful journal write leaves at [metadata.json] in the quarantine
    directory the encoding of one array that ends with the new records,
    and the encoding of an array of such records is the pretty-printed
    text with two spaces per level. *)
Theorem journal_record_format :
  (forall (src dst_dir : Path) (preserve_structure : bool)
          (target_root : Path) (dry_run : bool) (time : string)
          (fs fs' : FileSystem) (dest : Path) (meta : JSON),
      safe_move src dst_dir preserve_structure target_root dry_run time fs
      = (Ok (dest, meta), fs') ->
      keys meta = ["original"; "moved_to"; "size"; "time"; "action"] /\
      field "original" meta = Some (JString (str src)) /\
      field "moved_to" meta = Some (JString (str dest)) /\
      (field "size" meta = Some JNull \/
       exists z, field "size" meta = Some (JInt z)) /\
      field "time" meta = Some (JString time) /\
      field "action" meta
      = Some (JString (if dry_run then "dry-run" else "moved"))) /\
  (forall (json_loads : string -> option JSON) (quarantine_dir : Path)
          (records : list JSON) (now : nat) (fs fs' : FileSystem),
      write_metadata json_loads quarantine_dir records now fs = (Ok tt, fs') ->
      exists existing,
        stat fs' (joinpath quarantine_dir ["metadata.json"])
        = Some (File (json_dumps (JArray (existing ++ records))) now)) /\
  (forall recs : list (string * string * option Z * string * string),
      json_dumps (JArray (List.map record_json recs))
      = render_journal "time" recs).
Proof.
  split; [| split].
  - intros src dst_dir ps root dry_run time fs fs' dest meta H.
    apply safe_move_record in H as (size & -> & Hsize).
    repeat split; try reflexivity.
    destruct Hsize as [->|[z ->]]; [left | right; exists z]; reflexivity.
  - intros json_loads q records now fs fs' H.
    rewrite write_metadata_unfold in H.
    match type of H with
    | match ?e with _ => _ end = _ => destruct e as [items|] eqn:E
    end; [| discriminate].
    exists items. unfold write_text in H.
    destruct (stat fs (joinpath q ["metadata.json"])) as [[]|];
      try discriminate;
      (destruct (is_dir fs _); [| discriminate]);
      injection H as <-;
      unfold joinpath; simpl; now rewrite lookup_insert_eq.
  - apply dumps_journal.
Qed.

(** ** The scan *)

(** What a call of [find_empty_files] does: it never changes the
    filesystem, and it raises exactly on a flat scan of something that is
    not a directory. *)
Lemma find_empty_files_run (path : Path) (recursive ignore_hidden : bool)
    (fs : FileSystem) :
  find_empty_files path recursive ignore_hidden fs
  = (if recursive || is_dir fs path
     then Ok (empty_among fs ignore_hidden
                (if recursive then rglob fs path else iterdir fs path))
     else Raise OSError, fs).
Proof.
  unfold find_empty_files, bind, gets, iterdir_io.
  destruct recursive; [reflexivity |].
  now destruct (is_dir fs path).
Qed.

Lemma find_empty_files_dir (path : Path) (recursive ignore_hidden : bool)
    (fs : FileSystem) :
  is_dir fs path = true ->
  find_empty_files path recursive ignore_hidden fs
  = (Ok (empty_among fs ignore_hidden
           (if recursive then rglob fs path else iterdir fs path)), fs).
Proof.
  intros Hd. now rewrite find_empty_files_run, Hd, orb_true_r.
Qed.

(** C8, as amended.  A dry-run scan leaves the filesystem as it was, no
    quarantine directory is created, and what it prints is the list of
    the empty files it discovered, every one of them on a line of its
    own, followed by the dry-run notice; no destination is computed. *)
Theorem dry_run_scan_report (json_loads : string -> option JSON)
    (args : Args) (env : Env) (fs : FileSystem) :
  args_dry_run args = true ->
  exists out exit,
    main json_loads args env fs = (Ok (out, exit), fs) /\
    (is_dir fs (args_target args) = true ->
     exists files,
       find_empty_files (args_target args) (args_recursive args)
         (args_ignore_hidden args) fs
       = (Ok files, fs) /\
       exit = Returned /\
       (forall f, In f files -> In (" - " +:+ str f) out) /\
       (files <> [] ->
        out = "Empty files found:"
              :: List.map (fun f => " - " +:+ str f) files
              ++ [newline +:+ "Dry-run: no files were moved."])).
Proof.
  intros Hdry. unfold main, bind, gets, ret.
  destruct (path_exists fs (args_target args) && is_dir fs (args_target args))
    eqn:Hok; cbn [negb].
  - assert (Hd : is_dir fs (args_target args) = true)
      by (now apply andb_true_iff in Hok).
    rewrite (find_empty_files_dir _ (args_recursive args)
               (args_ignore_hidden args) _ Hd).
    destruct (empty_among fs _ _) as [|f files] eqn:Hfiles.
    + do 2 eexists. split; [reflexivity |]. intros _.
      exists []. split; [reflexivity |].
      split; [reflexivity |]. split; [intros f [] | congruence].
    + rewrite Hdry. do 2 eexists. split; [reflexivity |]. intros _.
      exists (f :: files). split; [reflexivity |].
      split; [reflexivity |]. split; [| reflexivity].
      intros g Hg. right. apply in_or_app. left.
      now apply (in_map (fun f => " - " +:+ str f)) in Hg.
  - do 2 eexists. split; [reflexivity |]. intros Hd.
    rewrite (is_dir_exists _ _ Hd), Hd in Hok. discriminate.
Qed.

(** ** The properties on the sample filesystems *)

Lemma wf_project : wf fs_project.
Proof. vm_compute. reflexivity. Qed.

Lemma wf_collision : wf fs_collision.
Proof. vm_compute. reflexivity. Qed.

Lemma wf_corrupt : wf fs_corrupt.
Proof. vm_compute. reflexivity. Qed.

(** C1 on a directory whose empty file is named like the journal.  The
    quarantine pass moves [/t/metadata.json] to the journal's own place in
    the quarantine directory, and the journal write, finding an empty file
    there and taking it for a corrupt journal, overwrites it; the restore
    that follows reports the file restored, nothing skipped and no error,
    and what it puts back at [/t/metadata.json] is the text of the
    journal, 182 characters long, not the empty file. *)
Theorem round_trip_journal_name :
  let quarantine_dir := Path_of_string "/t/quarantine-20240101-000000" in
  let original := Path_of_string "/t/metadata.json" in
  let moved_to := joinpath quarantine_dir ["metadata.json"] in
  let journal :=
    json_dumps
      (JArray [move_record original moved_to (JInt 0) sample_time "moved"]) in
  let pass := main json_loads args_yes_run sample_env fs_journal_name in
  let back :=
    restore_from_quarantine json_loads quarantine_dir false false (snd pass) in
  find_empty_files (Path_of_string "/t") true true fs_journal_name
  = (Ok [original], fs_journal_name) /\
  stat fs_journal_name original = Some (File "" 1) /\
  (exists out, fst pass = Ok (out, Returned) /\
     In ("[MOVED] " +:+ str original +:+ " -> " +:+ str moved_to) out) /\
  stat (snd pass) moved_to = Some (File journal 9) /\
  fst back = Ok (Summary (mkReport [(original, moved_to)] [] [])) /\
  stat (snd back) original = Some (File journal 9) /\
  stat (snd back) moved_to = None /\
  String.length journal = 182.
Proof.
  cbv zeta.
  split; [vm_compute; reflexivity |].
  split; [vm_compute; reflexivity |].
  split.
  { eexists. split; [vm_compute; reflexivity |].
    vm_compute. tauto. }
  split; [vm_compute; reflexivity |].
  split; [vm_compute; reflexivity |].
  split; [vm_compute; reflexivity |].
  split; [vm_compute; reflexivity |].
  vm_compute; reflexivity.
Qed.

(** C2 as stated fails: a record tagged dry-run whose [moved_to] exists
    is replayed; the file leaves the quarantine for the original path and
    the record is reported restored. *)
Lemma dry_run_record_replayed :
  let entry := sample_entry "/t/a.txt" "/q/a.txt" "dry-run" in
  let run := restore_loop false false empty_report [entry] fs_quarantined in
  field "action" entry = Some (JString "dry-run") /\
  stat fs_quarantined (Path_of_string "/q/a.txt") = Some (File "" 1) /\
  fst run
  = Ok (mkReport [(Path_of_string "/t/a.txt", Path_of_string "/q/a.txt")]
          [] []) /\
  stat (snd run) (Path_of_string "/q/a.txt") = None /\
  stat (snd run) (Path_of_string "/t/a.txt") = Some (File "" 1).
Proof. cbv zeta. repeat split; vm_compute; reflexivity. Qed.

Lemma restore_ignores_action_witness :
  restore_loop false false empty_report
    (List.map (set_action (JString "dry-run"))
       [sample_entry "/t/a.txt" "/q/a.txt" "moved"])
    fs_quarantined
  = restore_loop false false empty_report
      [sample_entry "/t/a.txt" "/q/a.txt" "moved"] fs_quarantined /\
  move_all args_yes_run sample_env (Path_of_string "/q") 0
    [Path_of_string "/t/a.txt"] [] [] fs_project
  = (Ok ([move_record (Path_of_string "/t/a.txt") (Path_of_string "/q/a.txt")
            (JInt 0) sample_time "moved"],
         ["[MOVED] /t/a.txt -> /q/a.txt"]),
     snd (move_all args_yes_run sample_env (Path_of_string "/q") 0
            [Path_of_string "/t/a.txt"] [] [] fs_project)) /\
  Forall (fun m => field "action" m = Some (JString "moved"))
    [move_record (Path_of_string "/t/a.txt") (Path_of_string "/q/a.txt")
       (JInt 0) sample_time "moved"].
Proof.
  split; [apply (proj1 restore_ignores_action) |].
  assert (H : move_all args_yes_run sample_env (Path_of_string "/q") 0
                [Path_of_string "/t/a.txt"] [] [] fs_project
              = (Ok ([move_record (Path_of_string "/t/a.txt")
                        (Path_of_string "/q/a.txt") (JInt 0) sample_time
                        "moved"],
                     ["[MOVED] /t/a.txt -> /q/a.txt"]),
                 snd (move_all args_yes_run sample_env (Path_of_string "/q") 0
                        [Path_of_string "/t/a.txt"] [] [] fs_project))).
  { vm_compute. reflexivity. }
  split; [exact H |].
  exact (proj2 restore_ignores_action _ _ _ _ _ _ _ _ _ H).
Defined.

Lemma unique_path_contract_witness :
  path_exists fs_project (Path_of_string "/t/a.txt") = true /\
  path_exists fs_project (Path_of_string "/t/c.txt") = false /\
  _unique_path_if_exists fs_project (Path_of_string "/t/c.txt")
  = Path_of_string "/t/c.txt" /\
  _unique_path_if_exists fs_project (Path_of_string "/t/a.txt")
  <> Path_of_string "/t/a.txt" /\
  path_exists fs_project
    (_unique_path_if_exists fs_project (Path_of_string "/t/a.txt")) = false /\
  path_suffix (Path_of_string "/t/sub") = "" /\
  path_name (candidate (Path_of_string "/t/sub") 1) = "sub_1" /\
  path_suffix (candidate (Path_of_string "/t/sub") 1) = "".
Proof.
  assert (H1 : path_exists fs_project (Path_of_string "/t/a.txt") = true)
    by (vm_compute; reflexivity).
  assert (H2 : path_exists fs_project (Path_of_string "/t/c.txt") = false)
    by (vm_compute; reflexivity).
  assert (H3 : path_suffix (Path_of_string "/t/sub") = "")
    by (vm_compute; reflexivity).
  assert (H4 : forall i, rfind "." (path_name (Path_of_string "/t/sub"))
                         = Some i -> i = 0)
    by (intros i Hi; vm_compute in Hi; discriminate Hi).
  split; [exact H1 |]. split; [exact H2 |].
  split;
    [exact (proj1 (unique_path_contract fs_project _) H2) |].
  destruct (proj1 (proj2 (unique_path_contract fs_project _)) H1)
    as (_ & Hne & Hfree).
  split; [exact Hne |]. split; [exact Hfree |]. split; [exact H3 |].
  destruct (proj2 (proj2 (proj2 (proj2 (proj2
              (unique_path_contract fs_project (Path_of_string "/t/sub"))))))
              H3 1) as (Hname & Hnone & _).
  split; [exact Hname | exact (Hnone H4)].
Defined.

(** C3 as stated fails on its last part: [/t/a.] has no extension, and
    the path chosen for it when it exists, [/t/a._1], has the extension
    [._1]. *)
Lemma candidate_gains_extension :
  let P := Path_of_string "/t/a." in
  path_exists fs_trailing_dot P = true /\
  path_suffix P = "" /\
  _unique_path_if_exists fs_trailing_dot P = candidate P 1 /\
  candidate P 1 = Path_of_string "/t/a._1" /\
  path_suffix (_unique_path_if_exists fs_trailing_dot P) = "._1" /\
  path_suffix (_unique_path_if_exists fs_trailing_dot P) <> "".
Proof.
  cbv zeta. repeat split; try (vm_compute; reflexivity).
  vm_compute. discriminate.
Qed.


(** C5 as stated fails on a record whose [moved_to] is its [original]:
    without overwrite the file at the original path is moved to the
    sibling, so it does not stay where it was. *)
Lemma restore_keep_same_path_moves_original :
  let entry := sample_entry "/t/a.txt" "/t/a.txt" "moved" in
  let original := Path_of_string "/t/a.txt" in
  let run := restore_entry false false empty_report entry fs_collision in
  wf fs_collision /\
  record_paths entry = Some (original, original) /\
  path_exists fs_collision original = true /\
  stat fs_collision original = Some (File "new" 5) /\
  fst run
  = Ok (add_restored empty_report (Path_of_string "/t/a_1.txt", original)) /\
  stat (snd run) original = None /\
  stat (snd run) (Path_of_string "/t/a_1.txt") = Some (File "new" 5).
Proof.
  cbv zeta. split; [exact wf_collision |].
  repeat split; vm_compute; reflexivity.
Qed.

Lemma restore_keep_policy_witness :
  let entry := sample_entry "/t/a.txt" "/q/a.txt" "moved" in
  let original := Path_of_string "/t/a.txt" in
  let moved_to := Path_of_string "/q/a.txt" in
  let sibling := _unique_path_if_exists fs_collision original in
  wf fs_collision /\
  record_paths entry = Some (original, moved_to) /\
  path_exists fs_collision moved_to = true /\
  path_exists fs_collision original = true /\
  moved_to <> original /\
  sibling = Path_of_string "/t/a_1.txt" /\
  restore_entry false false empty_report entry fs_collision
  = (Ok (add_restored empty_report (sibling, moved_to)),
     <[sibling := File "" 1]> (delete moved_to fs_collision)).
Proof.
  cbv zeta.
  assert (H1 : record_paths (sample_entry "/t/a.txt" "/q/a.txt" "moved")
               = Some (Path_of_string "/t/a.txt", Path_of_string "/q/a.txt"))
    by (vm_compute; reflexivity).
  assert (H2 : path_exists fs_collision (Path_of_string "/q/a.txt") = true)
    by (vm_compute; reflexivity).
  assert (H3 : path_exists fs_collision (Path_of_string "/t/a.txt") = true)
    by (vm_compute; reflexivity).
  assert (H4 : Path_of_string "/q/a.txt" <> Path_of_string "/t/a.txt")
    by (vm_compute; discriminate).
  repeat (split; [assumption || exact wf_collision |]).
  split; [vm_compute; reflexivity |].
  refine (proj1 (proj2 (proj2
            (restore_keep_policy fs_collision empty_report _ _ _
               wf_collision H1 H2 H3 H4))) "" 1 _).
  vm_compute; reflexivity.
Defined.

Lemma wf_gone : wf fs_gone.
Proof. vm_compute. reflexivity. Qed.

Lemma wf_object_journal : wf fs_object_journal.
Proof. vm_compute. reflexivity. Qed.

Lemma wf_directory_journal : wf fs_directory_journal.
Proof. vm_compute. reflexivity. Qed.

Lemma journal_append_witness :
  let meta_file := Path_of_string "/q/metadata.json" in
  let records := [sample_entry "/t/b.txt" "/q/b.txt" "moved"] in
  wf fs_corrupt /\
  stat fs_corrupt meta_file = Some (File "" 1) /\
  json_loads "" = None /\
  write_metadata json_loads (Path_of_string "/q") records 7 fs_corrupt
  = (Ok tt, <[meta_file := File (json_dumps (JArray records)) 7]> fs_corrupt) /\
  wf fs_gone /\
  write_metadata json_loads (Path_of_string "/q") records 7 fs_gone
  = (Ok tt,
     <[meta_file :=
         File (json_dumps
                 (JArray ([sample_entry "/t/a.txt" "/q/a.txt" "moved"]
                          ++ records))) 7]> fs_gone) /\
  wf fs_project /\
  stat fs_project meta_file = None /\
  is_dir fs_project (Path_of_string "/q") = true /\
  write_metadata json_loads (Path_of_string "/q") records 7 fs_project
  = (Ok tt, <[meta_file := File (json_dumps (JArray records)) 7]> fs_project) /\
  wf fs_object_journal /\
  stat fs_object_journal meta_file = Some (File "{}" 1) /\
  json_loads "{}" = Some (JObject []) /\
  write_metadata json_loads (Path_of_string "/q") records 7 fs_object_journal
  = (Raise AttributeError, fs_object_journal) /\
  wf fs_directory_journal /\
  stat fs_directory_journal meta_file = Some Dir /\
  write_metadata json_loads (Path_of_string "/q") records 7
    fs_directory_journal
  = (Raise OSError, fs_directory_journal).
Proof.
  cbv zeta.
  assert (H5 : stat fs_object_journal (Path_of_string "/q/metadata.json")
               = Some (File "{}" 1)) by (vm_compute; reflexivity).
  assert (H6 : json_loads "{}" = Some (JObject []))
    by (vm_compute; reflexivity).
  assert (H7 : forall items : list JSON, JObject [] <> JArray items)
    by discriminate.
  assert (H8 : stat fs_directory_journal (Path_of_string "/q/metadata.json")
               = Some Dir) by (vm_compute; reflexivity).
  assert (H1 : stat fs_corrupt (Path_of_string "/q/metadata.json")
               = Some (File "" 1)) by (vm_compute; reflexivity).
  assert (H2 : json_loads "" = None) by (vm_compute; reflexivity).
  assert (H3 : stat fs_project (Path_of_string "/q/metadata.json") = None)
    by (vm_compute; reflexivity).
  assert (H4 : is_dir fs_project (Path_of_string "/q") = true)
    by (vm_compute; reflexivity).
  split; [exact wf_corrupt |]. split; [exact H1 |]. split; [exact H2 |].
  split.
  { exact (proj1 (proj2
             (journal_append json_loads (Path_of_string "/q") _ 7 fs_corrupt
                wf_corrupt)) "" 1 H1 H2). }
  split; [exact wf_gone |].
  split.
  { refine (proj1 (proj2 (proj2
              (journal_append json_loads (Path_of_string "/q") _ 7 fs_gone
                 wf_gone)))
              (json_dumps
                 (JArray [sample_entry "/t/a.txt" "/q/a.txt" "moved"]))
              2 [sample_entry "/t/a.txt" "/q/a.txt" "moved"] _ _);
      vm_compute; reflexivity. }
  split; [exact wf_project |]. split; [exact H3 |]. split; [exact H4 |].
  split.
  { exact (proj1
             (journal_append json_loads (Path_of_string "/q") _ 7 fs_project
                wf_project) H3 H4). }
  split; [exact wf_object_journal |]. split; [exact H5 |].
  split; [exact H6 |].
  split.
  { exact (proj1 (proj2 (proj2 (proj2
             (journal_append json_loads (Path_of_string "/q") _ 7
                fs_object_journal wf_object_journal))))
             "{}" 1 (JObject []) H5 H6 H7). }
  split; [exact wf_directory_journal |]. split; [exact H8 |].
  exact (proj2 (proj2 (proj2 (proj2
           (journal_append json_loads (Path_of_string "/q") _ 7
              fs_directory_journal wf_directory_journal)))) H8).
Defined.

(** C6 as stated fails: a journal that holds a JSON object is a bad
    journal that is decoded without error; it is not a list, so the
    append raises on it and nothing is written. *)
Lemma journal_append_object_raises :
  write_metadata json_loads (Path_of_string "/q")
    [sample_entry "/t/b.txt" "/q/b.txt" "moved"] 7 fs_object_journal
  = (Raise AttributeError, fs_object_journal).
Proof.
  apply write_metadata_not_array with (text := "{}") (mtime := 1)
                                      (v := JObject []).
  - vm_compute; reflexivity.
  - vm_compute; reflexivity.
  - discriminate.
Qed.

Lemma restore_skips_missing_targets_witness :
  let entry := sample_entry "/t/a.txt" "/q/a.txt" "moved" in
  let original := Path_of_string "/t/a.txt" in
  let moved_to := Path_of_string "/q/a.txt" in
  record_paths entry = Some (original, moved_to) /\
  path_exists fs_gone moved_to = false /\
  restore_entry false true empty_report entry fs_gone
  = (Ok (add_skipped empty_report (original, moved_to, "moved file missing")),
     fs_gone) /\
  restore_from_quarantine json_loads (Path_of_string "/q") false false fs_gone
  = (Ok (Summary (mkReport [] [(original, moved_to, "moved file missing")] [])),
     fs_gone).
Proof.
  cbv zeta.
  assert (H1 : record_paths (sample_entry "/t/a.txt" "/q/a.txt" "moved")
               = Some (Path_of_string "/t/a.txt", Path_of_string "/q/a.txt"))
    by (vm_compute; reflexivity).
  assert (H2 : path_exists fs_gone (Path_of_string "/q/a.txt") = false)
    by (vm_compute; reflexivity).
  split; [exact H1 |]. split; [exact H2 |].
  split;
    [exact (proj1 restore_skips_missing_targets false true empty_report _ _ _
              fs_gone H1 H2) |].
  refine (proj2 restore_skips_missing_targets json_loads (Path_of_string "/q")
            false false fs_gone _ 2
            [sample_entry "/t/a.txt" "/q/a.txt" "moved"]
            [(Path_of_string "/t/a.txt", Path_of_string "/q/a.txt")]
            _ _ _ _).
  - vm_compute; reflexivity.
  - vm_compute; reflexivity.
  - vm_compute; reflexivity.
  - constructor; [exact H2 | constructor].
Defined.

Lemma dry_run_scan_report_witness :
  args_dry_run args_dry = true /\
  is_dir fs_project (args_target args_dry) = true /\
  main json_loads args_dry sample_env fs_project
  = (Ok (["Empty files found:"; " - /t/a.txt"; " - /t/sub/a.txt";
          newline +:+ "Dry-run: no files were moved."],
         Returned),
     fs_project).
Proof.
  assert (H1 : args_dry_run args_dry = true) by reflexivity.
  assert (H2 : is_dir fs_project (args_target args_dry) = true)
    by (vm_compute; reflexivity).
  split; [exact H1 |]. split; [exact H2 |].
  assert (H3 : find_empty_files (args_target args_dry)
                 (args_recursive args_dry) (args_ignore_hidden args_dry)
                 fs_project
               = (Ok [Path_of_string "/t/a.txt";
                      Path_of_string "/t/sub/a.txt"], fs_project))
    by (vm_compute; reflexivity).
  destruct (dry_run_scan_report json_loads args_dry sample_env fs_project H1)
    as (out & exit & Hmain & Hrest).
  destruct (Hrest H2) as (files & Hfiles & -> & _ & Hout).
  rewrite H3 in Hfiles. injection Hfiles as <-.
  rewrite Hmain. rewrite Hout.
  - vm_compute. reflexivity.
  - discriminate.
Defined.

(** C8 as stated fails: the dry run of the scan prints the empty files it
    found and nothing about where they would go.  The destination that
    [safe_move] would choose for [/t/a.txt] in the quarantine directory of
    this run occurs on no line of the output, and neither does the name of
    that directory. *)
Lemma dry_run_report_lists_no_destination :
  let target := Path_of_string "/t" in
  let f := Path_of_string "/t/a.txt" in
  let run := main json_loads args_dry sample_env fs_project in
  let made := make_quarantine_dir None target "20240101-000000" fs_project in
  let would := safe_move f (Path_of_string "/t/quarantine-20240101-000000")
                 false target true sample_time (snd made) in
  (exists files,
      find_empty_files target true true fs_project = (Ok files, fs_project) /\
      In f files) /\
  fst made = Ok (Path_of_string "/t/quarantine-20240101-000000") /\
  (exists meta,
      fst would
      = Ok (Path_of_string "/t/quarantine-20240101-000000/a.txt", meta)) /\
  exists out,
    fst run = Ok (out, Returned) /\
    forallb
      (fun line =>
         negb (occurs_in "/t/quarantine-20240101-000000/a.txt" line)
         && negb (occurs_in "quarantine-" line))
      out = true.
Proof.
  cbv zeta.
  split.
  { exists [Path_of_string "/t/a.txt"; Path_of_string "/t/sub/a.txt"].
    split; [vm_compute; reflexivity | now left]. }
  split; [vm_compute; reflexivity |].
  split; [eexists; vm_compute; reflexivity |].
  eexists. split; vm_compute; reflexivity.
Qed.

(** C9 as stated fails on the name of one field: the record that
    [safe_move] returns has no field named timestamp, its time is stored
    under the key time, and the journal text differs from the one that
    would carry a timestamp key. *)
Lemma journal_record_has_no_timestamp :
  let src := Path_of_string "/t/a.txt" in
  let run := safe_move src (Path_of_string "/q") false (Path_of_string "/t")
               false sample_time fs_project in
  let meta := move_record src (Path_of_string "/q/a.txt") (JInt 0)
                sample_time "moved" in
  let rec := ("/t/a.txt", "/q/a.txt", Some 0%Z, sample_time, "moved") in
  fst run = Ok (Path_of_string "/q/a.txt", meta) /\
  field "timestamp" meta = None /\
  field "time" meta = Some (JString sample_time) /\
  meta = record_json rec /\
  json_dumps (JArray [meta]) = render_journal "time" [rec] /\
  json_dumps (JArray [meta]) <> render_journal "timestamp" [rec].
Proof.
  cbv zeta. repeat split; try (vm_compute; reflexivity).
  vm_compute. discriminate.
Qed.

Lemma journal_record_format_witness :
  let src := Path_of_string "/t/a.txt" in
  let dest := Path_of_string "/q/a.txt" in
  let meta := move_record src dest (JInt 0) sample_time "moved" in
  let records := [sample_entry "/t/b.txt" "/q/b.txt" "moved"] in
  safe_move src (Path_of_string "/q") false (Path_of_string "/t") false
    sample_time fs_project
  = (Ok (dest, meta),
     snd (safe_move src (Path_of_string "/q") false (Path_of_string "/t")
            false sample_time fs_project)) /\
  keys meta = ["original"; "moved_to"; "size"; "time"; "action"] /\
  field "action" meta = Some (JString "moved") /\
  write_metadata json_loads (Path_of_string "/q") records 7 fs_corrupt
  = (Ok tt,
     snd (write_metadata json_loads (Path_of_string "/q") records 7
            fs_corrupt)) /\
  exists existing,
    stat (snd (write_metadata json_loads (Path_of_string "/q") records 7
                 fs_corrupt))
      (joinpath (Path_of_string "/q") ["metadata.json"])
    = Some (File (json_dumps (JArray (existing ++ records))) 7).
Proof.
  cbv zeta.
  assert (H1 : safe_move (Path_of_string "/t/a.txt") (Path_of_string "/q")
                 false (Path_of_string "/t") false sample_time fs_project
               = (Ok (Path_of_string "/q/a.txt",
                      move_record (Path_of_string "/t/a.txt")
                        (Path_of_string "/q/a.txt") (JInt 0) sample_time
                        "moved"),
                  snd (safe_move (Path_of_string "/t/a.txt")
                         (Path_of_string "/q") false (Path_of_string "/t")
                         false sample_time fs_project)))
    by (vm_compute; reflexivity).
  assert (H2 : write_metadata json_loads (Path_of_string "/q")
                 [sample_entry "/t/b.txt" "/q/b.txt" "moved"] 7 fs_corrupt
               = (Ok tt,
                  snd (write_metadata json_loads (Path_of_string "/q")
                         [sample_entry "/t/b.txt" "/q/b.txt" "moved"] 7
                         fs_corrupt)))
    by (vm_compute; reflexivity).
  split; [exact H1 |].
  destruct (proj1 journal_record_format _ _ _ _ _ _ _ _ _ _ H1)
    as (Hk & _ & _ & _ & _ & Ha).
  split; [exact Hk |]. split; [exact Ha |]. split; [exact H2 |].
  exact (proj1 (proj2 journal_record_format) _ _ _ _ _ _ H2).
Defined.

Lemma dry_run_move_creates_parents_witness :
  let src := Path_of_string "/t/sub/a.txt" in
  let run := safe_move src (Path_of_string "/q") true (Path_of_string "/t")
               true sample_time fs_project in
  let parent := Path_of_string "/q/sub" in
  safe_move src (Path_of_string "/q") true (Path_of_string "/t") true
    sample_time fs_project
  = (fst run, snd run) /\
  path_parent
    (destination_base src (Path_of_string "/q") true (Path_of_string "/t"))
  = parent /\
  is_dir fs_project parent = false /\
  is_dir (snd run) parent = true /\
  fs_project ⊆ snd run.
Proof.
  cbv zeta.
  assert (H1 : safe_move (Path_of_string "/t/sub/a.txt")
                 (Path_of_string "/q") true (Path_of_string "/t") true
                 sample_time fs_project
               = (fst (safe_move (Path_of_string "/t/sub/a.txt")
                         (Path_of_string "/q") true (Path_of_string "/t")
                         true sample_time fs_project),
                  snd (safe_move (Path_of_string "/t/sub/a.txt")
                         (Path_of_string "/q") true (Path_of_string "/t")
                         true sample_time fs_project)))
    by apply surjective_pairing.
  assert (H2 : path_parent
                 (destination_base (Path_of_string "/t/sub/a.txt")
                    (Path_of_string "/q") true (Path_of_string "/t"))
               = Path_of_string "/q/sub") by (vm_compute; reflexivity).
  split; [exact H1 |]. split; [exact H2 |].
  split; [vm_compute; reflexivity |].
  pose proof (proj1 dry_run_move_creates_parents _ _ _ _ _ _ _ _ H1) as H.
  cbv zeta in H. rewrite H2 in H.
  assert (H3 : mkdir_parents fs_project (Path_of_string "/q/sub")
               = Some (<[Path_of_string "/q/sub" := Dir]> fs_project))
    by (vm_compute; reflexivity).
  rewrite H3 in H.
  destruct H as (_ & Hd & _ & Hsub & _). split; [exact Hd | exact Hsub].
Defined.

(** The round trip on the project directory, whose two empty files share
    a name: the second lands in the quarantine under the suffix [_1], and
    the restore puts both back, empty, with nothing skipped and no
    error. *)
Lemma round_trip_project :
  let quarantine_dir := Path_of_string "/t/quarantine-20240101-000000" in
  let pass := main json_loads args_yes_run sample_env fs_project in
  let back :=
    restore_from_quarantine json_loads quarantine_dir false false (snd pass) in
  stat (snd pass) (Path_of_string "/t/a.txt") = None /\
  stat (snd pass) (Path_of_string "/t/sub/a.txt") = None /\
  stat (snd pass) (joinpath quarantine_dir ["a.txt"]) = Some (File "" 1) /\
  stat (snd pass) (joinpath quarantine_dir ["a_1.txt"]) = Some (File "" 3) /\
  fst back
  = Ok (Summary
          (mkReport
             [(Path_of_string "/t/a.txt", joinpath quarantine_dir ["a.txt"]);
              (Path_of_string "/t/sub/a.txt",
               joinpath quarantine_dir ["a_1.txt"])]
             [] [])) /\
  stat (snd back) (Path_of_string "/t/a.txt") = Some (File "" 1) /\
  stat (snd back) (Path_of_string "/t/sub/a.txt") = Some (File "" 3).
Proof. cbv zeta. repeat split; vm_compute; reflexivity. Qed.

(** The candidates of a few names: the counter goes before the last
    extension only, a leading dot is not an extension, and a name that
    ends in a dot has no extension, so the counter follows the dot. *)
Lemma candidate_names :
  candidate (Path_of_string "/t/a.txt") 3 = Path_of_string "/t/a_3.txt" /\
  candidate (Path_of_string "/t/a.tar.gz") 12
  = Path_of_string "/t/a.tar_12.gz" /\
  candidate (Path_of_string "/t/.bashrc") 1 = Path_of_string "/t/.bashrc_1" /\
  candidate (Path_of_string "/t/sub") 1 = Path_of_string "/t/sub_1" /\
  path_suffix (Path_of_string "/t/a.") = "" /\
  candidate (Path_of_string "/t/a.") 1 = Path_of_string "/t/a._1" /\
  path_suffix (Path_of_string "/t/a._1") = "._1".
Proof. repeat split; vm_compute; reflexivity. Qed.

(** * Further properties of the code *)

(** ** Discovery *)

Section Discovery.

Variable fs : FileSystem.

Lemma in_keys (p : Path) :
  In p (map_to_list fs).*1 <-> exists n, fs !! p = Some n.
Proof.
  rewrite <- list_elem_of_In, list_elem_of_fmap. split.
  - intros ([q n] & -> & H). exists n. now apply elem_of_map_to_list.
  - intros [n H]. exists (p, n). split; [reflexivity |].
    now apply elem_of_map_to_list.
Qed.

Lemma keys_nodup : NoDup (map_to_list fs).*1.
Proof. apply NoDup_fst_map_to_list. Qed.

Lemma size_zero_empty (data : string) (mtime : nat) :
  Z.eqb (st_size (File data mtime)) 0 = true <-> data = "".
Proof.
  simpl. rewrite Z.eqb_eq. destruct data; simpl; [tauto |].
  split; [lia | discriminate].
Qed.

(** A path below a path with a hidden part has a hidden part. *)
Lemma hidden_below (path p : Path) :
  path `suffix_of` p -> has_hidden_part path = true ->
  has_hidden_part p = true.
Proof.
  intros [k ->] H. unfold has_hidden_part in *.
  rewrite existsb_app, H. apply orb_true_r.
Qed.

End Discovery.

Lemma empty_file_test (fs : FileSystem) (ignore_hidden : bool) (q : Path) :
  (if is_file fs q
   then if ignore_hidden && has_hidden_part q then false
        else match stat fs q with
             | Some n => Z.eqb (st_size n) 0
             | None => false
             end
   else false) = true <->
  (exists mtime, stat fs q = Some (File "" mtime)) /\
  (ignore_hidden = true -> has_hidden_part q = false).
Proof.
  unfold is_file.
  destruct (stat fs q) as [[data mtime|]|] eqn:E.
  - destruct (ignore_hidden && has_hidden_part q) eqn:Eh.
    + split; [discriminate |]. intros [_ Hh].
      apply andb_true_iff in Eh as [-> Eh]. rewrite Hh in Eh by reflexivity.
      discriminate.
    + rewrite size_zero_empty. split.
      * intros ->. split; [eauto |]. intros ->. exact Eh.
      * intros [[m [= -> _]] _]. reflexivity.
  - split; [discriminate | intros [[m H] _]; discriminate].
  - split; [discriminate | intros [[m H] _]; discriminate].
Qed.

(** The files a scan finds, when it returns. *)
Lemma in_find_empty_files (fs : FileSystem) (path : Path)
    (recursive ignore_hidden : bool) (p : Path) :
  In p (empty_among fs ignore_hidden
          (if recursive then rglob fs path else iterdir fs path)) <->
  (exists mtime, stat fs p = Some (File "" mtime)) /\
  (if recursive then path `suffix_of` p /\ p <> path
   else path_parent p = path) /\
  (ignore_hidden = true -> has_hidden_part p = false).
Proof.
  unfold empty_among. rewrite filter_In, empty_file_test.
  destruct recursive.
  - unfold rglob. rewrite filter_In, in_keys, andb_true_iff,
      bool_decide_eq_true, negb_true_iff, bool_decide_eq_false.
    split.
    + intros ((_ & Hs & Hne) & Hf & Hh). auto.
    + intros ((m & Hst) & (Hs & Hne) & Hh).
      repeat split; eauto.
      destruct p; [discriminate | simpl in Hst; eauto].
  - unfold iterdir. rewrite filter_In, in_keys, andb_true_iff,
      bool_decide_eq_true, negb_true_iff, bool_decide_eq_false.
    split.
    + intros ((_ & _ & Hpar) & Hf & Hh). auto.
    + intros ((m & Hst) & Hpar & Hh).
      assert (p <> []) by (intros ->; discriminate).
      repeat split; eauto.
      destruct p; [congruence | simpl in Hst; eauto].
Qed.

Lemma hidden_target_finds_nothing (fs : FileSystem) (path : Path)
    (recursive : bool) :
  has_hidden_part path = true ->
  empty_among fs true (if recursive then rglob fs path else iterdir fs path)
  = [].
Proof.
  intros Hh.
  destruct (empty_among fs true _) as [|p l] eqn:E; [reflexivity |].
  assert (Hin : In p (empty_among fs true
                        (if recursive then rglob fs path
                         else iterdir fs path)))
    by (rewrite E; now left).
  apply in_find_empty_files in Hin as ((m & Hst) & Hscope & Hhid).
  specialize (Hhid eq_refl).
  assert (Hs : path `suffix_of` p).
  { destruct recursive; [tauto |].
    destruct p as [|n d]; [discriminate |]. simpl in Hscope. subst d.
    now apply suffix_cons_r. }
  rewrite (hidden_below _ _ Hs Hh) in Hhid. discriminate.
Qed.

(** X1.  A flat scan of a path that is not a directory raises, as
    [iterdir] does, and changes nothing.  Every other scan, a recursive
    one or one of a directory, returns, changes nothing, and returns
    exactly the regular files of length zero in its scope, each once: the
    entries strictly below [path] when recursive, the entries directly in
    [path] otherwise; with [ignore_hidden], those among them of whose
    absolute path no part starts with a dot. *)
Theorem find_empty_files_exact (fs : FileSystem) (path : Path)
    (recursive ignore_hidden : bool) :
  (recursive = false -> is_dir fs path = false ->
   find_empty_files path recursive ignore_hidden fs = (Raise OSError, fs)) /\
  (recursive = true \/ is_dir fs path = true ->
   exists files,
     find_empty_files path recursive ignore_hidden fs = (Ok files, fs) /\
     (forall p,
         In p files <->
         (exists mtime, stat fs p = Some (File "" mtime)) /\
         (if recursive then path `suffix_of` p /\ p <> path
          else path_parent p = path) /\
         (ignore_hidden = true -> has_hidden_part p = false)) /\
     NoDup files).
Proof.
  rewrite find_empty_files_run. split.
  - intros -> ->. reflexivity.
  - intros Hok.
    assert (recursive || is_dir fs path = true) as ->
      by (destruct Hok as [-> | ->]; [reflexivity | apply orb_true_r]).
    eexists. split; [reflexivity |].
    split; [intros p; apply in_find_empty_files |].
    unfold empty_among. apply NoDup_ListNoDup, List.NoDup_filter.
    destruct recursive; unfold rglob, iterdir;
      apply List.NoDup_filter, NoDup_ListNoDup, keys_nodup.
Qed.

(** X2.  The hidden-file test looks at every part of the absolute path,
    the target's own included: when a part of the target starts with a
    dot, a scan that ignores hidden files and returns finds nothing,
    whatever the directory holds.  The flat scan of such a target that is
    not a directory raises like any other. *)
Theorem find_empty_files_hidden_target (fs : FileSystem) (path : Path)
    (recursive : bool) :
  has_hidden_part path = true ->
  find_empty_files path recursive true fs
  = (if recursive || is_dir fs path then Ok [] else Raise OSError, fs).
Proof.
  intros Hh. rewrite find_empty_files_run.
  now rewrite (hidden_target_finds_nothing fs path recursive Hh).
Qed.

(** ** Well-formed filesystems *)

Section WellFormed.

Lemma suffix_cons_cases (q d : Path) (n : string) :
  q `suffix_of` n :: d -> q = n :: d \/ q `suffix_of` d.
Proof.
  destruct q as [|x q]; [right; apply suffix_nil |]. apply suffix_cons_inv.
Qed.

Lemma wf_intro (fs : FileSystem) :
  (forall p n, fs !! p = Some n ->
               p <> [] /\ is_dir fs (path_parent p) = true) ->
  wf fs.
Proof.
  intros H. unfold wf, wfb. apply forallb_forall. intros p Hin.
  apply list_elem_of_In, list_elem_of_fmap in Hin as ([q n] & -> & Hq).
  apply elem_of_map_to_list in Hq. destruct (H _ _ Hq) as [H1 H2].
  simpl. rewrite H2, andb_true_r. apply negb_true_iff.
  now apply bool_decide_eq_false.
Qed.

(** Whatever lies above an existing path is a directory. *)
Lemma wf_ancestor_dir (fs : FileSystem) (p q : Path) :
  wf fs -> path_exists fs p = true -> q `suffix_of` p -> q <> p ->
  is_dir fs q = true.
Proof.
  intros Hwf. revert q. induction p as [|n d IH]; intros q He Hs Hne.
  - apply suffix_nil_inv in Hs. congruence.
  - pose proof (wf_parent_is_dir _ _ Hwf He) as Hd. simpl in Hd.
    apply suffix_cons_cases in Hs as [->|Hs]; [congruence |].
    destruct (decide (q = d)) as [->|Hqd]; [exact Hd |].
    apply IH; [now apply is_dir_exists | assumption | assumption].
Qed.

Lemma is_dir_insert_other (fs : FileSystem) (p q : Path) (n : Node) :
  is_dir fs q = true -> (p = q -> n = Dir) ->
  is_dir (<[p := n]> fs) q = true.
Proof.
  unfold is_dir, stat. destruct q as [|x q]; [reflexivity |].
  intros Hq Hn. destruct (decide (p = x :: q)) as [->|Hne].
  - rewrite lookup_insert_eq. now rewrite Hn.
  - now rewrite lookup_insert_ne.
Qed.

(** A new entry in a directory keeps the filesystem well formed, and so
    does a regular file put in the place of a regular file. *)
Lemma wf_insert (fs : FileSystem) (p : Path) (n : Node) :
  wf fs -> p <> [] -> is_dir fs (path_parent p) = true ->
  (n <> Dir -> is_dir fs p = false) ->
  wf (<[p := n]> fs).
Proof.
  intros Hwf Hp Hpar Hn. apply wf_intro. intros k x Hk.
  destruct (decide (p = k)) as [<-|Hne].
  - split; [assumption |]. apply is_dir_insert_other; [assumption |].
    intros Heq. destruct p; [congruence |]. simpl in Heq.
    apply (f_equal length) in Heq. simpl in Heq. lia.
  - rewrite lookup_insert_ne in Hk by assumption.
    destruct (wf_lookup _ _ _ Hwf Hk) as [Hk0 Hkd]. split; [assumption |].
    destruct (decide (p = path_parent k)) as [Heq|Hne'].
    + destruct n; [| apply is_dir_insert_other; auto].
      rewrite <- Heq, Hn in Hkd by discriminate. discriminate.
    + apply is_dir_insert_other; [assumption | congruence].
Qed.

(** Removing a regular file keeps the filesystem well formed. *)
Lemma wf_delete_file (fs : FileSystem) (p : Path) :
  wf fs -> is_file fs p = true -> wf (delete p fs).
Proof.
  intros Hwf Hf. apply wf_intro. intros k x Hk.
  apply lookup_delete_Some in Hk as [Hne Hk].
  destruct (wf_lookup _ _ _ Hwf Hk) as [Hk0 Hkd]. split; [assumption |].
  unfold is_dir, is_file, stat in *.
  destruct (path_parent k) as [|y l] eqn:E; [reflexivity |].
  destruct (decide (p = y :: l)) as [->|Hne'].
  - destruct (fs !! (y :: l)) as [[]|]; discriminate.
  - now rewrite lookup_delete_ne.
Qed.

End WellFormed.

(** ** [mkdir] *)

Section MkdirOutcome.

Lemma mkdir_parents_wf (fs fs' : FileSystem) (p : Path) :
  wf fs -> mkdir_parents fs p = Some fs' -> wf fs'.
Proof.
  intros Hwf. revert fs'. induction p as [|n d IH]; intros fs'; simpl.
  - now intros [= <-].
  - destruct (fs !! (n :: d)) as [[]|] eqn:E; try discriminate.
    + now intros [= <-].
    + destruct (mkdir_parents fs d) as [fs1|] eqn:E1; [| discriminate].
      intros [= <-]. apply wf_insert.
      * now apply IH.
      * discriminate.
      * now apply mkdir_parents_is_dir in E1.
      * congruence.
Qed.

(** What [mkdir] adds lies on the way to the path it was asked for. *)
Lemma mkdir_parents_new_suffix (fs fs' : FileSystem) (p q : Path) (n : Node) :
  mkdir_parents fs p = Some fs' ->
  fs' !! q = Some n -> fs !! q = None -> q `suffix_of` p.
Proof.
  revert fs'. induction p as [|x d IH]; intros fs'; simpl.
  - intros [= <-]. congruence.
  - destruct (fs !! (x :: d)) as [[]|] eqn:E; try discriminate.
    + intros [= <-]. congruence.
    + destruct (mkdir_parents fs d) as [fs1|]; [| discriminate].
      intros [= <-] Hq Hnone.
      destruct (decide (x :: d = q)) as [<-|Hne]; [reflexivity |].
      rewrite lookup_insert_ne in Hq by assumption.
      apply suffix_cons_r. eauto.
Qed.

(** [mkdir] fails only at a regular file on the way. *)
Lemma mkdir_parents_none (fs : FileSystem) (p : Path) :
  mkdir_parents fs p = None ->
  exists q, q `suffix_of` p /\ is_file fs q = true.
Proof.
  induction p as [|n d IH]; simpl; [discriminate |].
  destruct (fs !! (n :: d)) as [[]|] eqn:E; try discriminate.
  - intros _. exists (n :: d). split; [reflexivity |].
    unfold is_file. simpl. now rewrite E.
  - destruct (mkdir_parents fs d); [discriminate |].
    intros _. destruct (IH eq_refl) as (q & Hs & Hf).
    exists q. split; [now apply suffix_cons_r | assumption].
Qed.

(** And at such a file it does fail. *)
Lemma mkdir_parents_blocked (fs : FileSystem) (p q : Path) :
  wf fs -> q `suffix_of` p -> is_file fs q = true ->
  mkdir_parents fs p = None.
Proof.
  intros Hwf. induction p as [|n d IH]; intros Hs Hf.
  - apply suffix_nil_inv in Hs. subst q. discriminate.
  - simpl. destruct (fs !! (n :: d)) as [[]|] eqn:E; [reflexivity | |].
    + exfalso. destruct (decide (q = n :: d)) as [->|Hne].
      * unfold is_file in Hf. simpl in Hf. rewrite E in Hf. discriminate.
      * assert (Hd : is_dir fs q = true).
        { apply (wf_ancestor_dir fs (n :: d)); try assumption.
          unfold path_exists. simpl. now rewrite E. }
        unfold is_dir, is_file in *. destruct (stat fs q) as [[]|]; discriminate.
    + apply suffix_cons_cases in Hs as [->|Hs].
      * unfold is_file in Hf. simpl in Hf. rewrite E in Hf. discriminate.
      * now rewrite IH.
Qed.

End MkdirOutcome.

(** X3.  [make_quarantine_dir] on a well-formed filesystem.  When it
    returns, the result is [base/quarantine-<t>] and is a directory,
    every former entry is kept, what was added are directories on the way
    to it, the filesystem is still well formed, and nothing changes when
    the directory was already there.  It raises exactly when a regular
    file stands at that path or above it, and then nothing changes. *)
Theorem make_quarantine_dir_outcome (base : option Path) (cwd : Path)
    (t : string) (fs : FileSystem) :
  wf fs ->
  let q :=
    joinpath (match base with Some b => b | None => cwd end)
      ["quarantine-" +:+ t] in
  match make_quarantine_dir base cwd t fs with
  | (Ok q', fs') =>
      q' = q /\ is_dir fs' q = true /\ fs ⊆ fs' /\ wf fs' /\
      (forall p n, fs' !! p = Some n -> fs !! p = None ->
                   n = Dir /\ p `suffix_of` q) /\
      (is_dir fs q = true -> fs' = fs) /\
      (forall blocker, blocker `suffix_of` q -> is_file fs blocker = false)
  | (Raise e, fs') =>
      e = OSError /\ fs' = fs /\
      exists blocker, blocker `suffix_of` q /\ is_file fs blocker = true
  end.
Proof.
  intros Hwf q. unfold make_quarantine_dir, bind, mkdir, ret. fold q.
  destruct (mkdir_parents fs q) as [fs'|] eqn:E.
  - split; [reflexivity |].
    split; [now apply mkdir_parents_is_dir in E |].
    split; [now apply mkdir_parents_subseteq in E |].
    split; [now apply (mkdir_parents_wf _ _ _ Hwf E) |].
    split; [| split].
    + intros p n Hp Hn. split.
      * apply (mkdir_parents_new _ _ _ _ _ E Hp Hn).
      * apply (mkdir_parents_new_suffix _ _ _ _ _ E Hp Hn).
    + intros Hd. rewrite (mkdir_parents_dir _ _ Hd) in E. congruence.
    + intros blocker Hs. destruct (is_file fs blocker) eqn:Hf; [| reflexivity].
      rewrite (mkdir_parents_blocked _ _ _ Hwf Hs Hf) in E. discriminate.
  - split; [reflexivity |]. split; [reflexivity |].
    now apply mkdir_parents_none.
Qed.

(** ** Path strings *)

Section PathStrings.

Lemma prefix_slash (c : ascii) (s : string) :
  String.prefix "/" (String c s) = Ascii.eqb c "/".
Proof.
  change (String.prefix "/" (String c s))
    with (if ascii_dec "/" c then String.prefix "" s else false).
  destruct (ascii_dec "/" c) as [<-|Hne].
  - now destruct s.
  - symmetry. apply Ascii.eqb_neq. congruence.
Qed.

Lemma occurs_slash_cons (c : ascii) (s : string) :
  occurs_in "/" (String c s) = Ascii.eqb c "/" || occurs_in "/" s.
Proof.
  change (occurs_in "/" (String c s))
    with (String.prefix "/" (String c s) || occurs_in "/" s).
  now rewrite prefix_slash.
Qed.

Lemma occurs_slash_app (a b : string) :
  occurs_in "/" (a +:+ b) = occurs_in "/" a || occurs_in "/" b.
Proof.
  induction a as [|c a IH]; [reflexivity |].
  rewrite str_app_cons, !occurs_slash_cons, IH. now rewrite orb_assoc.
Qed.

Lemma split_on_not_nil (c : ascii) (s : string) : split_on c s <> [].
Proof.
  induction s as [|a s IH]; simpl; [discriminate |].
  destruct (split_on c s); [congruence |]. now destruct (Ascii.eqb a c).
Qed.

Lemma split_on_cons (c a : ascii) (s : string) :
  split_on c (String a s)
  = if Ascii.eqb a c then "" :: split_on c s
    else match split_on c s with
         | w :: ws => String a w :: ws
         | [] => [String a ""]
         end.
Proof.
  simpl. pose proof (split_on_not_nil c s).
  destruct (split_on c s); [congruence |]. reflexivity.
Qed.

(** Splitting what was joined gives the pieces back. *)
Lemma split_piece (x r : string) :
  occurs_in "/" x = false ->
  split_on "/" (x +:+ "/" +:+ r) = x :: split_on "/" r.
Proof.
  induction x as [|c x IH]; intros Hx.
  - rewrite str_app_nil_l, str_app_cons, split_on_cons. reflexivity.
  - rewrite occurs_slash_cons in Hx. apply orb_false_iff in Hx as [Hc Hx].
    rewrite str_app_cons, split_on_cons, Hc, IH by assumption. reflexivity.
Qed.

Lemma split_single (x : string) :
  occurs_in "/" x = false -> split_on "/" x = [x].
Proof.
  induction x as [|c x IH]; intros Hx; [reflexivity |].
  rewrite occurs_slash_cons in Hx. apply orb_false_iff in Hx as [Hc Hx].
  rewrite split_on_cons, Hc, IH by assumption. reflexivity.
Qed.

Lemma split_join (x : string) (l : list string) :
  forallb (fun n => negb (occurs_in "/" n)) (x :: l) = true ->
  split_on "/" (join "/" (x :: l)) = x :: l.
Proof.
  revert x. induction l as [|y l IH]; intros x H.
  - simpl in *. apply split_single.
    now rewrite andb_true_r, negb_true_iff in H.
  - change (join "/" (x :: y :: l)) with (x +:+ "/" +:+ join "/" (y :: l)).
    cbn [forallb] in H. apply andb_true_iff in H as [Hx H].
    rewrite split_piece by now apply negb_true_iff.
    now rewrite IH.
Qed.

Lemma valid_name_parts (n : string) :
  valid_name n = true ->
  negb (String.eqb n "" || String.eqb n ".") = true /\
  occurs_in "/" n = false.
Proof.
  unfold valid_name. rewrite !andb_true_iff, !negb_true_iff.
  intros [[-> ->] H]. auto.
Qed.

(** [Path(str(p))] is [p] for a path of valid names. *)
Lemma path_of_str (p : Path) :
  valid_path p = true -> Path_of_string (str p) = p.
Proof.
  intros Hv. unfold Path_of_string, str.
  assert (Hr : forallb valid_name (rev p) = true).
  { unfold valid_path in Hv. rewrite forallb_forall in *. intros n Hn.
    apply Hv. now apply in_rev. }
  destruct (rev p) as [|x l] eqn:E.
  - apply (f_equal (@rev string)) in E. rewrite rev_involutive in E.
    now subst p.
  - change ("/" +:+ join "/" (x :: l)) with (String "/" (join "/" (x :: l))).
    rewrite split_on_cons. cbn [Ascii.eqb Bool.eqb andb].
    rewrite split_join.
    + change (List.filter
                (fun c => negb (String.eqb c "" || String.eqb c "."))
                ("" :: x :: l))
        with (List.filter
                (fun c => negb (String.eqb c "" || String.eqb c "."))
                (x :: l)).
      assert (Hf : List.filter
                     (fun c => negb (String.eqb c "" || String.eqb c "."))
                     (x :: l) = x :: l).
      { apply forallb_filter_id. rewrite forallb_forall in *.
        intros n Hn. now apply valid_name_parts, Hr. }
      rewrite Hf, <- E. apply rev_involutive.
    + rewrite forallb_forall in *. intros n Hn.
      apply negb_true_iff. now apply valid_name_parts, Hr.
Qed.

End PathStrings.

(** ** Names of candidates *)

Section CandidateNames.

Lemma pretty_N_go_no_slash (x : N) (s : string) :
  occurs_in "/" s = false -> occurs_in "/" (pretty_N_go x s) = false.
Proof.
  revert s. induction (N.lt_wf_0 x) as [x _ IH]; intros s Hs.
  destruct (decide (x = 0)%N) as [->|Hx]; [now rewrite pretty_N_go_0 |].
  rewrite pretty_N_go_step by lia. apply IH.
  - apply N.div_lt; lia.
  - rewrite occurs_slash_cons, Hs, orb_false_r.
    unfold pretty_N_char. now repeat case_match.
Qed.

Lemma pretty_nat_no_slash (n : nat) : occurs_in "/" (pretty n) = false.
Proof.
  unfold pretty, pretty_nat, pretty, pretty_N.
  destruct (decide (N.of_nat n = 0%N)); [reflexivity |].
  now apply pretty_N_go_no_slash.
Qed.

(** A name with an underscore in it is neither empty nor the single
    dot. *)
Lemma underscore_name (a b : string) :
  negb (String.eqb (a +:+ "_" +:+ b) ""
        || String.eqb (a +:+ "_" +:+ b) ".") = true.
Proof.
  apply negb_true_iff, orb_false_iff. split; apply String.eqb_neq.
  - destruct a; discriminate.
  - destruct a as [|c a]; [discriminate |].
    rewrite str_app_cons. intros [= _ H]. destruct a; discriminate.
Qed.

Lemma valid_path_parent (p : Path) :
  valid_path p = true -> valid_path (path_parent p) = true.
Proof.
  destruct p as [|n d]; [auto |]. unfold valid_path. simpl.
  now intros [_ H]%andb_true_iff.
Qed.

Lemma name_no_slash (p : Path) :
  valid_path p = true -> occurs_in "/" (path_name p) = false.
Proof.
  destruct p as [|n d]; [reflexivity |]. unfold valid_path. simpl.
  intros [H _]%andb_true_iff. now apply valid_name_parts in H.
Qed.

(** The candidates of a path of valid names are paths of valid names. *)
Lemma candidate_valid (p : Path) (n : nat) :
  valid_path p = true -> valid_path (candidate p n) = true.
Proof.
  intros Hv. unfold candidate, joinpath, valid_path. simpl.
  fold (valid_path (path_parent p)). rewrite (valid_path_parent _ Hv).
  rewrite andb_true_r. unfold valid_name.
  pose proof (name_no_slash _ Hv) as Hn.
  rewrite <- stem_suffix_name, occurs_slash_app in Hn.
  apply orb_false_iff in Hn as [Hstem Hsuf].
  apply andb_true_iff. split.
  - pose proof (underscore_name (path_stem p)
                  (pretty n +:+ path_suffix p)) as H.
    rewrite negb_orb in H. exact H.
  - rewrite !occurs_slash_app, Hstem, Hsuf, pretty_nat_no_slash. reflexivity.
Qed.

Variable fs : FileSystem.

Lemma unique_valid (p : Path) :
  valid_path p = true -> valid_path (_unique_path_if_exists fs p) = true.
Proof.
  intros Hv.
  destruct (unique_path_meets_spec fs p)
    as [[_ ->]|[_ (n & _ & -> & _)]]; [assumption |].
  now apply candidate_valid.
Qed.

Lemma unique_not_root (p : Path) : _unique_path_if_exists fs p <> [].
Proof.
  destruct (unique_path_meets_spec fs p)
    as [[E ->]|[_ (n & _ & -> & _)]]; [| discriminate].
  intros ->. discriminate.
Qed.

Lemma unique_parent (p : Path) :
  path_parent (_unique_path_if_exists fs p) = path_parent p.
Proof.
  destruct (unique_path_meets_spec fs p)
    as [[_ ->]|[_ (n & _ & -> & _)]]; reflexivity.
Qed.

(** The candidate differs from the path it is made from. *)
Lemma candidate_differs (p : Path) (n : nat) : candidate p n <> p.
Proof.
  unfold candidate, joinpath. destruct p as [|x d]; [discriminate |].
  simpl. intros [= H].
  pose proof (stem_suffix_name (x :: d)) as Hn. simpl in Hn.
  rewrite <- Hn in H at 3. apply str_app_inv_head in H.
  apply (f_equal String.length) in H.
  rewrite !str_length_app in H. simpl in H. lia.
Qed.

(** When the path is taken and its first candidate is free, the first
    candidate is the result. *)
Lemma unique_first_candidate (p : Path) :
  path_exists fs p = true ->
  path_exists fs (candidate p 1) = false ->
  _unique_path_if_exists fs p = candidate p 1.
Proof.
  intros Hp Hc. unfold _unique_path_if_exists. rewrite Hp. cbn [negb].
  cbn [unique_loop]. now rewrite Hc.
Qed.

End CandidateNames.

(** ** Moving a regular file *)

Section MoveFile.

Variables (src dst_dir : Path) (preserve_structure : bool).
Variables (target_root : Path) (time : string).
Variables (fs fsm : FileSystem) (data : string) (mtime : nat).

Let base := destination_base src dst_dir preserve_structure target_root.
Let dest := _unique_path_if_exists fsm base.

Hypothesis Hwf : wf fs.
Hypothesis Hsrc : stat fs src = Some (File data mtime).
Hypothesis Hmk : mkdir_parents fs (path_parent base) = Some fsm.

Lemma move_src_in_fsm : stat fsm src = Some (File data mtime).
Proof.
  pose proof (file_not_root _ _ _ _ Hsrc) as H0.
  rewrite stat_lookup in * by assumption.
  apply mkdir_parents_subseteq in Hmk.
  now apply (lookup_weaken _ _ _ _ Hsrc Hmk).
Qed.

Lemma move_dest_parent : is_dir fsm (path_parent dest) = true.
Proof.
  unfold dest. rewrite unique_parent. now apply mkdir_parents_is_dir in Hmk.
Qed.

Lemma move_src_not_dest : src <> dest.
Proof.
  intros Heq. pose proof (unique_path_free fsm base) as Hfree.
  fold dest in Hfree. rewrite <- Heq in Hfree.
  unfold path_exists in Hfree. now rewrite move_src_in_fsm in Hfree.
Qed.

(** The move of a regular file: it arrives at the uniquified destination
    with its content and its time, and the record carries its length. *)
Lemma safe_move_file :
  safe_move src dst_dir preserve_structure target_root false time fs
  = (Ok (dest,
         move_record src dest (JInt (Z.of_nat (String.length data))) time
           "moved"),
     <[dest := File data mtime]> (delete src fsm)).
Proof.
  rewrite safe_move_unfold. fold base. rewrite Hmk. cbv zeta. fold dest.
  rewrite (shutil_move_file fsm src dest data mtime).
  - unfold size_or_none.
    rewrite stat_lookup by apply unique_not_root.
    now rewrite lookup_insert_eq.
  - apply move_src_in_fsm.
  - apply unique_path_free.
  - apply move_dest_parent.
Qed.

Lemma safe_move_file_wf :
  wf (<[dest := File data mtime]> (delete src fsm)).
Proof.
  pose proof (mkdir_parents_wf _ _ _ Hwf Hmk) as Hwfm.
  pose proof move_src_in_fsm as Hs.
  pose proof (file_not_root _ _ _ _ Hs) as Hs0.
  assert (Hf : is_file fsm src = true) by (unfold is_file; now rewrite Hs).
  assert (Hpd : path_parent dest <> src).
  { intros Heq. pose proof move_dest_parent as Hd. rewrite Heq in Hd.
    unfold is_dir in Hd. now rewrite Hs in Hd. }
  apply wf_insert.
  - now apply wf_delete_file.
  - apply unique_not_root.
  - pose proof move_dest_parent as Hd. unfold is_dir, stat in *.
    destruct (path_parent dest) as [|x l] eqn:E; [reflexivity |].
    now rewrite lookup_delete_ne by congruence.
  - intros _. unfold is_dir.
    rewrite stat_lookup by apply unique_not_root.
    rewrite lookup_delete_ne by apply move_src_not_dest.
    rewrite <- stat_lookup by apply unique_not_root.
    pose proof (not_exists_stat _ _ (unique_path_free fsm base)) as Hfree.
    fold dest in Hfree. now rewrite Hfree.
Qed.

End MoveFile.

(** X4.  A call of [safe_move] on a regular file, not a dry run, on a
    well-formed filesystem in which the parent of the destination base
    can be created: the file arrives at the uniquified path of the
    destination base with its content and modification time, at a path
    that was free, so nothing is overwritten; the source is gone; nothing
    else changes but the directories [mkdir] added; the record names the
    two paths and the length of the content and is tagged moved; and the
    filesystem stays well formed. *)
Theorem safe_move_regular_file (src dst_dir : Path) (preserve_structure : bool)
    (target_root : Path) (time : string) (fs fsm : FileSystem)
    (data : string) (mtime : nat) :
  wf fs ->
  stat fs src = Some (File data mtime) ->
  mkdir_parents fs
    (path_parent
       (destination_base src dst_dir preserve_structure target_root))
  = Some fsm ->
  let base := destination_base src dst_dir preserve_structure target_root in
  let dest := _unique_path_if_exists fsm base in
  let fs' := <[dest := File data mtime]> (delete src fsm) in
  safe_move src dst_dir preserve_structure target_root false time fs
  = (Ok (dest,
         move_record src dest (JInt (Z.of_nat (String.length data))) time
           "moved"),
     fs') /\
  path_exists fsm dest = false /\
  path_parent dest = path_parent base /\
  stat fs' dest = Some (File data mtime) /\
  stat fs' src = None /\
  (forall p, p <> src -> p <> dest -> stat fs' p = stat fsm p) /\
  wf fs'.
Proof.
  intros Hwf Hsrc Hmk base dest fs'.
  pose proof (move_src_not_dest _ _ _ _ _ _ _ _ Hsrc Hmk) as Hne.
  pose proof (unique_not_root fsm base) as Hd0.
  pose proof (file_not_root _ _ _ _ Hsrc) as Hs0.
  split; [now apply safe_move_file |].
  split; [apply unique_path_free |].
  split; [apply unique_parent |].
  split; [| split; [| split]].
  - unfold fs'. rewrite stat_lookup by assumption. apply lookup_insert_eq.
  - unfold fs'. rewrite stat_lookup by assumption.
    rewrite lookup_insert_ne by (intros Heq; now apply Hne).
    apply lookup_delete_eq.
  - intros p Hp1 Hp2. destruct p as [|x l]; [reflexivity |].
    unfold fs'. simpl. rewrite lookup_insert_ne by congruence.
    now rewrite lookup_delete_ne by congruence.
  - eapply safe_move_file_wf; eassumption.
Qed.

(** ** Collisions and structure *)

Section Collision.

Lemma rel_of_name_valid (n : string) : n <> "" -> rel_of_name n = [n].
Proof.
  intros H. unfold rel_of_name.
  now rewrite (proj2 (String.eqb_neq n "") H).
Qed.

Lemma relative_to_app (rel root : Path) :
  relative_to (rel ++ root) root = Some rel.
Proof.
  unfold relative_to.
  rewrite bool_decide_eq_true_2 by now apply suffix_app_r.
  rewrite length_app, Nat.add_sub. now rewrite take_app_length.
Qed.

Lemma free_path_unique (fs : FileSystem) (p : Path) :
  path_exists fs p = false -> _unique_path_if_exists fs p = p.
Proof. intros H. unfold _unique_path_if_exists. now rewrite H. Qed.

End Collision.

(** X5.  Two regular files of the same name from different directories,
    moved one after the other into an existing quarantine directory
    without preserving the structure, where that name and its first
    candidate are free: the first keeps the name, the second receives the
    counter 1 before the extension, and both arrive with their own
    content. *)
Theorem same_name_collision (n : string) (d1 d2 q root : Path)
    (t1 t2 : string) (fs : FileSystem) (c1 c2 : string) (m1 m2 : nat) :
  wf fs ->
  n <> "" ->
  d1 <> d2 ->
  stat fs (n :: d1) = Some (File c1 m1) ->
  stat fs (n :: d2) = Some (File c2 m2) ->
  is_dir fs q = true ->
  path_exists fs (n :: q) = false ->
  path_exists fs (candidate (n :: q) 1) = false ->
  let fs1 := <[n :: q := File c1 m1]> (delete (n :: d1) fs) in
  let second := candidate (n :: q) 1 in
  let fs2 := <[second := File c2 m2]> (delete (n :: d2) fs1) in
  safe_move (n :: d1) q false root false t1 fs
  = (Ok (n :: q,
         move_record (n :: d1) (n :: q) (JInt (Z.of_nat (String.length c1)))
           t1 "moved"),
     fs1) /\
  safe_move (n :: d2) q false root false t2 fs1
  = (Ok (second,
         move_record (n :: d2) second (JInt (Z.of_nat (String.length c2)))
           t2 "moved"),
     fs2) /\
  second <> n :: q /\
  path_name second = path_stem [n] +:+ "_1" +:+ path_suffix [n] /\
  stat fs2 (n :: q) = Some (File c1 m1) /\
  stat fs2 second = Some (File c2 m2).
Proof.
  intros Hwf Hn Hd H1 H2 Hq Hfree Hcand fs1 second fs2.
  assert (Hbase : forall d, destination_base (n :: d) q false root = n :: q).
  { intros d. unfold destination_base, joinpath. simpl.
    now rewrite rel_of_name_valid. }
  assert (Hmk : mkdir_parents fs
                  (path_parent (destination_base (n :: d1) q false root))
                = Some fs).
  { rewrite Hbase. now apply mkdir_parents_dir. }
  pose proof (safe_move_file (n :: d1) q false root t1 fs fs c1 m1 H1 Hmk)
    as E1.
  pose proof (safe_move_file_wf (n :: d1) q false root fs fs c1 m1 Hwf H1 Hmk)
    as Hwf1.
  rewrite Hbase, (free_path_unique _ _ Hfree) in E1, Hwf1.
  fold fs1 in E1, Hwf1.
  assert (Hsec : second <> n :: q) by apply candidate_differs.
  assert (Hnq : n :: q <> n :: d2).
  { intros Heq. rewrite Heq in Hfree. unfold path_exists in Hfree.
    now rewrite H2 in Hfree. }
  assert (H2' : stat fs1 (n :: d2) = Some (File c2 m2)).
  { unfold fs1. simpl. rewrite lookup_insert_ne by assumption.
    rewrite lookup_delete_ne by congruence. exact H2. }
  assert (Hq1 : is_dir fs1 q = true).
  { unfold fs1. apply is_dir_insert_other.
    - unfold is_dir, stat in *. destruct q as [|x l]; [reflexivity |].
      rewrite lookup_delete_ne; [assumption |].
      intros Heq. rewrite <- Heq in Hq. simpl in H1. rewrite H1 in Hq.
      discriminate.
    - intros Heq. apply (f_equal length) in Heq. simpl in Heq. lia. }
  assert (Hmk1 : mkdir_parents fs1
                   (path_parent (destination_base (n :: d2) q false root))
                 = Some fs1).
  { rewrite Hbase. now apply mkdir_parents_dir. }
  assert (Hu : _unique_path_if_exists fs1 (n :: q) = second).
  { apply unique_first_candidate.
    - unfold path_exists, fs1. simpl. now rewrite lookup_insert_eq.
    - unfold path_exists, fs1.
      rewrite stat_lookup by apply candidate_not_root.
      rewrite lookup_insert_ne by (intros Heq; now apply Hsec).
      destruct (decide (n :: d1 = candidate (n :: q) 1)) as [Heq|Hne].
      + rewrite Heq. now rewrite lookup_delete_eq.
      + rewrite lookup_delete_ne by assumption.
        rewrite <- stat_lookup by apply candidate_not_root.
        now rewrite (not_exists_stat _ _ Hcand). }
  pose proof (safe_move_file (n :: d2) q false root t2 fs1 fs1 c2 m2 H2' Hmk1)
    as E2.
  rewrite Hbase, Hu in E2. fold fs2 in E2.
  split; [exact E1 |]. split; [exact E2 |]. split; [exact Hsec |].
  split; [reflexivity |].
  assert (Hs0 : second <> []) by apply candidate_not_root.
  assert (Hsd : n :: d2 <> second).
  { intros Heq. unfold second in Heq. rewrite <- Heq in Hcand.
    unfold path_exists in Hcand. now rewrite H2 in Hcand. }
  split.
  - unfold fs2. simpl. rewrite lookup_insert_ne by assumption.
    rewrite lookup_delete_ne by congruence.
    unfold fs1. now rewrite lookup_insert_eq.
  - unfold fs2. rewrite stat_lookup by assumption. apply lookup_insert_eq.
Qed.

(** X6.  With [preserve_structure], a regular file that lies under the
    target root at the relative path [rel] is moved to the same relative
    path under the quarantine directory when that place is free, the
    directories on the way being created; the relative path of the
    destination is that of the source.  A source that does not lie under
    the target root is handled as without [preserve_structure]. *)
Theorem safe_move_mirrors_structure (rel root dst_dir : Path) (time : string)
    (fs fsm : FileSystem) (data : string) (mtime : nat) :
  wf fs ->
  stat fs (rel ++ root) = Some (File data mtime) ->
  mkdir_parents fs (path_parent (rel ++ dst_dir)) = Some fsm ->
  path_exists fsm (rel ++ dst_dir) = false ->
  safe_move (rel ++ root) dst_dir true root false time fs
  = (Ok (rel ++ dst_dir,
         move_record (rel ++ root) (rel ++ dst_dir)
           (JInt (Z.of_nat (String.length data))) time "moved"),
     <[rel ++ dst_dir := File data mtime]> (delete (rel ++ root) fsm)) /\
  relative_to (rel ++ dst_dir) dst_dir = relative_to (rel ++ root) root /\
  is_dir fsm (path_parent (rel ++ dst_dir)) = true /\
  (forall src dry_run fs0,
      relative_to src root = None ->
      safe_move src dst_dir true root dry_run time fs0
      = safe_move src dst_dir false root dry_run time fs0).
Proof.
  intros Hwf Hsrc Hmk Hfree.
  assert (Hbase : destination_base (rel ++ root) dst_dir true root
                  = rel ++ dst_dir).
  { unfold destination_base, joinpath. now rewrite relative_to_app. }
  split; [| split; [| split]].
  - rewrite <- Hbase in Hmk.
    pose proof (safe_move_file _ _ _ _ time _ _ _ _ Hsrc Hmk) as E.
    rewrite Hbase, (free_path_unique _ _ Hfree) in E. exact E.
  - now rewrite !relative_to_app.
  - now apply mkdir_parents_is_dir in Hmk.
  - intros src dry_run fs0 Hrel.
    rewrite !safe_move_unfold. unfold destination_base. now rewrite Hrel.
Qed.

(** ** RestoreEngine: a free original *)

Section RestoreAbsent.

Variables (yes : bool) (r : Report) (original moved_to : Path).
Variables (fs : FileSystem) (data : string) (mtime : nat).

Hypothesis Hmoved : stat fs moved_to = Some (File data mtime).
Hypothesis Hfree : path_exists fs original = false.

Lemma moved_exists : path_exists fs moved_to = true.
Proof. unfold path_exists. now rewrite Hmoved. Qed.

Lemma original_not_root : original <> [].
Proof. intros ->. discriminate. Qed.

(** The parent is a directory: the file is moved back. *)
Lemma restore_record_absent :
  is_dir fs (path_parent original) = true ->
  restore_record false yes r original moved_to fs
  = (Ok (add_restored r (original, moved_to)),
     <[original := File data mtime]> (delete moved_to fs)).
Proof.
  intros Hpar. unfold restore_record, bind, gets, try_except, ret.
  rewrite moved_exists; cbn [negb].
  rewrite (is_dir_exists _ _ Hpar); cbn [negb].
  rewrite Hfree.
  now rewrite (shutil_move_file fs moved_to original data mtime).
Qed.

(** The parent is a regular file: the move fails. *)
Lemma restore_record_parent_file :
  is_file fs (path_parent original) = true ->
  restore_record false yes r original moved_to fs
  = (Ok (add_error r (original, moved_to, MoveError)), fs).
Proof.
  intros Hpar. unfold restore_record, bind, gets, try_except, ret.
  rewrite moved_exists; cbn [negb].
  assert (He : path_exists fs (path_parent original) = true).
  { unfold path_exists, is_file in *.
    now destruct (stat fs (path_parent original)). }
  assert (Hd : is_dir fs (path_parent original) = false).
  { unfold is_dir, is_file in *.
    now destruct (stat fs (path_parent original)) as [[]|]. }
  rewrite He; cbn [negb]. rewrite Hfree.
  unfold shutil_move. rewrite (not_exists_not_dir _ _ Hfree). cbn [andb].
  now rewrite Hmoved, Hd.
Qed.

(** The parent is missing and cannot be created. *)
Lemma restore_record_parent_blocked :
  path_exists fs (path_parent original) = false ->
  mkdir_parents fs (path_parent original) = None ->
  restore_record false yes r original moved_to fs
  = (Ok (add_error r (original, moved_to, FailedToCreateParent)), fs).
Proof.
  intros He Hmk. unfold restore_record, bind, gets, try_except, ret, mkdir.
  rewrite moved_exists; cbn [negb]. rewrite He; cbn [negb].
  now rewrite Hmk.
Qed.

(** The parent is missing and is created. *)
Lemma restore_record_parent_created (fsm : FileSystem) :
  path_exists fs (path_parent original) = false ->
  mkdir_parents fs (path_parent original) = Some fsm ->
  restore_record false yes r original moved_to fs
  = (Ok (add_restored r (original, moved_to)),
     <[original := File data mtime]> (delete moved_to fsm)).
Proof.
  intros He Hmk. unfold restore_record, bind, gets, try_except, ret, mkdir.
  rewrite moved_exists; cbn [negb]. rewrite He; cbn [negb].
  rewrite Hmk. cbn [negb].
  pose proof original_not_root as H0.
  assert (Hfree' : path_exists fsm original = false).
  { unfold path_exists. rewrite stat_lookup by assumption.
    destruct (fsm !! original) as [n|] eqn:E; [| reflexivity].
    assert (Hn : fs !! original = None).
    { rewrite <- stat_lookup by assumption. now apply not_exists_stat. }
    pose proof (mkdir_parents_new_suffix _ _ _ _ _ Hmk E Hn) as Hs.
    apply suffix_length in Hs. destruct original; [congruence |].
    simpl in Hs. lia. }
  rewrite Hfree'.
  assert (Hm' : stat fsm moved_to = Some (File data mtime)).
  { pose proof (file_not_root _ _ _ _ Hmoved) as Hm0.
    rewrite stat_lookup in * by assumption.
    apply mkdir_parents_subseteq in Hmk.
    now apply (lookup_weaken _ _ _ _ Hmoved Hmk). }
  rewrite (shutil_move_file fsm moved_to original data mtime);
    [reflexivity | assumption | assumption |].
  now apply mkdir_parents_is_dir in Hmk.
Qed.

(** On a dry run the record is reported restored in all these cases. *)
Lemma restore_record_absent_dry :
  restore_record true yes r original moved_to fs
  = (Ok (add_restored r (original, moved_to)), fs).
Proof.
  unfold restore_record, bind, gets, try_except, ret.
  rewrite moved_exists; cbn [negb].
  destruct (path_exists fs (path_parent original)); cbn [negb];
    now rewrite Hfree.
Qed.

End RestoreAbsent.

(** X8.  A record whose [moved_to] is a regular file and whose [original]
    does not exist, with or without overwrite.  When the parent of the
    original is a regular file the move fails and the record is an error;
    otherwise the missing directories above the original are created and
    the file is moved back with its content and time, unless a regular
    file stands in the way of those directories, in which case the record
    is an error and nothing changes.  A dry run reports the record
    restored in every one of these cases, also where the real run reports
    an error, and changes nothing. *)
Theorem restore_to_free_original (yes : bool) (r : Report) (entry : JSON)
    (original moved_to : Path) (fs : FileSystem) (data : string)
    (mtime : nat) :
  record_paths entry = Some (original, moved_to) ->
  stat fs moved_to = Some (File data mtime) ->
  path_exists fs original = false ->
  restore_entry false yes r entry fs
  = (if is_file fs (path_parent original)
     then (Ok (add_error r (original, moved_to, MoveError)), fs)
     else
       match mkdir_parents fs (path_parent original) with
       | Some fsm =>
           (Ok (add_restored r (original, moved_to)),
            <[original := File data mtime]> (delete moved_to fsm))
       | None =>
           (Ok (add_error r (original, moved_to, FailedToCreateParent)), fs)
       end) /\
  restore_entry true yes r entry fs
  = (Ok (add_restored r (original, moved_to)), fs).
Proof.
  intros Hp Hm Hfree. rewrite !(restore_entry_record _ _ _ _ _ _ _ Hp).
  split; [| now apply restore_record_absent_dry with (data := data)
                                                       (mtime := mtime)].
  destruct (is_file fs (path_parent original)) eqn:Hf.
  - now apply restore_record_parent_file with (data := data) (mtime := mtime).
  - destruct (path_exists fs (path_parent original)) eqn:He.
    + assert (Hd : is_dir fs (path_parent original) = true).
      { unfold is_dir, is_file, path_exists in *.
        now destruct (stat fs (path_parent original)) as [[]|]. }
      rewrite (mkdir_parents_dir _ _ Hd).
      now apply restore_record_absent.
    + destruct (mkdir_parents fs (path_parent original)) as [fsm|] eqn:Hmk.
      * now apply restore_record_parent_created.
      * now apply restore_record_parent_blocked with (data := data)
                                                      (mtime := mtime).
Qed.

(** X7.  Round trip of one regular file whose path and quarantine
    directory consist of valid names: the record that [safe_move] returns
    is read back by the restore to the same two paths, and replaying it,
    with or without overwrite, puts the file back with its content and
    time and leaves exactly the filesystem that was there before the move,
    plus the directories that [safe_move] had to create. *)
Theorem quarantine_restore_round_trip (src dst_dir : Path)
    (preserve_structure : bool) (target_root : Path) (time : string)
    (fs fsm : FileSystem) (data : string) (mtime : nat) :
  wf fs ->
  stat fs src = Some (File data mtime) ->
  valid_path src = true ->
  valid_path dst_dir = true ->
  mkdir_parents fs
    (path_parent
       (destination_base src dst_dir preserve_structure target_root))
  = Some fsm ->
  exists dest meta fs1,
    safe_move src dst_dir preserve_structure target_root false time fs
    = (Ok (dest, meta), fs1) /\
    record_paths meta = Some (src, dest) /\
    (forall yes r,
        restore_entry false yes r meta fs1
        = (Ok (add_restored r (src, dest)), fsm)) /\
    (is_dir fs
       (path_parent
          (destination_base src dst_dir preserve_structure target_root))
     = true -> fsm = fs).
Proof.
  intros Hwf Hsrc Hvs Hvd Hmk.
  set (base := destination_base src dst_dir preserve_structure target_root)
    in *.
  set (dest := _unique_path_if_exists fsm base).
  pose proof (safe_move_file _ _ _ _ time _ _ _ _ Hsrc Hmk) as E.
  fold base in E. fold dest in E.
  pose proof (move_src_in_fsm _ _ _ _ _ _ _ _ Hsrc Hmk) as Hsm.
  pose proof (move_src_not_dest _ _ _ _ _ _ _ _ Hsrc Hmk) as Hne.
  fold base in Hne. fold dest in Hne.
  pose proof (file_not_root _ _ _ _ Hsrc) as Hs0.
  pose proof (unique_not_root fsm base) as Hd0. fold dest in Hd0.
  pose proof (unique_path_free fsm base) as Hdfree. fold dest in Hdfree.
  assert (Hvb : valid_path base = true).
  { unfold base, destination_base, joinpath, valid_path.
    assert (Hname : forallb valid_name (rel_of_name (path_name src)) = true).
    { unfold rel_of_name. destruct (String.eqb (path_name src) "") eqn:En;
        [reflexivity |].
      destruct src as [|n d]; [congruence |].
      unfold valid_path in Hvs. simpl in *.
      apply andb_true_iff in Hvs as [-> _]. reflexivity. }
    destruct preserve_structure; rewrite forallb_app.
    - unfold relative_to.
      destruct (bool_decide (target_root `suffix_of` src));
        [| now rewrite Hname].
      apply andb_true_iff. split; [| exact Hvd].
      unfold valid_path in Hvs. rewrite forallb_forall in *.
      intros n Hn. apply Hvs. apply list_elem_of_In in Hn.
      apply list_elem_of_In. apply elem_of_take in Hn as (i & Hi & _).
      apply list_elem_of_lookup. eauto.
    - now rewrite Hname. }
  assert (Hvdest : valid_path dest = true) by now apply unique_valid.
  eexists dest, _, _. split; [exact E |].
  split.
  { unfold record_paths, move_record. cbn [dict_get String.eqb Ascii.eqb
                                            Bool.eqb andb].
    now rewrite !path_of_str. }
  split.
  - intros yes r.
    assert (Hrp : record_paths
                    (move_record src dest
                       (JInt (Z.of_nat (String.length data))) time "moved")
                  = Some (src, dest)).
    { unfold record_paths, move_record.
      cbn [dict_get String.eqb Ascii.eqb Bool.eqb andb].
      now rewrite !path_of_str. }
    rewrite (restore_entry_record _ _ _ _ _ _ _ Hrp).
    assert (Hpar : is_dir fs (path_parent src) = true).
    { apply wf_parent_is_dir; [assumption |].
      unfold path_exists. now rewrite Hsrc. }
    assert (Hparm : is_dir fsm (path_parent src) = true).
    { unfold is_dir, stat in *.
      destruct (path_parent src) as [|x l] eqn:Ep; [reflexivity |].
      destruct (fs !! (x :: l)) as [[]|] eqn:El; try discriminate.
      apply mkdir_parents_subseteq in Hmk.
      now rewrite (lookup_weaken _ _ _ _ El Hmk). }
    rewrite restore_record_absent with (data := data) (mtime := mtime).
    + f_equal. apply map_eq. intros k.
      destruct (decide (k = src)) as [->|Hks].
      * rewrite lookup_insert_eq. symmetry.
        now rewrite <- stat_lookup.
      * rewrite lookup_insert_ne by congruence.
        destruct (decide (k = dest)) as [->|Hkd].
        -- rewrite lookup_delete_eq. symmetry.
           rewrite <- stat_lookup by assumption.
           now apply not_exists_stat.
        -- rewrite lookup_delete_ne by congruence.
           rewrite lookup_insert_ne by congruence.
           now rewrite lookup_delete_ne by congruence.
    + rewrite stat_lookup by assumption. apply lookup_insert_eq.
    + unfold path_exists. rewrite stat_lookup by assumption.
      rewrite lookup_insert_ne by (intros Heq; now apply Hne).
      now rewrite lookup_delete_eq.
    + apply is_dir_insert_other.
      * unfold is_dir, stat in *.
        destruct (path_parent src) as [|x l] eqn:Ep; [reflexivity |].
        rewrite lookup_delete_ne; [assumption |].
        intros Heq. destruct src as [|y s]; [congruence |].
        simpl in Ep. subst s. apply (f_equal length) in Heq.
        simpl in Heq. lia.
      * intros Heq. exfalso. rewrite <- Heq in Hparm.
        rewrite (not_exists_not_dir _ _ Hdfree) in Hparm. discriminate.
  - intros Hd. rewrite (mkdir_parents_dir _ _ Hd) in Hmk. congruence.
Qed.

(** ** RestoreEngine: the whole journal *)

Section RestoreLoop.

Variables (dry_run yes : bool).

Lemma restore_loop_app (a b : list JSON) (r : Report) (fs : FileSystem) :
  restore_loop dry_run yes r (a ++ b) fs
  = match restore_loop dry_run yes r a fs with
    | (Ok r', fs') => restore_loop dry_run yes r' b fs'
    | (Raise e, fs') => (Raise e, fs')
    end.
Proof.
  revert r fs. induction a as [|x a IH]; intros r fs; [reflexivity |].
  simpl. unfold bind.
  destruct (restore_entry dry_run yes r x fs) as [[r'|e] fs'];
    [apply IH | reflexivity].
Qed.

(** An entry whose two paths cannot be read raises, and nothing is done
    for it. *)
Lemma restore_entry_unreadable (entry : JSON) :
  record_paths entry = None ->
  exists e, (e = AttributeError \/ e = TypeError) /\
    forall r fs, restore_entry dry_run yes r entry fs = (Raise e, fs).
Proof.
  unfold record_paths, restore_entry, entry_path, bind, raise, ret.
  destruct entry as [| | | | |items|items];
    try (intros _; exists AttributeError; split; [auto | reflexivity]).
  destruct (dict_get "original" items) as [[| | | |o| |]|];
    try (intros _; exists TypeError; split; [auto | reflexivity]).
  destruct (dict_get "moved_to" items) as [[| | | |m| |]|];
    try discriminate;
    intros _; exists TypeError; split; auto.
Qed.

(** A record with readable paths lands in exactly one of the three
    lists, and the replay does not raise. *)
Lemma restore_record_classifies (r : Report) (original moved_to : Path)
    (fs : FileSystem) :
  exists r' fs',
    restore_record dry_run yes r original moved_to fs = (Ok r', fs') /\
    ((exists x, r' = add_restored r x) \/
     (exists x, r' = add_skipped r x) \/
     (exists x, r' = add_error r x)).
Proof.
  unfold restore_record, bind, gets, try_except, ret, mkdir, unlink.
  destruct (path_exists fs moved_to); cbn [negb]; [| eauto 8].
  destruct (path_exists fs (path_parent original)); cbn [negb].
  - destruct (path_exists fs original).
    + destruct yes, dry_run; cbn [negb]; try (eauto 8; fail).
      * destruct (stat fs original) as [[]|].
        -- destruct (shutil_move moved_to original _) as [[[]|e] f1];
             [eauto 8 |].
           destruct (shutil_move moved_to _ f1) as [[[]|e'] f2]; eauto 8.
        -- destruct (shutil_move moved_to _ fs) as [[[]|e'] f2]; eauto 8.
        -- destruct (shutil_move moved_to _ fs) as [[[]|e'] f2]; eauto 8.
      * destruct (shutil_move moved_to _ fs) as [[[]|e'] f2]; eauto 8.
    + destruct dry_run; cbn [negb]; [eauto 8 |].
      destruct (shutil_move moved_to original fs) as [[[]|e'] f2]; eauto 8.
  - destruct dry_run; cbn [negb].
    + destruct (path_exists fs original); [| eauto 8].
      destruct yes; eauto 8.
    + destruct (mkdir_parents fs (path_parent original)) as [fsm|];
        cbn [negb]; [| eauto 8].
      destruct (path_exists fsm original).
      * destruct yes.
        -- destruct (stat fsm original) as [[]|].
           ++ destruct (shutil_move moved_to original _) as [[[]|e] f1];
                [eauto 8 |].
              destruct (shutil_move moved_to _ f1) as [[[]|e'] f2]; eauto 8.
           ++ destruct (shutil_move moved_to _ fsm) as [[[]|e'] f2]; eauto 8.
           ++ destruct (shutil_move moved_to _ fsm) as [[[]|e'] f2]; eauto 8.
        -- destruct (shutil_move moved_to _ fsm) as [[[]|e'] f2]; eauto 8.
      * destruct (shutil_move moved_to original fsm) as [[[]|e'] f2];
          eauto 8.
Qed.

End RestoreLoop.

Section DryRunRestore.

Variable yes : bool.

Lemma restore_record_dry_unchanged (r : Report) (original moved_to : Path)
    (fs : FileSystem) :
  snd (restore_record true yes r original moved_to fs) = fs.
Proof.
  unfold restore_record, bind, gets, try_except, ret.
  destruct (path_exists fs moved_to); cbn [negb]; [| reflexivity].
  destruct (path_exists fs (path_parent original)); cbn [negb];
    (destruct (path_exists fs original); [destruct yes |]); reflexivity.
Qed.

Lemma restore_entry_dry_unchanged (r : Report) (entry : JSON)
    (fs : FileSystem) :
  snd (restore_entry true yes r entry fs) = fs.
Proof.
  destruct (record_paths entry) as [[o m]|] eqn:E.
  - rewrite (restore_entry_record _ _ _ _ _ _ _ E).
    apply restore_record_dry_unchanged.
  - destruct (restore_entry_unreadable true yes entry E) as (e & _ & H).
    now rewrite H.
Qed.

Lemma restore_loop_dry_unchanged (entries : list JSON) (r : Report)
    (fs : FileSystem) :
  snd (restore_loop true yes r entries fs) = fs.
Proof.
  revert r. induction entries as [|x l IH]; intros r; [reflexivity |].
  simpl. unfold bind.
  pose proof (restore_entry_dry_unchanged r x fs) as H.
  destruct (restore_entry true yes r x fs) as [[r'|e] fs']; simpl in H;
    subst fs'; [apply IH | reflexivity].
Qed.

Lemma restore_dry_unchanged (json_loads : string -> option JSON)
    (quarantine_dir : Path) (fs : FileSystem) :
  snd (restore_from_quarantine json_loads quarantine_dir true yes fs) = fs.
Proof.
  unfold restore_from_quarantine.
  generalize (joinpath quarantine_dir ["metadata.json"]). intros m.
  cbv [bind gets try_except load_json read_text ret raise path_exists].
  destruct (stat fs m) as [[text t|]|] eqn:E; cbn [negb]; rewrite ?E;
    try reflexivity.
  destruct (json_loads text) as [v|]; [| reflexivity].
  unfold iterate, ret, raise.
  destruct v as [| | | |s|items|items]; try reflexivity;
    match goal with
    | |- context [restore_loop true yes ?r ?l fs] =>
        pose proof (restore_loop_dry_unchanged l r fs) as H;
        destruct (restore_loop true yes r l fs) as [[r'|e] fs'];
        simpl in H; now subst fs'
    end.
Qed.

End DryRunRestore.

(** X9.  A dry-run restore leaves the filesystem as it was, for every
    quarantine directory, every journal content and every decoder, with
    or without overwrite, also when the run ends in an exception. *)
Theorem restore_dry_run_no_mutation (json_loads : string -> option JSON)
    (quarantine_dir : Path) (yes : bool) (fs : FileSystem) :
  snd (restore_from_quarantine json_loads quarantine_dir true yes fs) = fs /\
  forall entries r, snd (restore_loop true yes r entries fs) = fs.
Proof.
  split; [apply restore_dry_unchanged |].
  intros. apply restore_loop_dry_unchanged.
Qed.

(** The number of classified records. *)
Lemma restore_loop_total (dry_run yes : bool) (entries : list JSON)
    (r : Report) (fs : FileSystem) :
  Forall (fun e => record_paths e <> None) entries ->
  exists r' fs',
    restore_loop dry_run yes r entries fs = (Ok r', fs') /\
    length (restored r') + length (skipped r') + length (errors r')
    = length (restored r) + length (skipped r) + length (errors r)
      + length entries /\
    restored r `prefix_of` restored r' /\
    skipped r `prefix_of` skipped r' /\
    errors r `prefix_of` errors r'.
Proof.
  revert r fs. induction entries as [|x l IH]; intros r fs Hall.
  - exists r, fs. simpl. repeat split; try reflexivity. lia.
  - apply Forall_cons in Hall as [Hx Hall].
    destruct (record_paths x) as [[o m]|] eqn:E; [| congruence].
    simpl. unfold bind. rewrite (restore_entry_record _ _ _ _ _ _ _ E).
    destruct (restore_record_classifies dry_run yes r o m fs)
      as (r1 & fs1 & -> & Hcase).
    destruct (IH r1 fs1 Hall) as (r' & fs' & -> & Hlen & Hp1 & Hp2 & Hp3).
    exists r', fs'. split; [reflexivity |].
    destruct Hcase as [[y ->]|[[y ->]|[y ->]]]; simpl in *;
      rewrite ?length_app in Hlen; simpl in Hlen;
      (split; [lia |]);
      repeat split; try assumption;
      (etrans; [| eassumption]); now apply prefix_app_r.
Qed.

(** X10.  Over a journal whose entries all have readable paths the
    restore loop does not raise, whatever the filesystem calls do: every
    record is added to exactly one of restored, skipped and errors, so the
    three lists grow by the number of entries in total, and what they held
    before is kept in front. *)
Theorem restore_classifies_every_record (dry_run yes : bool)
    (entries : list JSON) (r : Report) (fs : FileSystem) :
  Forall (fun e => record_paths e <> None) entries ->
  exists r' fs',
    restore_loop dry_run yes r entries fs = (Ok r', fs') /\
    length (restored r') + length (skipped r') + length (errors r')
    = length (restored r) + length (skipped r) + length (errors r)
      + length entries /\
    restored r `prefix_of` restored r' /\
    skipped r `prefix_of` skipped r' /\
    errors r `prefix_of` errors r'.
Proof. apply restore_loop_total. Qed.

(** X11.  An entry whose two paths cannot be read, because it is not a
    [dict] or lacks a string under original or moved_to, makes the
    restore raise when the loop reaches it: the entries before it have
    been replayed and their effects stay, the entries after it are never
    looked at, and no summary is produced. *)
Theorem restore_aborts_at_unreadable_entry
    (json_loads : string -> option JSON) (quarantine_dir : Path)
    (dry_run yes : bool) (fs fs' : FileSystem) (text : string) (mtime : nat)
    (good rest : list JSON) (bad : JSON) (r' : Report) :
  stat fs (joinpath quarantine_dir ["metadata.json"])
  = Some (File text mtime) ->
  json_loads text = Some (JArray (good ++ bad :: rest)) ->
  record_paths bad = None ->
  restore_loop dry_run yes empty_report good fs = (Ok r', fs') ->
  exists e,
    (e = AttributeError \/ e = TypeError) /\
    restore_from_quarantine json_loads quarantine_dir dry_run yes fs
    = (Raise e, fs').
Proof.
  intros Hst Hl Hbad Hgood.
  destruct (restore_entry_unreadable dry_run yes bad Hbad) as (e & He & Hraise).
  exists e. split; [exact He |].
  unfold restore_from_quarantine, bind, gets, try_except, load_json,
    read_text, path_exists.
  rewrite Hst. cbn [negb]. unfold bind. rewrite Hst, Hl.
  unfold iterate, ret. cbv beta iota.
  rewrite restore_loop_app, Hgood. simpl. unfold bind.
  now rewrite Hraise.
Qed.

(** X12.  What a restore does with a journal it cannot use.  Without a
    journal file it reports that and stops; a journal that is a directory
    or cannot be decoded is reported unreadable; in both cases nothing
    changes.  A journal that decodes to a number, a boolean or null is not
    iterable and the restore raises [TypeError]; one that decodes to an
    object raises [AttributeError] at its first key, and to the empty
    object gives an empty summary. *)
Theorem restore_unusable_journal (json_loads : string -> option JSON)
    (quarantine_dir : Path) (dry_run yes : bool) (fs : FileSystem) :
  let meta_file := joinpath quarantine_dir ["metadata.json"] in
  let run :=
    restore_from_quarantine json_loads quarantine_dir dry_run yes fs in
  (stat fs meta_file = None -> run = (Ok NoMetadata, fs)) /\
  (stat fs meta_file = Some Dir -> run = (Ok MetadataUnreadable, fs)) /\
  (forall text mtime,
      stat fs meta_file = Some (File text mtime) ->
      (json_loads text = None -> run = (Ok MetadataUnreadable, fs)) /\
      (forall v, json_loads text = Some v -> json_len v = None ->
                 run = (Raise TypeError, fs)) /\
      (json_loads text = Some (JObject []) ->
       run = (Ok (Summary empty_report), fs)) /\
      (forall k v items,
          json_loads text = Some (JObject ((k, v) :: items)) ->
          run = (Raise AttributeError, fs))).
Proof.
  cbv zeta. unfold restore_from_quarantine.
  generalize (joinpath quarantine_dir ["metadata.json"]). intros m.
  cbv [bind gets try_except load_json read_text ret raise path_exists].
  split; [intros H; rewrite H; reflexivity |].
  split; [intros H; rewrite H; cbn [negb]; now rewrite H |].
  intros text mtime H. rewrite H. cbn [negb]. rewrite H.
  split; [intros ->; reflexivity |].
  split; [| split].
  - intros v -> Hv. now destruct v.
  - intros ->. reflexivity.
  - intros k v items ->. reflexivity.
Qed.

(** ** The scan *)

(** X13.  Runs of [main] that move nothing.  A target that is not an
    existing directory ends the run with exit status 1, whatever the other
    options, and nothing changes; a target without empty files ends it
    with one line and nothing changes.  When empty files were found, the
    run is neither a dry run nor confirmed in advance, and the answer at
    the prompt is not yes, the run stops with every file in place, but the
    quarantine directory has already been created and stays. *)
Theorem main_moves_nothing (json_loads : string -> option JSON)
    (args : Args) (env : Env) (fs : FileSystem) :
  let target := args_target args in
  let scan :=
    find_empty_files target (args_recursive args) (args_ignore_hidden args)
      fs in
  (is_dir fs target = false ->
   main json_loads args env fs
   = (Ok (["Target directory does not exist or is not a directory: "
           +:+ str target], SysExit 1), fs)) /\
  (is_dir fs target = true -> scan = (Ok [], fs) ->
   main json_loads args env fs = (Ok (["No empty files found."], Returned), fs)) /\
  (is_dir fs target = true -> scan <> (Ok [], fs) ->
   args_dry_run args = false -> args_yes args = false ->
   lower (strip (env_input env)) <> "yes" ->
   match make_quarantine_dir (args_quarantine args) (env_cwd env)
           (env_stamp env) fs with
   | (Ok quarantine_dir, fs1) =>
       exists out,
         main json_loads args env fs = (Ok (out, Returned), fs1) /\
         last out = Some "Aborted by user." /\
         is_dir fs1 quarantine_dir = true /\
         fs ⊆ fs1 /\
         (forall p n, fs1 !! p = Some n -> fs !! p = None -> n = Dir)
   | (Raise e, fs1) => main json_loads args env fs = (Raise e, fs)
   end).
Proof.
  cbv zeta. unfold main, bind, gets, ret.
  split; [| split].
  - intros Hd. rewrite Hd, andb_false_r. reflexivity.
  - intros Hd Hf. rewrite Hd, (is_dir_exists _ _ Hd). cbn [andb negb].
    rewrite Hf. reflexivity.
  - intros Hd Hf Hdry Hyes Hans.
    rewrite Hd, (is_dir_exists _ _ Hd). cbn [andb negb].
    rewrite (find_empty_files_dir _ (args_recursive args)
               (args_ignore_hidden args) _ Hd) in Hf |- *.
    destruct (empty_among fs _ _) as [|f files] eqn:E; [congruence |].
    rewrite Hdry, Hyes. cbn [negb andb].
    rewrite (proj2 (String.eqb_neq _ _) Hans). cbn [negb].
    unfold make_quarantine_dir, bind, mkdir, ret.
    destruct (mkdir_parents fs _) as [fs1|] eqn:Hmk; [| reflexivity].
    eexists. split; [reflexivity |].
    split; [| split; [| split]].
    + match goal with
      | |- last (?l ++ [?a; ?b]) = _ =>
          change (l ++ [a; b]) with (l ++ [a] ++ [b])
      end.
      rewrite app_assoc. apply last_snoc.
    + now apply mkdir_parents_is_dir in Hmk.
    + now apply mkdir_parents_subseteq in Hmk.
    + intros p n. apply (mkdir_parents_new _ _ _ _ _ Hmk).
Qed.

Section MoveAll.

Lemma prefix_app_same (a b : string) : String.prefix a (a +:+ b) = true.
Proof.
  induction a as [|c a IH]; [now destruct b |].
  rewrite str_app_cons. simpl. destruct (ascii_dec c c); [exact IH | congruence].
Qed.

End MoveAll.

(** X14.  The loop of [main] over the files does not raise: a file whose
    move fails gets an error line and the loop goes on with the next.
    Every file gets exactly one line, moved or error, in the order of the
    files, and the records collected for the journal are as many as the
    moved lines. *)
Theorem move_all_isolates_failures (args : Args) (env : Env)
    (quarantine_dir : Path) (files : list Path) (i : nat)
    (moved_meta : list JSON) (out : list string) (fs : FileSystem) :
  exists metas lines fs',
    move_all args env quarantine_dir i files moved_meta out fs
    = (Ok (moved_meta ++ metas, out ++ lines), fs') /\
    length lines = length files /\
    Forall2
      (fun f line =>
         (exists dest,
             line = "[MOVED] " +:+ str f +:+ " -> " +:+ str dest) \/
         line = "[ERROR] Could not move " +:+ str f)
      files lines /\
    length metas
    = length (List.filter (fun line => startswith line "[MOVED] ") lines).
Proof.
  revert i moved_meta out fs.
  induction files as [|src rest IH]; intros i moved_meta out fs.
  - exists [], [], fs. simpl. unfold ret. rewrite !app_nil_r.
    repeat split; constructor.
  - simpl. unfold bind at 1. unfold try_except.
    unfold bind at 1.
    destruct (safe_move src quarantine_dir _ _ false _ fs)
      as [[[dest meta]|e] fs1]; unfold ret.
    + destruct (IH (S i) (moved_meta ++ [meta])
                  (out ++ ["[MOVED] " +:+ str src +:+ " -> " +:+ str dest])
                  fs1)
        as (metas & lines & fs' & -> & Hlen & Hall & Hcount).
      exists (meta :: metas),
             (("[MOVED] " +:+ str src +:+ " -> " +:+ str dest) :: lines),
             fs'.
      rewrite <- !app_assoc. split; [reflexivity |].
      split; [simpl; lia |]. split; [constructor; eauto |].
      cbn [List.filter]. unfold startswith at 1.
      rewrite prefix_app_same. simpl. now rewrite Hcount.
    + destruct (IH (S i) moved_meta
                  (out ++ ["[ERROR] Could not move " +:+ str src]) fs1)
        as (metas & lines & fs' & -> & Hlen & Hall & Hcount).
      exists metas, (("[ERROR] Could not move " +:+ str src) :: lines), fs'.
      rewrite <- !app_assoc. split; [reflexivity |].
      split; [simpl; lia |]. split; [constructor; eauto |].
      cbn [List.filter].
      replace (startswith ("[ERROR] Could not move " +:+ str src) "[MOVED] ")
        with false by reflexivity.
      exact Hcount.
Qed.

(** ** Sorting and the latest quarantine *)

Section Sorting.

Context {A : Type}.
Variable lt : A -> A -> bool.

Lemma insert_sorted_perm (x : A) (l : list A) :
  Permutation (insert_sorted lt x l) (x :: l).
Proof.
  induction l as [|y l IH]; simpl; [reflexivity |].
  destruct (lt y x); [| reflexivity].
  rewrite IH. apply perm_swap.
Qed.

Lemma py_sort_perm (l : list A) : Permutation (py_sort lt l) l.
Proof.
  induction l as [|x l IH]; simpl; [reflexivity |].
  rewrite insert_sorted_perm. now constructor.
Qed.

End Sorting.

Section NameOrder.

Lemma ltb_leb (a b : string) : String.ltb a b = true -> String.leb a b = true.
Proof.
  unfold String.ltb, String.leb. now destruct (String.compare a b).
Qed.

Lemma not_ltb_leb (a b : string) :
  String.ltb a b = false -> String.leb b a = true.
Proof.
  unfold String.ltb, String.leb. rewrite (String.compare_antisym a b).
  now destruct (String.compare b a).
Qed.

Lemma leb_trans (a b c : string) :
  String.leb a b = true -> String.leb b c = true -> String.leb a c = true.
Proof.
  intros H1 H2. apply Is_true_true.
  change (String.le a c). transitivity b; apply Is_true_true; assumption.
Qed.

Lemma leb_refl (a : string) : String.leb a a = true.
Proof. apply Is_true_true. change (String.le a a). reflexivity. Qed.

(** The head of a list sorted by descending name has the greatest
    name. *)
Lemma latest_is_greatest (l : list Path) (h : Path) :
  List.hd_error
    (py_sort (fun p q => String.ltb (path_name q) (path_name p)) l)
  = Some h ->
  In h l /\
  forall p, In p l -> String.leb (path_name p) (path_name h) = true.
Proof.
  revert h. induction l as [|x l IH]; intros h; [discriminate |].
  simpl.
  destruct (py_sort (fun p q => String.ltb (path_name q) (path_name p)) l)
    as [|h0 t] eqn:E.
  - simpl. intros [= <-].
    assert (l = []) as ->.
    { pose proof (py_sort_perm
                    (fun p q => String.ltb (path_name q) (path_name p)) l)
        as HP.
      rewrite E in HP. apply Permutation_length in HP.
      now destruct l. }
    split; [now left |]. intros p [<-|[]]. apply leb_refl.
  - destruct (IH h0 eq_refl) as [Hin Hmax].
    simpl. destruct (String.ltb (path_name x) (path_name h0)) eqn:Hlt.
    + simpl. intros [= <-]. split; [now right |].
      intros p [<-|Hp]; [now apply ltb_leb | now apply Hmax].
    + simpl. intros [= <-]. split; [now left |].
      intros p [<-|Hp]; [apply leb_refl |].
      eapply leb_trans; [now apply Hmax |]. now apply not_ltb_leb.
Qed.

Lemma in_iterdir (fs : FileSystem) (b p : Path) :
  In p (iterdir fs b) <->
  (exists n, fs !! p = Some n) /\ p <> [] /\ path_parent p = b.
Proof.
  unfold iterdir. rewrite filter_In, in_keys, andb_true_iff,
    bool_decide_eq_true, negb_true_iff, bool_decide_eq_false. tauto.
Qed.

End NameOrder.

(** X15.  [find_latest_quarantine] raises when the base is not a
    directory.  Otherwise it changes nothing and answers with a directory
    that lies directly in the base and whose name starts with
    [quarantine-], the one whose name is greatest in the order of strings
    among all such directories; it answers [None] exactly when the base
    holds no such directory. *)
Theorem find_latest_quarantine_greatest (base : option Path) (cwd : Path)
    (fs : FileSystem) :
  let b := match base with Some b => b | None => cwd end in
  (is_dir fs b = false ->
   find_latest_quarantine base cwd fs = (Raise OSError, fs)) /\
  (is_dir fs b = true ->
   exists answer,
     find_latest_quarantine base cwd fs = (Ok answer, fs) /\
     match answer with
     | Some q =>
         q <> [] /\ path_parent q = b /\ is_quarantine fs q = true /\
         forall p, p <> [] -> path_parent p = b ->
                   is_quarantine fs p = true ->
                   String.leb (path_name p) (path_name q) = true
     | None =>
         forall p, p <> [] -> path_parent p = b ->
                   is_quarantine fs p = false
     end).
Proof.
  cbv zeta. unfold find_latest_quarantine, bind, iterdir_io, gets, ret.
  set (b := match base with Some b => b | None => cwd end).
  split; [intros ->; reflexivity |]. intros ->.
  assert (Hcand : forall p,
             In p (List.filter (is_quarantine fs) (iterdir fs b)) <->
             p <> [] /\ path_parent p = b /\ is_quarantine fs p = true).
  { intros p. rewrite filter_In, in_iterdir. split; [tauto |].
    intros (H0 & Hp & Hq). repeat split; try assumption.
    unfold is_quarantine, is_dir in Hq. apply andb_true_iff in Hq as [Hq _].
    rewrite stat_lookup in Hq by assumption.
    destruct (fs !! p); [eauto | discriminate]. }
  destruct (List.filter (is_quarantine fs) (iterdir fs b)) as [|c l] eqn:E.
  - exists None. split; [reflexivity |]. intros p H0 Hp.
    destruct (is_quarantine fs p) eqn:Hq; [| reflexivity].
    exfalso. now apply (proj2 (Hcand p)).
  - destruct (List.hd_error _) as [h|] eqn:Eh.
    + exists (Some h). split; [reflexivity |].
      apply latest_is_greatest in Eh as [Hin Hmax].
      apply Hcand in Hin as (H0 & Hp & Hq). repeat split; try assumption.
      intros p Hp0 Hpp Hpq. apply Hmax. apply Hcand. auto.
    + exfalso.
      pose proof (py_sort_perm
                    (fun p q => String.ltb (path_name q) (path_name p))
                    (c :: l)) as Hperm.
      apply Permutation_length in Hperm.
      destruct (py_sort _ (c :: l)); discriminate.
Qed.

(** ** The listing of quarantines *)

Section SortingOrder.

Context {A : Type}.

Lemma insert_sorted_ext (lt lt' : A -> A -> bool) (x : A) (l : list A) :
  (forall y, In y l -> lt y x = lt' y x) ->
  insert_sorted lt x l = insert_sorted lt' x l.
Proof.
  induction l as [|y l IH]; intros H; simpl; [reflexivity |].
  rewrite <- (H y) by now left.
  destruct (lt y x); [| reflexivity].
  f_equal. apply IH. intros z Hz. apply H. now right.
Qed.

Lemma py_sort_ext (lt lt' : A -> A -> bool) (l : list A) :
  (forall x y, In x l -> In y l -> lt x y = lt' x y) ->
  py_sort lt l = py_sort lt' l.
Proof.
  induction l as [|x l IH]; intros H; simpl; [reflexivity |].
  rewrite <- IH by (intros; apply H; now right).
  apply insert_sorted_ext. intros y Hy. apply H; [| now left].
  right. eapply Permutation_in; [apply py_sort_perm | exact Hy].
Qed.

Variable key : A -> string.

Lemma insert_sorted_ascending (x : A) (l : list A) :
  ascending (fun a b => String.leb (key a) (key b)) l = true ->
  ascending (fun a b => String.leb (key a) (key b))
    (insert_sorted (fun a b => String.ltb (key a) (key b)) x l) = true.
Proof.
  induction l as [|y l IH]; simpl; [reflexivity |].
  intros [Hy Hl]%andb_true_iff.
  destruct (String.ltb (key y) (key x)) eqn:Hlt; simpl.
  - rewrite IH by assumption. rewrite andb_true_r.
    apply forallb_forall. intros z Hz.
    eapply Permutation_in in Hz; [| apply insert_sorted_perm].
    destruct Hz as [<-|Hz]; [now apply ltb_leb |].
    now apply (proj1 (forallb_forall _ _) Hy).
  - rewrite Hy, Hl, (not_ltb_leb _ _ Hlt). simpl. rewrite andb_true_r.
    apply forallb_forall. intros z Hz.
    apply (leb_trans _ (key y)); [now apply not_ltb_leb |].
    now apply (proj1 (forallb_forall _ _) Hy).
Qed.

Lemma py_sort_ascending (l : list A) :
  ascending (fun a b => String.leb (key a) (key b))
    (py_sort (fun a b => String.ltb (key a) (key b)) l) = true.
Proof.
  induction l as [|x l IH]; simpl; [reflexivity |].
  now apply insert_sorted_ascending.
Qed.

End SortingOrder.

Lemma ltb_irrefl (a : string) : String.ltb a a = false.
Proof.
  unfold String.ltb. pose proof (String.compare_antisym a a) as H.
  destruct (String.compare a a); try reflexivity; discriminate.
Qed.

Lemma parts_ltb_app (l a b : list string) :
  parts_ltb (l ++ a) (l ++ b) = parts_ltb a b.
Proof.
  induction l as [|x l IH]; simpl; [reflexivity |].
  now rewrite ltb_irrefl, String.eqb_refl, IH.
Qed.

(** Two entries of one directory are ordered by their names. *)
Lemma path_ltb_siblings (p q : Path) :
  p <> [] -> q <> [] -> path_parent p = path_parent q ->
  path_ltb p q = String.ltb (path_name p) (path_name q).
Proof.
  destruct p as [|n d]; [congruence |]. destruct q as [|m d']; [congruence |].
  simpl. intros _ _ <-. unfold path_ltb. simpl.
  rewrite parts_ltb_app. simpl.
  now rewrite andb_false_r, orb_false_r.
Qed.

Section Listing.

Variable json_loads : string -> option JSON.

Lemma count_items_total (q : Path) (fs : FileSystem) :
  exists c, count_items json_loads q fs = (Ok c, fs) /\ count_of json_loads fs q c.
Proof.
  unfold count_items, count_of.
  generalize (joinpath q ["metadata.json"]). intros meta.
  destruct (stat fs meta) as [[data m|]|] eqn:E;
    cbv [bind gets try_except load_json read_text path_exists ret raise];
    rewrite ?E.
  - assert (Hq : forall c : string,
               (forall items, json_loads data = Some (JArray items) ->
                              c = pretty (length items)) ->
               (json_loads data = None \/ json_loads data = Some JNull \/
                (exists z, json_loads data = Some (JInt z)) \/
                (exists b, json_loads data = Some (JBool b)) \/
                (exists r, json_loads data = Some (JFloat r)) -> c = "?") ->
               (forall (d' : string) (m' : nat) (items : list JSON),
                   Some (File data m) = Some (File d' m') ->
                   json_loads d' = Some (JArray items) ->
                   c = pretty (length items)) /\
               (Some (File data m) = None -> c = "?") /\
               (Some (File data m) = Some Dir -> c = "?") /\
               (forall (d' : string) (m' : nat),
                   Some (File data m) = Some (File d' m') ->
                   json_loads d' = None \/ json_loads d' = Some JNull \/
                   (exists z, json_loads d' = Some (JInt z)) \/
                   (exists b, json_loads d' = Some (JBool b)) \/
                   (exists r, json_loads d' = Some (JFloat r)) -> c = "?")).
    { intros c H1 H2. repeat split; try discriminate.
      - intros d' m' items [= <- <-]. apply H1.
      - intros d' m' [= <- <-]. apply H2. }
    destruct (json_loads data) as [v|] eqn:Ev.
    + destruct v; cbn; eexists; (split; [reflexivity |]);
        (apply Hq;
         [ intros items' Hi; try discriminate Hi; injection Hi as <-;
           reflexivity
         | intros [H|[H|[[? H]|[[? H]|[? H]]]]]; try discriminate H;
           reflexivity ]).
    + eexists; split; [reflexivity |]. apply Hq; [discriminate | reflexivity].
  - eexists; split; [reflexivity |]. repeat split; discriminate.
  - eexists; split; [reflexivity |]. repeat split; discriminate.
Qed.

Lemma list_lines_total (qs : list Path) (fs : FileSystem) :
  exists counts,
    list_lines json_loads qs fs = (Ok (zip_with listing_line qs counts), fs) /\
    Forall2 (count_of json_loads fs) qs counts.
Proof.
  induction qs as [|q qs IH]; simpl.
  - exists []. split; [reflexivity | constructor].
  - destruct (count_items_total q fs) as (c & Hc & Pc).
    destruct IH as (cs & Hcs & Pcs).
    exists (c :: cs). split; [| now constructor].
    unfold bind at 1. rewrite Hc. unfold bind at 1. rewrite Hcs. reflexivity.
Qed.

End Listing.

(** X16.  On a base that is a directory [list_quarantines] never raises and
    changes nothing, whatever the journals hold.  It lists exactly the
    directories that lie directly in the base and have a name starting
    with [quarantine-], each once, in ascending order of their names.  The
    count shown for an entry is the length of the array its journal
    decodes to, and a question mark when the journal is missing, is a
    directory, cannot be decoded, or decodes to [null], a truth value or a
    number.  On a base that is not a directory the call raises. *)
Theorem list_quarantines_report (json_loads : string -> option JSON)
    (base : option Path) (cwd : Path) (fs : FileSystem) :
  let b := match base with Some b => b | None => cwd end in
  (is_dir fs b = false ->
   list_quarantines json_loads base cwd fs = (Raise OSError, fs)) /\
  (is_dir fs b = true ->
   exists qs counts,
     Permutation qs (List.filter (is_quarantine fs) (iterdir fs b)) /\
     ascending (fun p q => String.leb (path_name p) (path_name q)) qs = true /\
     Forall2 (count_of json_loads fs) qs counts /\
     list_quarantines json_loads base cwd fs
     = (Ok (match qs with
            | [] => ["No quarantine directories found in " +:+ str b]
            | _ => "Quarantine directories:" :: zip_with listing_line qs counts
            end), fs)).
Proof.
  cbv zeta. unfold list_quarantines.
  set (b := match base with Some b => b | None => cwd end).
  split; intros Hb; unfold bind at 1; unfold iterdir_io; rewrite Hb;
    [reflexivity |].
  unfold bind at 1, gets.
  set (cands := List.filter (is_quarantine fs) (iterdir fs b)).
  assert (Hsib : forall p, In p cands -> p <> [] /\ path_parent p = b).
  { intros p [Hp _]%filter_In. apply in_iterdir in Hp. tauto. }
  assert (Hsort : py_sort path_ltb cands
                  = py_sort (fun p q => String.ltb (path_name p) (path_name q))
                      cands).
  { apply py_sort_ext. intros x y Hx Hy.
    destruct (Hsib x Hx) as [? ?], (Hsib y Hy) as [? ?].
    apply path_ltb_siblings; congruence. }
  rewrite Hsort.
  set (qs := py_sort _ cands).
  destruct (list_lines_total json_loads qs fs) as (counts & Hl & Pc).
  exists qs, counts. split; [apply py_sort_perm |].
  split; [apply (py_sort_ascending path_name) |].
  split; [exact Pc |].
  destruct qs as [|q qs']; [reflexivity |].
  unfold bind. rewrite Hl. reflexivity.
Qed.

(** ** The restore mode of [main] *)

Lemma find_latest_unchanged (base : option Path) (cwd : Path)
    (fs : FileSystem) :
  snd (find_latest_quarantine base cwd fs) = fs.
Proof.
  unfold find_latest_quarantine, bind, iterdir_io, gets, ret.
  destruct (is_dir fs _); [| reflexivity].
  now destruct (List.filter _ _).
Qed.

Lemma list_quarantines_unchanged (json_loads : string -> option JSON)
    (base : option Path) (cwd : Path) (fs : FileSystem) :
  snd (list_quarantines json_loads base cwd fs) = fs.
Proof.
  unfold list_quarantines. unfold bind at 1. unfold iterdir_io.
  destruct (is_dir fs _); [| reflexivity].
  unfold bind at 1, gets.
  destruct (py_sort _ _) as [|q qs] eqn:E; [reflexivity |].
  destruct (list_lines_total json_loads (q :: qs) fs) as (counts & Hl & _).
  unfold bind. rewrite Hl. reflexivity.
Qed.

(** X17.  The restore mode of [main] leaves the filesystem as it was when
    it only lists the quarantines, on a dry run, when the user does not
    answer yes to the prompt, and when the quarantine path given is not a
    directory.  On a dry run the answer typed at the prompt makes no
    difference to what the run does and reports. *)
Theorem main_restore_no_mutation (json_loads : string -> option JSON)
    (args : RestoreArgs) (env : Env) (fs : FileSystem) :
  (rargs_list_quarantines args = true \/
   rargs_dry_run args = true \/
   (rargs_yes args = false /\
    String.eqb (lower (strip (env_input env))) "yes" = false) \/
   (exists q, rargs_quarantine args = Some q /\ is_dir fs q = false) ->
   snd (main_restore json_loads args env fs) = fs) /\
  (forall env',
      rargs_dry_run args = true -> env_cwd env' = env_cwd env ->
      main_restore json_loads args env' fs
      = main_restore json_loads args env fs).
Proof.
  split.
  - intros H. unfold main_restore.
    destruct (rargs_list_quarantines args) eqn:El.
    { unfold bind, ret.
      pose proof (list_quarantines_unchanged json_loads
                    (Some (rargs_target args)) (env_cwd env) fs) as Hu.
      destruct (list_quarantines _ _ _ fs) as [[lines|e] fs']; exact Hu. }
    destruct H as [H|H]; [discriminate |].
    assert (Htail : forall (out : list string) (qdir : Path),
               (rargs_dry_run args = true \/
                rargs_yes args = false /\
                String.eqb (lower (strip (env_input env))) "yes" = false) ->
               snd ((let out0 :=
                       if rargs_dry_run args
                       then out ++ ["Dry-run: no files will be moved. Showing restore plan..."
                                    +:+ newline]
                       else out in
                     let prompt :=
                       newline +:+ "Restore files from " +:+ str qdir
                       +:+ "? Type 'yes' to confirm: " in
                     if negb (rargs_yes args)
                        && negb (String.eqb (lower (strip (env_input env))) "yes")
                        && negb (rargs_dry_run args)
                     then ret (out0 ++ [prompt; "Aborted by user."], None)
                     else
                       let out1 :=
                         if rargs_yes args then out0 else out0 ++ [prompt] in
                       let* outcome :=
                         restore_from_quarantine json_loads qdir
                           (rargs_dry_run args) (rargs_yes args) in
                       ret (out1, Some outcome)) fs) = fs).
    { intros out qdir Hc. cbv zeta.
      destruct (rargs_dry_run args) eqn:Ed.
      - rewrite andb_false_r. unfold bind, ret.
        pose proof (restore_dry_unchanged (rargs_yes args) json_loads qdir fs)
          as Hu.
        destruct (restore_from_quarantine _ _ true _ fs) as [[o|e] fs'];
          exact Hu.
      - destruct Hc as [Hc|[Hy Ha]]; [discriminate |].
        rewrite Hy, Ha. reflexivity. }
    destruct (rargs_quarantine args) as [qdir|] eqn:Eq.
    + unfold bind at 1. unfold bind at 1. unfold gets.
      assert (path_exists fs qdir && is_dir fs qdir = is_dir fs qdir) as ->.
      { unfold path_exists, is_dir. now destruct (stat fs qdir) as [[]|]. }
      destruct (is_dir fs qdir) eqn:Ed; cbn [negb]; unfold ret at 1;
        [| reflexivity].
      apply Htail. destruct H as [H|[H|(q & [= <-] & Hq)]]; auto. congruence.
    + unfold bind at 1. unfold bind at 1.
      pose proof (find_latest_unchanged (Some (env_cwd env)) (env_cwd env) fs)
        as Hu.
      destruct (find_latest_quarantine _ _ fs) as [[[q|]|e] fs']; simpl in Hu;
        subst fs'; try reflexivity.
      unfold ret at 1. apply Htail.
      destruct H as [H|[H|(q' & [=] & _)]]; auto.
  - intros env' Hd Hcwd. unfold main_restore. rewrite Hd, Hcwd.
    cbn [negb]. now rewrite !andb_false_r.
Qed.

(** ** Successive appends *)

Lemma cons_ne_self {A : Type} (x : A) (l : list A) : x :: l <> l.
Proof.
  intros H. apply (f_equal (@length A)) in H. simpl in H. lia.
Qed.

(** X18.  Two passes into one quarantine directory.  When the directory
    holds no journal, and the decoder reads the text the first pass
    writes back as the records of that pass, both calls return and the
    journal then holds the records of the first pass followed by those of
    the second, under the time of the second write; nothing else in the
    filesystem changes. *)
Theorem journal_accumulates (json_loads : string -> option JSON)
    (quarantine_dir : Path) (first second : list JSON) (t1 t2 : nat)
    (fs : FileSystem) :
  let meta_file := joinpath quarantine_dir ["metadata.json"] in
  stat fs meta_file = None ->
  is_dir fs quarantine_dir = true ->
  json_loads (json_dumps (JArray first)) = Some (JArray first) ->
  (let* _ := write_metadata json_loads quarantine_dir first t1 in
   write_metadata json_loads quarantine_dir second t2) fs
  = (Ok tt,
     <[meta_file := File (json_dumps (JArray (first ++ second))) t2]> fs).
Proof.
  cbv zeta. intros Hst Hq Hl. unfold bind.
  rewrite write_metadata_unfold, Hst. simpl app.
  rewrite write_text_meta by congruence.
  rewrite write_metadata_unfold.
  assert (Hm : stat (<[joinpath quarantine_dir ["metadata.json"]
                       := File (json_dumps (JArray first)) t1]> fs)
                 (joinpath quarantine_dir ["metadata.json"])
               = Some (File (json_dumps (JArray first)) t1)).
  { unfold joinpath. simpl. apply lookup_insert_eq. }
  rewrite Hm, Hl.
  rewrite write_text_meta.
  - now rewrite insert_insert_eq.
  - rewrite Hm. discriminate.
  - unfold is_dir in *. destruct quarantine_dir as [|n d]; [reflexivity |].
    simpl in *. rewrite lookup_insert_ne; [assumption |].
    unfold joinpath. simpl. apply cons_ne_self.
Qed.

(** ** Instances *)

Lemma wf_quarantined : wf fs_quarantined.
Proof. vm_compute. reflexivity. Qed.

Lemma find_empty_files_hidden_target_witness :
  has_hidden_part (Path_of_string "/t/.cache") = true /\
  stat fs_hidden (Path_of_string "/t/.cache/a.txt") = Some (File "" 1) /\
  is_dir fs_hidden (Path_of_string "/t/.cache") = true /\
  find_empty_files (Path_of_string "/t/.cache") false true fs_hidden
  = (Ok [], fs_hidden) /\
  find_empty_files (Path_of_string "/t/.cache") false false fs_hidden
  = (Ok [Path_of_string "/t/.cache/a.txt"], fs_hidden).
Proof.
  assert (H : has_hidden_part (Path_of_string "/t/.cache") = true)
    by (vm_compute; reflexivity).
  assert (Hd : is_dir fs_hidden (Path_of_string "/t/.cache") = true)
    by (vm_compute; reflexivity).
  split; [exact H |]. split; [vm_compute; reflexivity |].
  split; [exact Hd |].
  split; [| vm_compute; reflexivity].
  pose proof (find_empty_files_hidden_target fs_hidden _ false H) as Hrun.
  rewrite Hd in Hrun. exact Hrun.
Defined.

Lemma find_empty_files_exact_witness :
  is_dir fs_project (Path_of_string "/t/notes.txt") = false /\
  find_empty_files (Path_of_string "/t/notes.txt") false true fs_project
  = (Raise OSError, fs_project) /\
  is_dir fs_project (Path_of_string "/t") = true /\
  find_empty_files (Path_of_string "/t") false true fs_project
  = (Ok [Path_of_string "/t/a.txt"], fs_project) /\
  exists files,
    find_empty_files (Path_of_string "/t") false true fs_project
    = (Ok files, fs_project) /\
    (forall p,
        In p files <->
        (exists mtime, stat fs_project p = Some (File "" mtime)) /\
        path_parent p = Path_of_string "/t" /\
        (true = true -> has_hidden_part p = false)) /\
    NoDup files.
Proof.
  assert (H1 : is_dir fs_project (Path_of_string "/t/notes.txt") = false)
    by (vm_compute; reflexivity).
  assert (H2 : is_dir fs_project (Path_of_string "/t") = true)
    by (vm_compute; reflexivity).
  split; [exact H1 |].
  split.
  { exact (proj1 (find_empty_files_exact fs_project
                    (Path_of_string "/t/notes.txt") false true)
             eq_refl H1). }
  split; [exact H2 |]. split; [vm_compute; reflexivity |].
  exact (proj2 (find_empty_files_exact fs_project (Path_of_string "/t")
                  false true) (or_intror H2)).
Defined.

Lemma make_quarantine_dir_outcome_witness :
  wf fs_project /\
  let q := joinpath (Path_of_string "/t") ["quarantine-" +:+ "20240101-000000"] in
  match make_quarantine_dir None (Path_of_string "/t") "20240101-000000"
          fs_project with
  | (Ok q', fs') =>
      q' = q /\ is_dir fs' q = true /\ fs_project ⊆ fs' /\ wf fs' /\
      (forall p n, fs' !! p = Some n -> fs_project !! p = None ->
                   n = Dir /\ p `suffix_of` q) /\
      (is_dir fs_project q = true -> fs' = fs_project) /\
      (forall blocker, blocker `suffix_of` q ->
                       is_file fs_project blocker = false)
  | (Raise e, fs') =>
      e = OSError /\ fs' = fs_project /\
      exists blocker, blocker `suffix_of` q /\ is_file fs_project blocker = true
  end.
Proof.
  split; [exact wf_project |].
  exact (make_quarantine_dir_outcome None (Path_of_string "/t")
           "20240101-000000" fs_project wf_project).
Defined.

Lemma safe_move_regular_file_witness :
  let src := Path_of_string "/t/a.txt" in
  let dest := Path_of_string "/q/a.txt" in
  wf fs_project /\
  stat fs_project src = Some (File "" 1) /\
  mkdir_parents fs_project
    (path_parent
       (destination_base src (Path_of_string "/q") false
          (Path_of_string "/t")))
  = Some fs_project /\
  _unique_path_if_exists fs_project
    (destination_base src (Path_of_string "/q") false (Path_of_string "/t"))
  = dest /\
  safe_move src (Path_of_string "/q") false (Path_of_string "/t") false
    sample_time fs_project
  = (Ok (dest, move_record src dest (JInt 0) sample_time "moved"),
     <[dest := File "" 1]> (delete src fs_project)) /\
  wf (<[dest := File "" 1]> (delete src fs_project)).
Proof.
  cbv zeta.
  assert (H1 : stat fs_project (Path_of_string "/t/a.txt")
               = Some (File "" 1)) by (vm_compute; reflexivity).
  assert (H2 : mkdir_parents fs_project
                 (path_parent
                    (destination_base (Path_of_string "/t/a.txt")
                       (Path_of_string "/q") false (Path_of_string "/t")))
               = Some fs_project) by (vm_compute; reflexivity).
  assert (H3 : _unique_path_if_exists fs_project
                 (destination_base (Path_of_string "/t/a.txt")
                    (Path_of_string "/q") false (Path_of_string "/t"))
               = Path_of_string "/q/a.txt") by (vm_compute; reflexivity).
  split; [exact wf_project |]. split; [exact H1 |]. split; [exact H2 |].
  split; [exact H3 |].
  pose proof (safe_move_regular_file (Path_of_string "/t/a.txt")
                (Path_of_string "/q") false (Path_of_string "/t") sample_time
                fs_project fs_project "" 1 wf_project H1 H2) as H.
  cbv zeta in H. rewrite H3 in H.
  destruct H as (Hrun & _ & _ & _ & _ & _ & Hwf).
  split; [exact Hrun | exact Hwf].
Defined.

Lemma same_name_collision_witness :
  let q := Path_of_string "/q" in
  let first := Path_of_string "/q/a.txt" in
  let second := Path_of_string "/q/a_1.txt" in
  let fs1 := <[first := File "" 1]> (delete (Path_of_string "/t/a.txt") fs_project) in
  let fs2 := <[second := File "" 3]> (delete (Path_of_string "/t/sub/a.txt") fs1) in
  wf fs_project /\
  stat fs_project (Path_of_string "/t/a.txt") = Some (File "" 1) /\
  stat fs_project (Path_of_string "/t/sub/a.txt") = Some (File "" 3) /\
  is_dir fs_project q = true /\
  path_exists fs_project first = false /\
  path_exists fs_project second = false /\
  candidate first 1 = second /\
  safe_move (Path_of_string "/t/sub/a.txt") q false (Path_of_string "/t")
    false sample_time fs1
  = (Ok (second,
         move_record (Path_of_string "/t/sub/a.txt") second (JInt 0)
           sample_time "moved"), fs2) /\
  stat fs2 first = Some (File "" 1) /\
  stat fs2 second = Some (File "" 3).
Proof.
  cbv zeta.
  assert (H1 : stat fs_project ("a.txt" :: ["t"]) = Some (File "" 1))
    by (vm_compute; reflexivity).
  assert (H2 : stat fs_project ("a.txt" :: ["sub"; "t"]) = Some (File "" 3))
    by (vm_compute; reflexivity).
  assert (H3 : is_dir fs_project ["q"] = true) by (vm_compute; reflexivity).
  assert (H4 : path_exists fs_project ("a.txt" :: ["q"]) = false)
    by (vm_compute; reflexivity).
  assert (H5 : path_exists fs_project (candidate ("a.txt" :: ["q"]) 1) = false)
    by (vm_compute; reflexivity).
  assert (H6 : candidate ("a.txt" :: ["q"]) 1 = Path_of_string "/q/a_1.txt")
    by (vm_compute; reflexivity).
  assert (Hn : "a.txt" <> "") by discriminate.
  assert (Hd : ["t"] <> ["sub"; "t"]) by discriminate.
  pose proof (same_name_collision "a.txt" ["t"] ["sub"; "t"] ["q"] ["t"]
                sample_time sample_time fs_project "" "" 1 3 wf_project Hn Hd
                H1 H2 H3 H4 H5) as H.
  cbv zeta in H. rewrite H6 in H.
  destruct H as (_ & Hrun & _ & _ & Hs1 & Hs2).
  split; [exact wf_project |]. split; [exact H1 |]. split; [exact H2 |].
  split; [exact H3 |]. split; [exact H4 |].
  split; [rewrite <- H6; exact H5 |]. split; [exact H6 |].
  split; [exact Hrun |]. split; [exact Hs1 | exact Hs2].
Defined.

Lemma safe_move_mirrors_structure_witness :
  let src := Path_of_string "/t/sub/a.txt" in
  let dest := Path_of_string "/q/sub/a.txt" in
  let fsm := <[Path_of_string "/q/sub" := Dir]> fs_project in
  wf fs_project /\
  stat fs_project src = Some (File "" 3) /\
  mkdir_parents fs_project (Path_of_string "/q/sub") = Some fsm /\
  path_exists fsm dest = false /\
  safe_move src (Path_of_string "/q") true (Path_of_string "/t") false
    sample_time fs_project
  = (Ok (dest, move_record src dest (JInt 0) sample_time "moved"),
     <[dest := File "" 3]> (delete src fsm)) /\
  relative_to dest (Path_of_string "/q")
  = relative_to src (Path_of_string "/t").
Proof.
  cbv zeta.
  assert (H1 : stat fs_project (["a.txt"; "sub"] ++ ["t"]) = Some (File "" 3))
    by (vm_compute; reflexivity).
  assert (H2 : mkdir_parents fs_project
                 (path_parent (["a.txt"; "sub"] ++ ["q"]))
               = Some (<[Path_of_string "/q/sub" := Dir]> fs_project))
    by (vm_compute; reflexivity).
  assert (H3 : path_exists (<[Path_of_string "/q/sub" := Dir]> fs_project)
                 (["a.txt"; "sub"] ++ ["q"]) = false)
    by (vm_compute; reflexivity).
  pose proof (safe_move_mirrors_structure ["a.txt"; "sub"] ["t"] ["q"]
                sample_time fs_project _ "" 3 wf_project H1 H2 H3) as H.
  destruct H as (Hrun & Hrel & _ & _).
  split; [exact wf_project |]. split; [exact H1 |]. split; [exact H2 |].
  split; [exact H3 |]. split; [exact Hrun | exact Hrel].
Defined.

Lemma quarantine_restore_round_trip_witness :
  let src := Path_of_string "/t/a.txt" in
  wf fs_project /\
  stat fs_project src = Some (File "" 1) /\
  valid_path src = true /\
  valid_path (Path_of_string "/q") = true /\
  mkdir_parents fs_project (Path_of_string "/q") = Some fs_project /\
  exists dest meta fs1,
    safe_move src (Path_of_string "/q") false (Path_of_string "/t") false
      sample_time fs_project
    = (Ok (dest, meta), fs1) /\
    record_paths meta = Some (src, dest) /\
    (forall yes r,
        restore_entry false yes r meta fs1
        = (Ok (add_restored r (src, dest)), fs_project)).
Proof.
  cbv zeta.
  assert (H1 : stat fs_project (Path_of_string "/t/a.txt")
               = Some (File "" 1)) by (vm_compute; reflexivity).
  assert (H2 : valid_path (Path_of_string "/t/a.txt") = true)
    by (vm_compute; reflexivity).
  assert (H3 : valid_path (Path_of_string "/q") = true)
    by (vm_compute; reflexivity).
  assert (H4 : mkdir_parents fs_project
                 (path_parent
                    (destination_base (Path_of_string "/t/a.txt")
                       (Path_of_string "/q") false (Path_of_string "/t")))
               = Some fs_project) by (vm_compute; reflexivity).
  split; [exact wf_project |]. split; [exact H1 |]. split; [exact H2 |].
  split; [exact H3 |]. split; [exact H4 |].
  destruct (quarantine_restore_round_trip (Path_of_string "/t/a.txt")
              (Path_of_string "/q") false (Path_of_string "/t") sample_time
              fs_project fs_project "" 1 wf_project H1 H2 H3 H4)
    as (dest & meta & fs1 & Hrun & Hrec & Hback & _).
  exists dest, meta, fs1. split; [exact Hrun |]. split; [exact Hrec |].
  exact Hback.
Defined.

Lemma restore_to_free_original_witness :
  let entry := sample_entry "/t/a.txt" "/q/a.txt" "moved" in
  let original := Path_of_string "/t/a.txt" in
  let moved_to := Path_of_string "/q/a.txt" in
  record_paths entry = Some (original, moved_to) /\
  stat fs_quarantined moved_to = Some (File "" 1) /\
  path_exists fs_quarantined original = false /\
  restore_entry false false empty_report entry fs_quarantined
  = (Ok (add_restored empty_report (original, moved_to)),
     <[original := File "" 1]> (delete moved_to fs_quarantined)) /\
  restore_entry true false empty_report entry fs_quarantined
  = (Ok (add_restored empty_report (original, moved_to)), fs_quarantined).
Proof.
  cbv zeta.
  assert (H1 : record_paths (sample_entry "/t/a.txt" "/q/a.txt" "moved")
               = Some (Path_of_string "/t/a.txt", Path_of_string "/q/a.txt"))
    by (vm_compute; reflexivity).
  assert (H2 : stat fs_quarantined (Path_of_string "/q/a.txt")
               = Some (File "" 1)) by (vm_compute; reflexivity).
  assert (H3 : path_exists fs_quarantined (Path_of_string "/t/a.txt") = false)
    by (vm_compute; reflexivity).
  assert (H4 : is_file fs_quarantined (path_parent (Path_of_string "/t/a.txt"))
               = false) by (vm_compute; reflexivity).
  assert (H5 : mkdir_parents fs_quarantined
                 (path_parent (Path_of_string "/t/a.txt"))
               = Some fs_quarantined) by (vm_compute; reflexivity).
  pose proof (restore_to_free_original false empty_report _ _ _
                fs_quarantined "" 1 H1 H2 H3) as [Hrun Hdry].
  rewrite H4, H5 in Hrun.
  split; [exact H1 |]. split; [exact H2 |]. split; [exact H3 |].
  split; [exact Hrun | exact Hdry].
Defined.

Lemma restore_classifies_every_record_witness :
  let entries :=
    [sample_entry "/t/a.txt" "/q/a.txt" "moved";
     sample_entry "/t/b.txt" "/q/b.txt" "moved"] in
  Forall (fun e => record_paths e <> None) entries /\
  exists r' fs',
    restore_loop false false empty_report entries fs_quarantined
    = (Ok r', fs') /\
    length (restored r') + length (skipped r') + length (errors r') = 2.
Proof.
  cbv zeta.
  assert (H : Forall (fun e => record_paths e <> None)
                [sample_entry "/t/a.txt" "/q/a.txt" "moved";
                 sample_entry "/t/b.txt" "/q/b.txt" "moved"]).
  { repeat constructor; vm_compute; discriminate. }
  split; [exact H |].
  destruct (restore_classifies_every_record false false _ empty_report
              fs_quarantined H) as (r' & fs' & Hrun & Hlen & _).
  exists r', fs'. split; [exact Hrun | exact Hlen].
Defined.

Lemma restore_aborts_at_unreadable_entry_witness :
  stat fs_bad_entry (joinpath (Path_of_string "/q") ["metadata.json"])
  = Some (File "[1]" 1) /\
  json_loads "[1]" = Some (JArray ([] ++ JInt 1 :: [])) /\
  record_paths (JInt 1) = None /\
  exists e,
    (e = AttributeError \/ e = TypeError) /\
    restore_from_quarantine json_loads (Path_of_string "/q") false false
      fs_bad_entry
    = (Raise e, fs_bad_entry).
Proof.
  assert (H1 : stat fs_bad_entry
                 (joinpath (Path_of_string "/q") ["metadata.json"])
               = Some (File "[1]" 1)) by (vm_compute; reflexivity).
  assert (H2 : json_loads "[1]" = Some (JArray ([] ++ JInt 1 :: [])))
    by (vm_compute; reflexivity).
  assert (H3 : record_paths (JInt 1) = None) by reflexivity.
  split; [exact H1 |]. split; [exact H2 |]. split; [exact H3 |].
  exact (restore_aborts_at_unreadable_entry json_loads (Path_of_string "/q")
           false false fs_bad_entry fs_bad_entry "[1]" 1 [] [] (JInt 1)
           empty_report H1 H2 H3 eq_refl).
Defined.

Lemma restore_unusable_journal_witness :
  let meta_file := joinpath (Path_of_string "/q") ["metadata.json"] in
  stat fs_quarantined meta_file = None /\
  restore_from_quarantine json_loads (Path_of_string "/q") false false
    fs_quarantined
  = (Ok NoMetadata, fs_quarantined) /\
  stat fs_corrupt meta_file = Some (File "" 1) /\
  json_loads "" = None /\
  restore_from_quarantine json_loads (Path_of_string "/q") false false
    fs_corrupt
  = (Ok MetadataUnreadable, fs_corrupt) /\
  stat fs_object_journal meta_file = Some (File "{}" 1) /\
  json_loads "{}" = Some (JObject []) /\
  restore_from_quarantine json_loads (Path_of_string "/q") false false
    fs_object_journal
  = (Ok (Summary empty_report), fs_object_journal).
Proof.
  cbv zeta.
  assert (H1 : stat fs_quarantined
                 (joinpath (Path_of_string "/q") ["metadata.json"]) = None)
    by (vm_compute; reflexivity).
  assert (H2 : stat fs_corrupt
                 (joinpath (Path_of_string "/q") ["metadata.json"])
               = Some (File "" 1)) by (vm_compute; reflexivity).
  assert (H3 : json_loads "" = None) by (vm_compute; reflexivity).
  assert (H4 : stat fs_object_journal
                 (joinpath (Path_of_string "/q") ["metadata.json"])
               = Some (File "{}" 1)) by (vm_compute; reflexivity).
  assert (H5 : json_loads "{}" = Some (JObject []))
    by (vm_compute; reflexivity).
  split; [exact H1 |].
  split.
  { exact (proj1 (restore_unusable_journal json_loads (Path_of_string "/q")
                    false false fs_quarantined) H1). }
  split; [exact H2 |]. split; [exact H3 |].
  split.
  { exact (proj1 (proj2 (proj2
             (restore_unusable_journal json_loads (Path_of_string "/q")
                false false fs_corrupt)) "" 1 H2) H3). }
  split; [exact H4 |]. split; [exact H5 |].
  exact (proj1 (proj2 (proj2 (proj2 (proj2
           (restore_unusable_journal json_loads (Path_of_string "/q")
              false false fs_object_journal)) "{}" 1 H4))) H5).
Defined.

Lemma main_moves_nothing_witness :
  is_dir fs_project (args_target args_nowhere) = false /\
  main json_loads args_nowhere sample_env fs_project
  = (Ok (["Target directory does not exist or is not a directory: "
          +:+ str (args_target args_nowhere)], SysExit 1), fs_project) /\
  is_dir fs_project (args_target args_ask) = true /\
  find_empty_files (args_target args_ask) (args_recursive args_ask)
    (args_ignore_hidden args_ask) fs_project
  <> (Ok [], fs_project) /\
  lower (strip (env_input sample_env)) <> "yes" /\
  match make_quarantine_dir (args_quarantine args_ask) (env_cwd sample_env)
          (env_stamp sample_env) fs_project with
  | (Ok quarantine_dir, fs1) =>
      exists out,
        main json_loads args_ask sample_env fs_project
        = (Ok (out, Returned), fs1) /\
        last out = Some "Aborted by user." /\
        is_dir fs1 quarantine_dir = true /\
        fs_project ⊆ fs1 /\
        (forall p n, fs1 !! p = Some n -> fs_project !! p = None -> n = Dir)
  | (Raise e, fs1) =>
      main json_loads args_ask sample_env fs_project = (Raise e, fs_project)
  end.
Proof.
  assert (H1 : is_dir fs_project (args_target args_nowhere) = false)
    by (vm_compute; reflexivity).
  assert (H2 : is_dir fs_project (args_target args_ask) = true)
    by (vm_compute; reflexivity).
  assert (H3 : find_empty_files (args_target args_ask)
                 (args_recursive args_ask) (args_ignore_hidden args_ask)
                 fs_project
               <> (Ok [], fs_project)).
  { assert (E : find_empty_files (args_target args_ask)
                  (args_recursive args_ask) (args_ignore_hidden args_ask)
                  fs_project
                = (Ok [Path_of_string "/t/a.txt";
                       Path_of_string "/t/sub/a.txt"], fs_project))
      by (vm_compute; reflexivity).
    rewrite E. discriminate. }
  assert (H4 : lower (strip (env_input sample_env)) <> "yes")
    by (vm_compute; discriminate).
  split; [exact H1 |].
  split.
  { exact (proj1 (main_moves_nothing json_loads args_nowhere sample_env
                    fs_project) H1). }
  split; [exact H2 |]. split; [exact H3 |]. split; [exact H4 |].
  exact (proj2 (proj2 (main_moves_nothing json_loads args_ask sample_env
                         fs_project)) H2 H3 eq_refl eq_refl H4).
Defined.

Lemma find_latest_quarantine_greatest_witness :
  is_dir fs_two_quarantines (Path_of_string "/t") = true /\
  is_dir fs_two_quarantines (Path_of_string "/nowhere") = false /\
  find_latest_quarantine (Some (Path_of_string "/nowhere"))
    (Path_of_string "/t") fs_two_quarantines
  = (Raise OSError, fs_two_quarantines) /\
  fst (find_latest_quarantine None (Path_of_string "/t") fs_two_quarantines)
  = Ok (Some (Path_of_string "/t/quarantine-20240102-000000")) /\
  exists answer,
    find_latest_quarantine None (Path_of_string "/t") fs_two_quarantines
    = (Ok answer, fs_two_quarantines) /\
    match answer with
    | Some q =>
        q <> [] /\ path_parent q = Path_of_string "/t" /\
        is_quarantine fs_two_quarantines q = true /\
        forall p, p <> [] -> path_parent p = Path_of_string "/t" ->
                  is_quarantine fs_two_quarantines p = true ->
                  String.leb (path_name p) (path_name q) = true
    | None =>
        forall p, p <> [] -> path_parent p = Path_of_string "/t" ->
                  is_quarantine fs_two_quarantines p = false
    end.
Proof.
  assert (H1 : is_dir fs_two_quarantines (Path_of_string "/t") = true)
    by (vm_compute; reflexivity).
  assert (H2 : is_dir fs_two_quarantines (Path_of_string "/nowhere") = false)
    by (vm_compute; reflexivity).
  split; [exact H1 |]. split; [exact H2 |].
  split.
  { exact (proj1 (find_latest_quarantine_greatest
                    (Some (Path_of_string "/nowhere")) (Path_of_string "/t")
                    fs_two_quarantines) H2). }
  split; [vm_compute; reflexivity |].
  exact (proj2 (find_latest_quarantine_greatest None (Path_of_string "/t")
                  fs_two_quarantines) H1).
Defined.

Lemma list_quarantines_report_witness :
  is_dir fs_two_quarantines (Path_of_string "/t") = true /\
  fst (list_quarantines json_loads None (Path_of_string "/t")
         fs_two_quarantines)
  = Ok ["Quarantine directories:";
        " - /t/quarantine-20240101-000000  (items recorded: 1)";
        " - /t/quarantine-20240102-000000  (items recorded: ?)"] /\
  exists qs counts,
    Permutation qs
      (List.filter (is_quarantine fs_two_quarantines)
         (iterdir fs_two_quarantines (Path_of_string "/t"))) /\
    ascending (fun p q => String.leb (path_name p) (path_name q)) qs = true /\
    Forall2 (count_of json_loads fs_two_quarantines) qs counts /\
    list_quarantines json_loads None (Path_of_string "/t") fs_two_quarantines
    = (Ok (match qs with
           | [] => ["No quarantine directories found in "
                    +:+ str (Path_of_string "/t")]
           | _ => "Quarantine directories:" :: zip_with listing_line qs counts
           end), fs_two_quarantines).
Proof.
  assert (H1 : is_dir fs_two_quarantines (Path_of_string "/t") = true)
    by (vm_compute; reflexivity).
  split; [exact H1 |].
  split; [vm_compute; reflexivity |].
  exact (proj2 (list_quarantines_report json_loads None (Path_of_string "/t")
                  fs_two_quarantines) H1).
Defined.

Lemma main_restore_no_mutation_witness :
  rargs_dry_run rargs_dry = true /\
  snd (main_restore json_loads rargs_dry sample_env fs_gone) = fs_gone /\
  main_restore json_loads rargs_dry
    (mkEnv (env_cwd sample_env) "" (fun _ => "") "yes" 0) fs_gone
  = main_restore json_loads rargs_dry sample_env fs_gone.
Proof.
  assert (H1 : rargs_dry_run rargs_dry = true) by reflexivity.
  split; [exact H1 |].
  split.
  { exact (proj1 (main_restore_no_mutation json_loads rargs_dry sample_env
                    fs_gone) (or_intror (or_introl H1))). }
  exact (proj2 (main_restore_no_mutation json_loads rargs_dry sample_env
                  fs_gone) (mkEnv (env_cwd sample_env) "" (fun _ => "") "yes" 0)
           H1 eq_refl).
Defined.

Lemma journal_accumulates_witness :
  let meta_file := joinpath (Path_of_string "/q") ["metadata.json"] in
  let first := [sample_entry "/t/a.txt" "/q/a.txt" "moved"] in
  let second := [sample_entry "/t/b.txt" "/q/b.txt" "moved"] in
  stat fs_project meta_file = None /\
  is_dir fs_project (Path_of_string "/q") = true /\
  json_loads (json_dumps (JArray first)) = Some (JArray first) /\
  (let* _ := write_metadata json_loads (Path_of_string "/q") first 7 in
   write_metadata json_loads (Path_of_string "/q") second 8) fs_project
  = (Ok tt,
     <[meta_file := File (json_dumps (JArray (first ++ second))) 8]>
       fs_project).
Proof.
  cbv zeta.
  assert (H1 : stat fs_project
                 (joinpath (Path_of_string "/q") ["metadata.json"]) = None)
    by (vm_compute; reflexivity).
  assert (H2 : is_dir fs_project (Path_of_string "/q") = true)
    by (vm_compute; reflexivity).
  assert (H3 : json_loads
                 (json_dumps
                    (JArray [sample_entry "/t/a.txt" "/q/a.txt" "moved"]))
               = Some (JArray [sample_entry "/t/a.txt" "/q/a.txt" "moved"]))
    by (vm_compute; reflexivity).
  split; [exact H1 |]. split; [exact H2 |]. split; [exact H3 |].
  exact (journal_accumulates json_loads (Path_of_string "/q") _ _ 7 8
           fs_project H1 H2 H3).
Defined.
